(** * AgroPRO: NTP-aligned sampling, averaging and hourly reporting

    A shallow embedding of the two sketches of the repository,
    [Agro.cpp] and [AgroPRO.cpp], and the properties of their control
    loop: the NaN-tolerant average, the debounced sample and report
    boundaries, the clock check, the ring-buffer bookkeeping and the
    live mirroring to the cloud variables.

    Every global of a sketch is a field of its [State]; every call into
    the outside world (clock, sensors, WiFi, HTTP) is an input of the
    tick, so that one run of [loop()] is a function from a state and a
    tick to a state and the list of actions performed. *)

From Stdlib Require Import ZArith List Bool Lia.
From Stdlib Require Import Floats.SpecFloat.
From stdpp Require Import base list.
Import ListNotations.
Open Scope Z_scope.

(** ** Single precision floats

    The C type [float] of the ESP8266 is IEEE 754 binary32.  It is
    modelled by the Standard Library's [spec_float] at precision 24 and
    maximal exponent 128, with round-to-nearest-even operations. *)

Module Float32.

Definition float : Type := spec_float.

Definition prec : Z := 24.
Definition emax : Z := 128.

(** The macro [NAN]. *)
Definition NAN : float := S754_nan.

(** The literal [0] or [0.0f]. *)
Definition fzero : float := S754_zero false.

Definition pos_infinity : float := S754_infinity false.
Definition neg_infinity : float := S754_infinity true.

(** [isnan(x)]. *)
Definition isnan (x : float) : bool :=
  match x with
  | S754_nan => true
  | _ => false
  end.

(** [x + y], [x / y] and [x == y] on floats. *)
Definition fadd (x y : float) : float := SFadd prec emax x y.
Definition fdiv (x y : float) : float := SFdiv prec emax x y.
Definition feqb (x y : float) : bool := SFeqb x y.

(** The conversion of an integer to [float], as C performs it on the
    integer operand of a mixed comparison or division. *)
Definition of_int (z : Z) : float := binary_normalize prec emax z 0 false.

(** A float that is neither an infinity nor NaN. *)
Definition is_finite (x : float) : bool :=
  match x with
  | S754_zero _ | S754_finite _ _ _ => true
  | _ => false
  end.

(** A float a sensor driver can deliver: a number or NaN. *)
Definition finite_or_nan (x : float) : bool := is_finite x || isnan x.

End Float32.

Import Float32.

(** ** Machine integers *)

(** [uint8_t] and the 32-bit [unsigned long] of the ESP8266: results
    are reduced modulo the width. *)
Definition u8 (z : Z) : Z := z mod 256.
Definition u32 (z : Z) : Z := z mod 4294967296.

(** ** The broken-down time and the outside world *)

(** The three fields of [struct tm] the sketches read. *)
Record tm : Type := Build_tm { tm_sec : Z; tm_min : Z; tm_hour : Z }.

(** What [localtime_r] yields for the epoch [now] once [configTime] has
    installed a fixed offset from UTC and no daylight saving: the
    civil time of day of [now + offset]. *)
Definition civil_time (offset now : Z) : tm :=
  let l := now + offset in
  {| tm_sec := l mod 60; tm_min := (l / 60) mod 60; tm_hour := (l / 3600) mod 24 |}.

(** One pass over the sensors: [getTempC] of the probe at each index
    of the address table, and the two reads of the DHT. *)
Record Sensors : Type := Build_Sensors {
  getTempC : nat -> float;
  readTemperature : float;
  readHumidity : float
}.

(** The hourly window: one row of samples per probe and one each for
    the temperature and the humidity of the DHT. *)
Record Window : Type := Build_Window {
  ds_rows : list (list float);
  dht_temp_row : list float;
  dht_humi_row : list float
}.

(** The six cloud variables of [thingProperties.h]. *)
Record Cloud : Type := Build_Cloud {
  cloud1 : float; cloud2 : float; cloud3 : float; cloud4 : float;
  cloudTemp : float; cloudHumi : float
}.

(** [rows[j][i] = v].  An index outside the array is undefined
    behaviour in C; the model leaves the rows as they are. *)
Definition store_ds (w : Window) (j i : nat) (v : float) : Window :=
  {| ds_rows := alter (fun row => <[i := v]> row) j (ds_rows w);
     dht_temp_row := dht_temp_row w;
     dht_humi_row := dht_humi_row w |}.

Definition store_dht_temp (w : Window) (i : nat) (v : float) : Window :=
  {| ds_rows := ds_rows w;
     dht_temp_row := <[i := v]> (dht_temp_row w);
     dht_humi_row := dht_humi_row w |}.

Definition store_dht_humi (w : Window) (i : nat) (v : float) : Window :=
  {| ds_rows := ds_rows w;
     dht_temp_row := dht_temp_row w;
     dht_humi_row := <[i := v]> (dht_humi_row w) |}.

(** [rows[j]], the row handed to the averaging function. *)
Definition ds_row (w : Window) (j : nat) : list float := nth j (ds_rows w) [].

(** [a[i]]; outside the array the read is undefined behaviour, the
    model reads NaN. *)
Definition slot (a : list float) (i : nat) : float := nth i a NAN.

(** The window as [clearBuffers] and [clearSampleArrays] leave it. *)
Definition blank_window (probes capacity : nat) : Window :=
  {| ds_rows := replicate probes (replicate capacity NAN);
     dht_temp_row := replicate capacity NAN;
     dht_humi_row := replicate capacity NAN |}.

(** The shape of the arrays as declared: [probes] rows of [capacity]
    floats, and [capacity] floats for each DHT row. *)
Definition window_shape (probes capacity : nat) (w : Window) : Prop :=
  length (ds_rows w) = probes /\
  Forall (fun row => length row = capacity) (ds_rows w) /\
  length (dht_temp_row w) = capacity /\
  length (dht_humi_row w) = capacity.

(** Every slot of every row holds NaN. *)
Definition all_invalid (w : Window) : Prop :=
  Forall (Forall (fun x => isnan x = true)) (ds_rows w) /\
  Forall (fun x => isnan x = true) (dht_temp_row w) /\
  Forall (fun x => isnan x = true) (dht_humi_row w).

(** What the specification calls the snapshot of a row: its first
    [populated] slots. *)
Definition snapshot (row : list float) (populated : Z) : list float :=
  take (Z.to_nat populated) row.

(** ** The average as the specification words it *)

(** The valid entries among the first [n] slots, in index order. *)
Definition valid_entries (a : list float) (n : nat) : list float :=
  List.filter (fun x => negb (isnan x)) (take n a).

(** The invalid entries among the first [n] slots. *)
Definition invalid_entries (a : list float) (n : nat) : list float :=
  List.filter isnan (take n a).

(** The float sum of a list, accumulated from [0] in index order. *)
Definition float_sum (l : list float) : float := fold_left fadd l fzero.

(** [sum(valid)/m], and invalid when [m = 0]. *)
Definition mean_of_valid (a : list float) (n : nat) : float :=
  let v := valid_entries a n in
  match v with
  | [] => NAN
  | _ :: _ => fdiv (float_sum v) (of_int (Z.of_nat (length v)))
  end.

(** The number of actions of one tick that satisfy [p]. *)
Definition tally {Act : Type} (p : Act -> bool) (acts : list Act) : nat :=
  length (List.filter p acts).

(** ** Agro.cpp *)

Module Agro.

(** [NUM_DS = sizeof(DS_ADDR)/sizeof(DS_ADDR[0])], four addresses. *)
Definition NUM_DS : nat := 4.
Definition GMT_OFFSET : Z := 8 * 3600.
Definition MIN_EPOCH : Z := 946684800.
Definition SAMPLES_HR : Z := 6.
Definition SAMPLE_STEP : Z := 10.
Definition REPORT_SEC : Z := 5.
Definition FAST_READ_MS : Z := 5000.

(** The globals of the sketch.  [win] holds [dsBuf], [dhtTBuf] and
    [dhtHBuf]; [cloud] holds [temp1] to [temp4], [dhtTemp] and
    [dhtHumi]. *)
Record State : Type := Build_State {
  win : Window;
  bufIdx : Z;
  validSamples : Z;
  lastSampleMin : Z;
  lastReportHr : Z;
  lastFastRead : Z;
  cloud : Cloud
}.

Definition dsBuf (s : State) : list (list float) := ds_rows (win s).
Definition dhtTBuf (s : State) : list float := dht_temp_row (win s).
Definition dhtHBuf (s : State) : list float := dht_humi_row (win s).
Definition temp1 (s : State) : float := cloud1 (cloud s).
Definition temp2 (s : State) : float := cloud2 (cloud s).
Definition temp3 (s : State) : float := cloud3 (cloud s).
Definition temp4 (s : State) : float := cloud4 (cloud s).
Definition dhtTemp (s : State) : float := cloudTemp (cloud s).
Definition dhtHumi (s : State) : float := cloudHumi (cloud s).

(** What one run of [loop()] reads from the outside: the two calls
    of [millis()], the sensors as the fast pass would find them,
    [time(nullptr)] and the [tm] that [localtime_r] fills in, the
    sensors as the boundary sample would find them, the count that
    [snprintf] would return for the text of the report (the sketch
    does not keep it) and the status that [http.POST] would return. *)
Record Tick : Type := Build_Tick {
  millis_check : Z;
  millis_stamp : Z;
  fast_pass : Sensors;
  now : Z;
  t : tm;
  boundary_pass : Sensors;
  written_chars : Z;
  http_code : Z
}.

(** What [postSheet()] posts.  [snprintf(js,sizeof(js),...)] formats
    the six averages into the 256 bytes of [js] and the sketch posts
    [js] without a look at the count returned: the body is the whole
    text of the averages when the count is below 256, the first 255
    characters of that text when the count is 256 or more, and
    whatever the uninitialised [js] holds when [snprintf] fails with
    a negative count. *)
Inductive Body : Type :=
| Whole (averages : list float)
| Cut (averages : list float)
| Unformatted.

(** What one run of [loop()] does to the outside. *)
Inductive Action : Type :=
| FastRead
| Sampled (at_index : Z)
| Posted (body : Body) (code : Z).

Definition is_sample (a : Action) : bool :=
  match a with Sampled _ => true | _ => false end.
Definition is_post (a : Action) : bool :=
  match a with Posted _ _ => true | _ => false end.

(** [validSamples] read as the condition of an [if]. *)
Definition populated (s : State) : bool := negb (validSamples s =? 0).

(** The ring-buffer invariant: the arrays have their declared
    shape, the write index is within the capacity and the count is
    at most the capacity. *)
Definition ring_ok (s : State) : Prop :=
  window_shape NUM_DS (Z.to_nat SAMPLES_HR) (win s) /\
  0 <= bufIdx s < SAMPLES_HR /\
  0 <= validSamples s <= SAMPLES_HR.


(** The actions hold neither a sample nor a post. *)
Definition tally_free (acts : list Action) : Prop :=
  tally is_sample acts = 0%nat /\ tally is_post acts = 0%nat.

(** The state after [setup()]: the initialisers of the globals and
    one [clearBuffers()]. *)
Definition boot (c : Cloud) : State :=
  {| win := blank_window NUM_DS (Z.to_nat SAMPLES_HR);
     bufIdx := 0; validSamples := 0;
     lastSampleMin := -1; lastReportHr := -1;
     lastFastRead := 0; cloud := c |}.

(** [float avg(const float* a, uint8_t n)]: the loop, with its
    [uint8_t] index and counter, then the guarded division. *)
Fixpoint avg_loop (a : list float) (steps : nat) (i : Z) (s : float) (c : Z)
  : float * Z :=
  match steps with
  | O => (s, c)
  | S steps' =>
      let x := slot a (Z.to_nat i) in
      if isnan x then avg_loop a steps' (u8 (i + 1)) s c
      else avg_loop a steps' (u8 (i + 1)) (fadd s x) (u8 (c + 1))
  end.

Definition avg (a : list float) (n : Z) : float :=
  let '(s, c) := avg_loop a (Z.to_nat n) 0 fzero 0 in
  if c =? 0 then NAN else fdiv s (of_int c).

(** [clearBuffers()]. *)
Definition clearBuffers (w : Window) : Window :=
  fold_left
    (fun w i =>
       let w1 := fold_left (fun w j => store_ds w j i NAN) (seq 0 4) w in
       store_dht_humi (store_dht_temp w1 i NAN) i NAN)
    (seq 0 (Z.to_nat SAMPLES_HR)) w.

(** [postSheet()]: the six averages over the first [validSamples]
    slots are formatted into [js], and [js] is posted whatever count
    [chars] the formatting returns; no global changes. *)
Definition postSheet (s : State) (chars code : Z) : Action :=
  let averages :=
    [ avg (ds_row (win s) 0) (validSamples s);
      avg (ds_row (win s) 1) (validSamples s);
      avg (ds_row (win s) 2) (validSamples s);
      avg (ds_row (win s) 3) (validSamples s);
      avg (dhtTBuf s) (validSamples s);
      avg (dhtHBuf s) (validSamples s) ] in
  Posted (if chars <? 0 then Unformatted
          else if chars <? 256 then Whole averages
          else Cut averages) code.

(** [syncNTP()]: the clock is read once, and again after each wait of
    500 ms, as long as it is below [MIN_EPOCH] and the counter [t],
    which starts at 20, has not run out.  [clock i] is what the
    [i]-th call of [time(nullptr)] after the first returns; the result
    is the number of waits and the last reading. *)
Fixpoint syncNTP_wait (clock : nat -> Z) (waits : nat) (t : nat) (n : Z) : nat * Z :=
  if n <? MIN_EPOCH then
    match t with
    | O => (waits, n)
    | S t' => syncNTP_wait clock (S waits) t' (clock (S waits))
    end
  else (waits, n).

Definition syncNTP (clock : nat -> Z) : nat * Z := syncNTP_wait clock 0 20 (clock 0%nat).

Section WithDriver.

(** The macro [DEVICE_DISCONNECTED_C] of the DallasTemperature
    library, which the repository does not define. *)
Variable DEVICE_DISCONNECTED_C : float.

(** [(tc==DEVICE_DISCONNECTED_C||tc==85||tc==-127)?NAN:tc]. *)
Definition probe_value (tc : float) : float :=
  if feqb tc DEVICE_DISCONNECTED_C || feqb tc (of_int 85) || feqb tc (of_int (-127))
  then NAN else tc.

(** [readSensorsFast()]. *)
Definition readSensorsFast (s : State) (r : Sensors) : State :=
  let dsT := map (fun i => probe_value (getTempC r i)) (seq 0 NUM_DS) in
  let dhtT := readTemperature r in
  let dhtH := readHumidity r in
  {| win := win s; bufIdx := bufIdx s; validSamples := validSamples s;
     lastSampleMin := lastSampleMin s; lastReportHr := lastReportHr s;
     lastFastRead := lastFastRead s;
     cloud := {| cloud1 := slot dsT 0; cloud2 := slot dsT 1;
                 cloud3 := slot dsT 2; cloud4 := slot dsT 3;
                 cloudTemp := if isnan dhtT then dhtTemp s else dhtT;
                 cloudHumi := if isnan dhtH then dhtHumi s else dhtH |} |}.

(** Step 1 of [loop()]: the fast read every [FAST_READ_MS]. *)
Definition fast_step (s : State) (k : Tick) : State * list Action :=
  if FAST_READ_MS <=? u32 (millis_check k - lastFastRead s) then
    (readSensorsFast
       {| win := win s; bufIdx := bufIdx s; validSamples := validSamples s;
          lastSampleMin := lastSampleMin s; lastReportHr := lastReportHr s;
          lastFastRead := millis_stamp k; cloud := cloud s |}
       (fast_pass k),
     [FastRead])
  else (s, []).

(** The guard of the ten-minute sample. *)
Definition sample_due (s : State) (k : Tick) : bool :=
  (Z.rem (tm_min (t k)) SAMPLE_STEP =? 0) && (tm_sec (t k) =? 0)
  && negb (lastSampleMin s =? tm_min (t k)).

(** The body of the ten-minute sample: the slot [bufIdx] of every
    row is written, then the counters advance. *)
Definition take_sample (s : State) (k : Tick) : State :=
  let r := boundary_pass k in
  let i := Z.to_nat (bufIdx s) in
  let w1 := fold_left (fun w j => store_ds w j i (probe_value (getTempC r j)))
                      (seq 0 NUM_DS) (win s) in
  let tt := readTemperature r in
  let hh := readHumidity r in
  let w2 := store_dht_temp w1 i (if isnan tt then NAN else tt) in
  let w3 := store_dht_humi w2 i (if isnan hh then NAN else hh) in
  {| win := w3;
     bufIdx := u8 (Z.rem (bufIdx s + 1) SAMPLES_HR);
     validSamples := Z.min (u8 (validSamples s + 1)) SAMPLES_HR;
     lastSampleMin := tm_min (t k);
     lastReportHr := lastReportHr s;
     lastFastRead := lastFastRead s; cloud := cloud s |}.

Definition sample_step (s : State) (k : Tick) : State * list Action :=
  if sample_due s k then (take_sample s k, [Sampled (bufIdx s)]) else (s, []).

(** [if(t.tm_min%SAMPLE_STEP!=0) lastSampleMin=-1;] *)
Definition rearm_step (s : State) (k : Tick) : State :=
  if negb (Z.rem (tm_min (t k)) SAMPLE_STEP =? 0) then
    {| win := win s; bufIdx := bufIdx s; validSamples := validSamples s;
       lastSampleMin := -1; lastReportHr := lastReportHr s;
       lastFastRead := lastFastRead s; cloud := cloud s |}
  else s.

(** The guard of the hourly post. *)
Definition report_due (s : State) (k : Tick) : bool :=
  (tm_min (t k) =? 0) && (tm_sec (t k) =? REPORT_SEC)
  && negb (lastReportHr s =? tm_hour (t k)) && negb (validSamples s =? 0).

(** [clearBuffers(); bufIdx=0; validSamples=0; lastReportHr=t.tm_hour;] *)
Definition close_window (s : State) (k : Tick) : State :=
  {| win := clearBuffers (win s); bufIdx := 0; validSamples := 0;
     lastSampleMin := lastSampleMin s; lastReportHr := tm_hour (t k);
     lastFastRead := lastFastRead s; cloud := cloud s |}.

Definition report_step (s : State) (k : Tick) : State * list Action :=
  if report_due s k
  then (close_window s k, [postSheet s (written_chars k) (http_code k)])
  else (s, []).

(** [loop()]. *)
Definition loop (s : State) (k : Tick) : State * list Action :=
  let '(s1, a1) := fast_step s k in
  if now k <? MIN_EPOCH then (s1, a1)
  else
    let '(s2, a2) := sample_step s1 k in
    let s3 := rearm_step s2 k in
    let '(s4, a4) := report_step s3 k in
    (s4, a1 ++ a2 ++ a4).

(** What a sample stores for the six channels, in the order of the
    report: the four probes, then the temperature and the humidity of
    the DHT. *)
Definition stored (r : Sensors) : list float :=
  [ probe_value (getTempC r 0); probe_value (getTempC r 1);
    probe_value (getTempC r 2); probe_value (getTempC r 3);
    (if isnan (readTemperature r) then NAN else readTemperature r);
    (if isnan (readHumidity r) then NAN else readHumidity r) ].

End WithDriver.

End Agro.

(** ** AgroPRO.cpp *)

Module AgroPRO.

Definition NUM_DS18B20_SENSORS : nat := 4.
Definition GMT_OFFSET_SECONDS : Z := 8 * 3600.
Definition MIN_EPOCH_TIME_SEC : Z := 946684800.
Definition NTP_RESYNC_INTERVAL_MS : Z := 12 * 3600 * 1000.
Definition SAMPLES_PER_HOUR : Z := 6.
Definition SAMPLING_INTERVAL_MIN : Z := 10.
Definition REPORTING_TRIGGER_SECOND : Z := 5.

(** The globals of the sketch.  [win] holds [ds18b20_temp_samples],
    [dht_temp_samples] and [dht_humidity_samples]; [cloud] holds
    [sensor1] to [sensor4], [dhtTemp] and [dhtHumi].  The counters are
    [int]: they are integers here, and stay far from the ends of the
    32-bit range in every run from [boot]. *)
Record State : Type := Build_State {
  win : Window;
  current_sample_index : Z;
  samples_taken_this_hour : Z;
  last_sample_minute_taken : Z;
  last_report_hour_sent : Z;
  lastNtpSyncMillis : Z;
  cloud : Cloud
}.

Definition ds18b20_temp_samples (s : State) : list (list float) := ds_rows (win s).
Definition dht_temp_samples (s : State) : list float := dht_temp_row (win s).
Definition dht_humidity_samples (s : State) : list float := dht_humi_row (win s).
Definition sensor1 (s : State) : float := cloud1 (cloud s).
Definition sensor2 (s : State) : float := cloud2 (cloud s).
Definition sensor3 (s : State) : float := cloud3 (cloud s).
Definition sensor4 (s : State) : float := cloud4 (cloud s).
Definition dhtTemp (s : State) : float := cloudTemp (cloud s).
Definition dhtHumi (s : State) : float := cloudHumi (cloud s).

(** What one run of [loop()] reads from the outside: [millis()],
    [WiFi.status() == WL_CONNECTED] at the resync and in the report,
    [time(nullptr)] and the [tm] of [localtime_r], the sensors at the
    sample, the count [snprintf] returns, whether [http_client.begin]
    succeeds and the status [POST] returns. *)
Record Tick : Type := Build_Tick {
  current_millis : Z;
  wifi_at_sync : bool;
  now_epoch : Z;
  time_info : tm;
  sensors : Sensors;
  wifi_at_report : bool;
  written_chars : Z;
  begin_ok : bool;
  http_response_code : Z
}.

(** How far [reportDataToGoogleSheet()] got. *)
Inductive Delivery : Type :=
| NoWiFi
| EncodingFailed (averages : list float)
| ConnectFailed (averages : list float)
| Post (averages : list float) (code : Z).

(** What one run of [loop()] does to the outside. *)
Inductive Action : Type :=
| NtpSync
| Sampled (at_index : Z)
| Report (d : Delivery).

Definition is_sample (a : Action) : bool :=
  match a with Sampled _ => true | _ => false end.
Definition is_report (a : Action) : bool :=
  match a with Report _ => true | _ => false end.

(** [samples_taken_this_hour > 0]. *)
Definition populated (s : State) : bool := 0 <? samples_taken_this_hour s.

(** The ring-buffer invariant: the arrays have their declared
    shape, the write index is within the capacity and the count is
    at most the capacity. *)
Definition ring_ok (s : State) : Prop :=
  window_shape NUM_DS18B20_SENSORS (Z.to_nat SAMPLES_PER_HOUR) (win s) /\
  0 <= current_sample_index s < SAMPLES_PER_HOUR /\
  0 <= samples_taken_this_hour s <= SAMPLES_PER_HOUR.


(** The actions hold neither a sample nor a report. *)
Definition tally_free (acts : list Action) : Prop :=
  tally is_sample acts = 0%nat /\ tally is_report acts = 0%nat.

(** The state after [setup()]. *)
Definition boot (c : Cloud) : State :=
  {| win := blank_window NUM_DS18B20_SENSORS (Z.to_nat SAMPLES_PER_HOUR);
     current_sample_index := 0; samples_taken_this_hour := 0;
     last_sample_minute_taken := -1; last_report_hour_sent := -1;
     lastNtpSyncMillis := 0; cloud := c |}.

(** [float calculateAverage(const float arr[], int num_samples)]. *)
Fixpoint calculateAverage_loop (arr : list float) (steps : nat) (i : Z)
    (sum : float) (valid_sample_count : Z) : float * Z :=
  match steps with
  | O => (sum, valid_sample_count)
  | S steps' =>
      let x := slot arr (Z.to_nat i) in
      if negb (isnan x)
      then calculateAverage_loop arr steps' (i + 1) (fadd sum x) (valid_sample_count + 1)
      else calculateAverage_loop arr steps' (i + 1) sum valid_sample_count
  end.

Definition calculateAverage (arr : list float) (num_samples : Z) : float :=
  if num_samples =? 0 then NAN
  else
    let '(sum, valid_sample_count) :=
      calculateAverage_loop arr (Z.to_nat num_samples) 0 fzero 0 in
    if 0 <? valid_sample_count then fdiv sum (of_int valid_sample_count) else NAN.

(** [clearSampleArrays()]. *)
Definition clearSampleArrays (w : Window) : Window :=
  fold_left
    (fun w i =>
       let w1 := fold_left (fun w j => store_ds w j i NAN)
                           (seq 0 NUM_DS18B20_SENSORS) w in
       store_dht_humi (store_dht_temp w1 i NAN) i NAN)
    (seq 0 (Z.to_nat SAMPLES_PER_HOUR)) w.

(** [reportDataToGoogleSheet()]: nothing is computed without WiFi;
    otherwise the six averages are formatted, and posted when the
    body fits its 256 bytes and the connection opens.  No global
    changes. *)
Definition reportDataToGoogleSheet (s : State) (k : Tick) : Delivery :=
  if negb (wifi_at_report k) then NoWiFi
  else
    let n := samples_taken_this_hour s in
    let averages :=
      map (fun i => calculateAverage (ds_row (win s) i) n) (seq 0 NUM_DS18B20_SENSORS)
      ++ [ calculateAverage (dht_temp_samples s) n;
           calculateAverage (dht_humidity_samples s) n ] in
    if (written_chars k <? 0) || (256 <=? written_chars k) then EncodingFailed averages
    else if begin_ok k then Post averages (http_response_code k)
    else ConnectFailed averages.

Definition NTP_SYNC_MAX_TRIES : nat := 20.

(** [synchronizeNtpTime()]: the clock is read once, and again after
    each wait of [NTP_SYNC_RETRY_DELAY_MS], as long as it is below
    [MIN_EPOCH_TIME_SEC] and retries are left.  [clock i] is what the
    [i]-th call of [time(nullptr)] after the first returns; the result
    is the number of waits, the last reading and whether the
    synchronisation is reported as done. *)
Fixpoint synchronizeNtpTime_wait (clock : nat -> Z) (waits : nat) (retries : nat)
    (now : Z) : nat * Z :=
  if now <? MIN_EPOCH_TIME_SEC then
    match retries with
    | O => (waits, now)
    | S retries' =>
        synchronizeNtpTime_wait clock (S waits) retries' (clock (S waits))
    end
  else (waits, now).

Definition synchronizeNtpTime (clock : nat -> Z) : nat * Z * bool :=
  let '(waits, now) :=
    synchronizeNtpTime_wait clock 0 NTP_SYNC_MAX_TRIES (clock 0%nat) in
  (waits, now, negb (now <? MIN_EPOCH_TIME_SEC)).

Section WithDriver.

(** The macro [DEVICE_DISCONNECTED_C] of the DallasTemperature
    library, which the repository does not define. *)
Variable DEVICE_DISCONNECTED_C : float.

(** The test of [takeSample] on a probe reading.  The source
    compares against the [double] literals [85.0] and [-127.0];
    the promotion of a [float] to [double] is exact and both
    literals are binary32 values, so the comparison is the one on
    [float]. *)
Definition probe_invalid (temp_c : float) : bool :=
  feqb temp_c DEVICE_DISCONNECTED_C || feqb temp_c (of_int 85)
  || feqb temp_c (of_int (-127)).

(** [takeSample(sample_idx)]: the slot of every row, then the six
    cloud variables from those slots. *)
Definition takeSample (s : State) (sample_idx : Z) (r : Sensors) : State :=
  let i := Z.to_nat sample_idx in
  let w1 :=
    fold_left
      (fun w j =>
         let temp_c := getTempC r j in
         if probe_invalid temp_c then store_ds w j i NAN else store_ds w j i temp_c)
      (seq 0 NUM_DS18B20_SENSORS) (win s) in
  let dht_temp := readTemperature r in
  let dht_hum := readHumidity r in
  let w2 := store_dht_temp w1 i (if negb (isnan dht_temp) then dht_temp else NAN) in
  let w3 := store_dht_humi w2 i (if negb (isnan dht_hum) then dht_hum else NAN) in
  {| win := w3;
     current_sample_index := current_sample_index s;
     samples_taken_this_hour := samples_taken_this_hour s;
     last_sample_minute_taken := last_sample_minute_taken s;
     last_report_hour_sent := last_report_hour_sent s;
     lastNtpSyncMillis := lastNtpSyncMillis s;
     cloud := {| cloud1 := slot (ds_row w3 0) i; cloud2 := slot (ds_row w3 1) i;
                 cloud3 := slot (ds_row w3 2) i; cloud4 := slot (ds_row w3 3) i;
                 cloudTemp := slot (dht_temp_row w3) i;
                 cloudHumi := slot (dht_humi_row w3) i |} |}.

(** The periodic resynchronisation at the head of [loop()]. *)
Definition resync_step (s : State) (k : Tick) : State * list Action :=
  if (NTP_RESYNC_INTERVAL_MS <? u32 (current_millis k - lastNtpSyncMillis s))
     || (lastNtpSyncMillis s =? 0)
  then
    ({| win := win s; current_sample_index := current_sample_index s;
        samples_taken_this_hour := samples_taken_this_hour s;
        last_sample_minute_taken := last_sample_minute_taken s;
        last_report_hour_sent := last_report_hour_sent s;
        lastNtpSyncMillis := current_millis k; cloud := cloud s |},
     if wifi_at_sync k then [NtpSync] else [])
  else (s, []).

(** The guard of the ten-minute sample. *)
Definition sample_due (s : State) (k : Tick) : bool :=
  (Z.rem (tm_min (time_info k)) SAMPLING_INTERVAL_MIN =? 0)
  && (tm_sec (time_info k) =? 0)
  && negb (last_sample_minute_taken s =? tm_min (time_info k)).

(** The body of the ten-minute sample. *)
Definition sample_body (s : State) (k : Tick) : State :=
  let s1 := takeSample s (current_sample_index s) (sensors k) in
  {| win := win s1;
     current_sample_index := Z.rem (current_sample_index s1 + 1) SAMPLES_PER_HOUR;
     samples_taken_this_hour := Z.min (samples_taken_this_hour s1 + 1) SAMPLES_PER_HOUR;
     last_sample_minute_taken := tm_min (time_info k);
     last_report_hour_sent := last_report_hour_sent s1;
     lastNtpSyncMillis := lastNtpSyncMillis s1; cloud := cloud s1 |}.

Definition sample_step (s : State) (k : Tick) : State * list Action :=
  if sample_due s k then (sample_body s k, [Sampled (current_sample_index s)])
  else (s, []).

(** The reset of [last_sample_minute_taken] off the sampling
    minute. *)
Definition rearm_step (s : State) (k : Tick) : State :=
  if negb (Z.rem (tm_min (time_info k)) SAMPLING_INTERVAL_MIN =? 0) then
    {| win := win s; current_sample_index := current_sample_index s;
       samples_taken_this_hour := samples_taken_this_hour s;
       last_sample_minute_taken := -1;
       last_report_hour_sent := last_report_hour_sent s;
       lastNtpSyncMillis := lastNtpSyncMillis s; cloud := cloud s |}
  else s.

(** The guard of the hourly report. *)
Definition report_due (s : State) (k : Tick) : bool :=
  (tm_min (time_info k) =? 0)
  && (tm_sec (time_info k) =? REPORTING_TRIGGER_SECOND)
  && negb (last_report_hour_sent s =? tm_hour (time_info k))
  && (0 <? samples_taken_this_hour s).

(** The reset for the next hour. *)
Definition close_window (s : State) (k : Tick) : State :=
  {| win := clearSampleArrays (win s);
     current_sample_index := 0; samples_taken_this_hour := 0;
     last_sample_minute_taken := last_sample_minute_taken s;
     last_report_hour_sent := tm_hour (time_info k);
     lastNtpSyncMillis := lastNtpSyncMillis s; cloud := cloud s |}.

Definition report_step (s : State) (k : Tick) : State * list Action :=
  if report_due s k
  then (close_window s k, [Report (reportDataToGoogleSheet s k)])
  else (s, []).

(** [loop()]. *)
Definition loop (s : State) (k : Tick) : State * list Action :=
  let '(s1, a1) := resync_step s k in
  if now_epoch k <? MIN_EPOCH_TIME_SEC then (s1, a1)
  else
    let '(s2, a2) := sample_step s1 k in
    let s3 := rearm_step s2 k in
    let '(s4, a4) := report_step s3 k in
    (s4, a1 ++ a2 ++ a4).

(** What a sample stores for the six channels, in the order of the
    report. *)
Definition stored (r : Sensors) : list float :=
  [ (if probe_invalid (getTempC r 0) then NAN else getTempC r 0);
    (if probe_invalid (getTempC r 1) then NAN else getTempC r 1);
    (if probe_invalid (getTempC r 2) then NAN else getTempC r 2);
    (if probe_invalid (getTempC r 3) then NAN else getTempC r 3);
    (if negb (isnan (readTemperature r)) then readTemperature r else NAN);
    (if negb (isnan (readHumidity r)) then readHumidity r else NAN) ].

End WithDriver.

End AgroPRO.

(** ** Auxiliary definitions of the proofs *)

(** The entries of a list that are not NaN. *)
Definition valid_of (l : list float) : list float :=
  List.filter (fun x => negb (isnan x)) l.

(** What a sample writes: the slot [i] of each row, nothing else. *)
Definition sampled_window (w : Window) (i : nat) (f : nat -> float) (tt hh : float)
  : Window :=
  {| ds_rows := imap (fun j row => <[i := f j]> row) (ds_rows w);
     dht_temp_row := <[i := tt]> (dht_temp_row w);
     dht_humi_row := <[i := hh]> (dht_humi_row w) |}.

(** A reading that compares equal to one of the three values the
    sketches treat as a failed probe: the disconnected-device value
    [d], 85 and -127. *)
Definition is_sentinel (d x : float) : bool :=
  feqb x d || feqb x (of_int 85) || feqb x (of_int (-127)).

(** No slot of a probe row holds a sentinel. *)
Definition probes_clean (d : float) (w : Window) : Prop :=
  Forall (Forall (fun x => is_sentinel d x = false)) (ds_rows w).

(** The float of the count [c] is a non-zero finite float. *)
Definition count_is_finite (c : Z) : bool :=
  match of_int c with
  | S754_finite _ _ _ => true
  | _ => false
  end.

(** ** The boundaries both sketches share *)

(** Both sketches sample on the minutes divisible by ten, at second
    zero, and report at minute zero, second five.  The guards below
    are the conditions of the two [if] of [loop()], read on the
    debounce variable alone. *)
Definition on_sampling_minute (c : tm) : bool := Z.rem (tm_min c) 10 =? 0.

Definition sample_guard (last_min : Z) (c : tm) : bool :=
  on_sampling_minute c && (tm_sec c =? 0) && negb (last_min =? tm_min c).

(** The debounce variable after the sample and the reset that follows
    it. *)
Definition next_last_min (last_min : Z) (c : tm) : Z :=
  if on_sampling_minute c
  then (if sample_guard last_min c then tm_min c else last_min)
  else -1.

Definition report_guard (last_hr : Z) (populated : bool) (c : tm) : bool :=
  (tm_min c =? 0) && (tm_sec c =? 5) && negb (last_hr =? tm_hour c) && populated.

(** The epoch [b] is a sample boundary: a wall-clock second whose
    minute is divisible by ten and whose second is zero. *)
Definition sample_boundary (offset b : Z) : Prop :=
  on_sampling_minute (civil_time offset b) = true /\ tm_sec (civil_time offset b) = 0.

(** The epoch [b] is a report boundary: minute zero, second five. *)
Definition report_boundary (offset b : Z) : Prop :=
  tm_min (civil_time offset b) = 0 /\ tm_sec (civil_time offset b) = 5.

Section Runs.

Context {St Tk Act : Type}.
Variable step : St -> Tk -> St * list Act.
Variable epoch : Tk -> Z.

(** The number of actions satisfying [p] that the run of [ks] from
    [s] performs at ticks whose clock reads the epoch [b]. *)
Fixpoint fired_at (p : Act -> bool) (b : Z) (s : St) (ks : list Tk) : nat :=
  match ks with
  | [] => 0%nat
  | k :: ks' =>
      let here := if epoch k =? b then tally p (snd (step s k)) else 0%nat in
      (here + fired_at p b (fst (step s k)) ks')%nat
  end.

(** The epochs of the ticks at which the run of [ks] from [s]
    performs an action satisfying [p], in the order of the run. *)
Fixpoint fired_epochs (p : Act -> bool) (s : St) (ks : list Tk) : list Z :=
  match ks with
  | [] => []
  | k :: ks' =>
      (if Nat.ltb 0 (tally p (snd (step s k))) then [epoch k] else [])
      ++ fired_epochs p (fst (step s k)) ks'
  end.

(** The state after the run of [ks] from [s]. *)
Definition final (s : St) (ks : list Tk) : St :=
  fold_left (fun s k => fst (step s k)) ks s.

(** The clock never runs backwards from [prev] on, and two
    consecutive polls are at most [gap] seconds apart. *)
Fixpoint steady (gap prev : Z) (ks : list Tk) : Prop :=
  match ks with
  | [] => True
  | k :: ks' => prev <= epoch k <= prev + gap /\ steady gap (epoch k) ks'
  end.

(** The clock never runs backwards from [prev] on. *)
Fixpoint monotone (prev : Z) (ks : list Tk) : Prop :=
  match ks with
  | [] => True
  | k :: ks' => prev <= epoch k /\ monotone (epoch k) ks'
  end.

End Runs.

(** A tick over a valid wall clock: the epoch has passed the minimum
    and the broken-down time is the civil time of the epoch. *)
Definition on_wall_clock {Tk : Type} (epoch : Tk -> Z) (clock : Tk -> tm)
    (offset min_epoch : Z) (k : Tk) : Prop :=
  min_epoch <= epoch k /\ clock k = civil_time offset (epoch k).

(** The debounce variable [last_min] is consistent with a last poll at
    the epoch [e]: it is cleared and [e] is no sample boundary, or it
    holds the minute of [e], a sampling minute. *)
Definition settled (offset last_min e : Z) : Prop :=
  (last_min = -1 /\ ~ sample_boundary offset e) \/
  (on_sampling_minute (civil_time offset e) = true /\
   last_min = tm_min (civil_time offset e)).

(** ** Ticks over a valid wall clock, and test inputs *)

(** A sensor pass in which every probe and the DHT read [v]. *)
Definition all_read (v : float) : Sensors :=
  {| getTempC := fun _ => v; readTemperature := v; readHumidity := v |}.

Module AgroClock.

(** A tick of [Agro.cpp] over a valid wall clock. *)
Definition wall_clock : Agro.Tick -> Prop :=
  on_wall_clock Agro.now Agro.t Agro.GMT_OFFSET Agro.MIN_EPOCH.

(** The poll at the epoch [e] and at [ms] milliseconds of uptime,
    with every sensor reading [v], a text of 100 characters and the
    server answering 200. *)
Definition poll (e ms : Z) (v : float) : Agro.Tick :=
  {| Agro.millis_check := ms; Agro.millis_stamp := ms;
     Agro.fast_pass := all_read v;
     Agro.now := e; Agro.t := civil_time Agro.GMT_OFFSET e;
     Agro.boundary_pass := all_read v; Agro.written_chars := 100;
     Agro.http_code := 200 |}.

End AgroClock.

Module AgroPROClock.

(** A tick of [AgroPRO.cpp] over a valid wall clock. *)
Definition wall_clock : AgroPRO.Tick -> Prop :=
  on_wall_clock AgroPRO.now_epoch AgroPRO.time_info
                AgroPRO.GMT_OFFSET_SECONDS AgroPRO.MIN_EPOCH_TIME_SEC.

(** The poll at the epoch [e] and at [ms] milliseconds of uptime,
    with WiFi up, every sensor reading [v], a body of 100 bytes and
    the server answering 200. *)
Definition poll (e ms : Z) (v : float) : AgroPRO.Tick :=
  {| AgroPRO.current_millis := ms; AgroPRO.wifi_at_sync := true;
     AgroPRO.now_epoch := e;
     AgroPRO.time_info := civil_time AgroPRO.GMT_OFFSET_SECONDS e;
     AgroPRO.sensors := all_read v; AgroPRO.wifi_at_report := true;
     AgroPRO.written_chars := 100; AgroPRO.begin_ok := true;
     AgroPRO.http_response_code := 200 |}.

End AgroPROClock.

(** Cloud variables that all hold [v]. *)
Definition cloud_of (v : float) : Cloud :=
  {| cloud1 := v; cloud2 := v; cloud3 := v; cloud4 := v;
     cloudTemp := v; cloudHumi := v |}.

(** ** The samples of a window *)

(** The six rows of the window in the order of the report: the four
    probe rows, the temperature row and the humidity row of the DHT. *)
Definition channels (w : Window) : list (list float) :=
  ds_rows w ++ [dht_temp_row w; dht_humi_row w].

(** The slot [i] of the channel [ch]. *)
Definition channel_slot (w : Window) (ch i : nat) : float :=
  slot (nth ch (channels w) []) i.

Section SampleLog.

Context {St Tk Act : Type}.
Variable step : St -> Tk -> St * list Act.
Variables is_sample is_report : Act -> bool.
Variable reading : Tk -> list float.

(** The samples taken since the window was last closed, oldest first,
    after one more tick: a report empties the log, a sample appends
    what it stored. *)
Definition log_after (s : St) (k : Tk) (log : list (list float)) : list (list float) :=
  if Nat.ltb 0 (tally is_report (snd (step s k))) then []
  else if Nat.ltb 0 (tally is_sample (snd (step s k))) then log ++ [reading k]
  else log.

(** The same after a run. *)
Fixpoint log_of_run (s : St) (ks : list Tk) (log : list (list float))
  : list (list float) :=
  match ks with
  | [] => log
  | k :: ks' => log_of_run (fst (step s k)) ks' (log_after s k log)
  end.

End SampleLog.

(** The window of [count] samples behind the write index [idx] holds the
    last [count] entries of [log]: the write index has gone round with
    the number of samples, the [j]-th most recent sample is in the slot
    [j + 1] places behind the write index, and that slot is one of the
    first [count]. *)
Definition holds_last (w : Window) (idx count : Z) (log : list (list float)) : Prop :=
  count = Z.min (Z.of_nat (length log)) 6 /\
  idx = Z.of_nat (length log) mod 6 /\
  forall (j : Z) (ch : nat),
    0 <= j < count -> (ch < 6)%nat ->
    (idx - 1 - j) mod 6 < count /\
    channel_slot w ch (Z.to_nat ((idx - 1 - j) mod 6))
    = nth ch (nth (Z.to_nat j) (rev log) []) NAN.

(** The mean of the valid entries of each of the six channels over
    the first [count] slots, in the order of the report. *)
Definition window_means (w : Window) (count : Z) : list float :=
  map (fun ch => mean_of_valid (nth ch (channels w) []) (Z.to_nat count)) (seq 0 6).

(** The readings of the channel [ch] in a log of samples, oldest
    first. *)
Definition channel_log (log : list (list float)) (ch : nat) : list float :=
  map (fun reading => nth ch reading NAN) log.

(** ** The logging seen apart from the live path *)

(** The globals that the sampling and the reporting of [Agro.cpp] read
    and write: the window, the write index, the count and the two
    debounce variables. *)
Definition agro_logging (s : Agro.State) : Window * Z * Z * Z * Z :=
  (Agro.win s, Agro.bufIdx s, Agro.validSamples s, Agro.lastSampleMin s,
   Agro.lastReportHr s).

(** The samples and the posts among the actions of a run. *)
Definition agro_logged (acts : list Agro.Action) : list Agro.Action :=
  List.filter (fun a => Agro.is_sample a || Agro.is_post a) acts.

(** The same for [AgroPRO.cpp]. *)
Definition agropro_logging (s : AgroPRO.State) : Window * Z * Z * Z * Z :=
  (AgroPRO.win s, AgroPRO.current_sample_index s, AgroPRO.samples_taken_this_hour s,
   AgroPRO.last_sample_minute_taken s, AgroPRO.last_report_hour_sent s).

Definition agropro_logged (acts : list AgroPRO.Action) : list AgroPRO.Action :=
  List.filter (fun a => AgroPRO.is_sample a || AgroPRO.is_report a) acts.

(** A tick of [Agro.cpp] and a tick of [AgroPRO.cpp] that read the same
    clock and, at the sample, the same sensors. *)
Definition same_inputs (k : Agro.Tick) (k' : AgroPRO.Tick) : Prop :=
  Agro.now k = AgroPRO.now_epoch k' /\ Agro.t k = AgroPRO.time_info k' /\
  Agro.boundary_pass k = AgroPRO.sensors k'.

(** * Properties *)

(** ** Rounding never invents a NaN *)

Section RoundingNotNaN.

Variables p e : Z.

Lemma shr_1_nonneg (mrs : shr_record) :
  0 <= shr_m mrs -> 0 <= shr_m (shr_1 mrs).
Proof.
  destruct mrs as [m r s]; simpl.
  destruct m as [|q|q]; simpl; try lia; destruct q; simpl; lia.
Qed.

Lemma iter_shr_1_nonneg (n : positive) :
  forall mrs, 0 <= shr_m mrs -> 0 <= shr_m (SpecFloat.iter_pos shr_1 n mrs).
Proof.
  induction n as [n IH|n IH|]; intros mrs H; simpl.
  - apply IH, IH, shr_1_nonneg, H.
  - apply IH, IH, H.
  - apply shr_1_nonneg, H.
Qed.

Lemma shr_fexp_nonneg (m ex : Z) (l : location) :
  0 <= m -> 0 <= shr_m (fst (shr_fexp p e m ex l)).
Proof.
  intros H. unfold shr_fexp, shr.
  assert (H0 : 0 <= shr_m (shr_record_of_loc m l))
    by (destruct l as [|[]]; simpl; exact H).
  destruct (fexp p e (Zdigits2 m + ex) - ex); simpl; auto.
  apply iter_shr_1_nonneg, H0.
Qed.

Lemma round_nearest_even_nonneg (m : Z) (l : location) :
  0 <= m -> 0 <= round_nearest_even m l.
Proof.
  intros H. destruct l as [|[]]; simpl; try lia.
  destruct (Z.even m); lia.
Qed.

Lemma binary_round_aux_not_nan (sx : bool) (mx ex : Z) (lx : location) :
  0 <= mx -> isnan (binary_round_aux p e sx mx ex lx) = false.
Proof.
  intros H. unfold binary_round_aux.
  pose proof (shr_fexp_nonneg mx ex lx H) as H1.
  destruct (shr_fexp p e mx ex lx) as [mrs1 e1]; simpl in H1.
  pose proof (shr_fexp_nonneg _ e1 loc_Exact
                (round_nearest_even_nonneg _ (loc_of_shr_record mrs1) H1)) as H2.
  destruct (shr_fexp p e (round_nearest_even (shr_m mrs1) (loc_of_shr_record mrs1))
              e1 loc_Exact) as [mrs2 e2]; simpl in H2.
  destruct (shr_m mrs2) as [|q|q]; try reflexivity; try lia.
  destruct (e2 <=? e - p); reflexivity.
Qed.

Lemma binary_round_not_nan (sx : bool) (mx : positive) (ex : Z) :
  isnan (binary_round p e sx mx ex) = false.
Proof.
  unfold binary_round.
  destruct (shl_align mx ex (fexp p e (Z.pos (digits2_pos mx) + ex))) as [mz ez].
  apply binary_round_aux_not_nan. lia.
Qed.

Lemma binary_normalize_not_nan (m ex : Z) (sz : bool) :
  isnan (binary_normalize p e m ex sz) = false.
Proof.
  destruct m; simpl; auto using binary_round_not_nan.
Qed.

Lemma SFdiv_core_binary_nonneg (m1 : positive) (e1 : Z) (m2 : positive) (e2 : Z) :
  0 <= fst (fst (SFdiv_core_binary p e (Z.pos m1) e1 (Z.pos m2) e2)).
Proof.
  unfold SFdiv_core_binary.
  set (s := e1 - e2 - _).
  set (m' := match s with Z0 => _ | Z.pos _ => _ | Z.neg _ => _ end).
  assert (Hm : 0 <= m').
  { subst m'. destruct s; try lia. apply Z.shiftl_nonneg. lia. }
  pose proof (Z_div_mod m' (Z.pos m2) ltac:(lia)) as Hd.
  destruct (Z.div_eucl m' (Z.pos m2)) as [q r]; simpl.
  nia.
Qed.

End RoundingNotNaN.

(** Adding a finite float to a float that is not NaN does not give
    NaN. *)
Lemma fadd_not_nan (x y : float) :
  isnan x = false -> is_finite y = true -> isnan (fadd x y) = false.
Proof.
  intros Hx Hy. unfold fadd.
  destruct x as [sx|sx| |sx mx ex]; try discriminate;
    destruct y as [sy|sy| |sy my ey]; try discriminate; simpl; try reflexivity.
  - destruct sx, sy; reflexivity.
  - apply binary_normalize_not_nan.
Qed.

(** Dividing a float that is not NaN by a non-zero finite float does
    not give NaN. *)
Lemma fdiv_not_nan (x : float) (sy : bool) (my : positive) (ey : Z) :
  isnan x = false -> isnan (fdiv x (S754_finite sy my ey)) = false.
Proof.
  intros Hx. unfold fdiv.
  destruct x as [sx|sx| |sx mx ex]; try discriminate; simpl; try reflexivity.
  pose proof (SFdiv_core_binary_nonneg prec emax mx ex my ey) as H.
  destruct (SFdiv_core_binary prec emax (Z.pos mx) ex (Z.pos my) ey) as [[mz ez] lz].
  simpl in H. apply binary_round_aux_not_nan, H.
Qed.


Lemma of_int_count (c : Z) :
  1 <= c <= 255 -> count_is_finite c = true.
Proof.
  intros H.
  assert (Hall : forallb count_is_finite (map Z.of_nat (seq 1 255)) = true)
    by (vm_compute; reflexivity).
  rewrite forallb_forall in Hall. apply Hall.
  apply in_map_iff. exists (Z.to_nat c). split; [lia|].
  apply in_seq. lia.
Qed.

Lemma fdiv_count_not_nan (x : float) (c : Z) :
  isnan x = false -> 1 <= c <= 255 -> isnan (fdiv x (of_int c)) = false.
Proof.
  intros Hx Hc. pose proof (of_int_count c Hc) as H.
  unfold count_is_finite in H.
  destruct (of_int c) as [| | |sy my ey]; try discriminate.
  apply fdiv_not_nan, Hx.
Qed.

(** ** The average (C1) *)


Lemma drop_slot (a : list float) (i : nat) :
  (i < length a)%nat -> drop i a = slot a i :: drop (S i) a.
Proof.
  intros H. destruct (lookup_lt_is_Some_2 a i H) as [x Hx].
  unfold slot. rewrite (nth_lookup_Some _ _ _ _ Hx).
  apply drop_S, Hx.
Qed.

Lemma avg_loop_spec (a : list float) (steps : nat) :
  forall (i : Z) (s : float) (c : Z),
    0 <= i -> 0 <= c ->
    i + Z.of_nat steps <= 255 -> c + Z.of_nat steps <= 255 ->
    (Z.to_nat i + steps <= length a)%nat ->
    Agro.avg_loop a steps i s c =
    (fold_left fadd (valid_of (take steps (drop (Z.to_nat i) a))) s,
     c + Z.of_nat (length (valid_of (take steps (drop (Z.to_nat i) a))))).
Proof.
  induction steps as [|k IH]; intros i s c Hi Hc Hik Hck Hlen.
  - simpl. f_equal. lia.
  - rewrite (drop_slot a (Z.to_nat i)) by lia.
    cbn [Agro.avg_loop take valid_of List.filter].
    assert (Hu : u8 (i + 1) = i + 1) by (unfold u8; apply Z.mod_small; lia).
    assert (Hn : Z.to_nat (i + 1) = S (Z.to_nat i)) by lia.
    rewrite Hu.
    destruct (isnan (slot a (Z.to_nat i))) eqn:E; cbn [negb].
    + rewrite IH by lia. rewrite Hn. reflexivity.
    + assert (Hc1 : u8 (c + 1) = c + 1) by (unfold u8; apply Z.mod_small; lia).
      rewrite Hc1, IH by lia. rewrite Hn. unfold valid_of.
      cbn [fold_left length]. f_equal. lia.
Qed.

Lemma calculateAverage_loop_spec (a : list float) (steps : nat) :
  forall (i : Z) (s : float) (c : Z),
    0 <= i ->
    (Z.to_nat i + steps <= length a)%nat ->
    AgroPRO.calculateAverage_loop a steps i s c =
    (fold_left fadd (valid_of (take steps (drop (Z.to_nat i) a))) s,
     c + Z.of_nat (length (valid_of (take steps (drop (Z.to_nat i) a))))).
Proof.
  induction steps as [|k IH]; intros i s c Hi Hlen.
  - simpl. f_equal. lia.
  - rewrite (drop_slot a (Z.to_nat i)) by lia.
    cbn [AgroPRO.calculateAverage_loop take valid_of List.filter].
    assert (Hn : Z.to_nat (i + 1) = S (Z.to_nat i)) by lia.
    destruct (isnan (slot a (Z.to_nat i))) eqn:E; cbn [negb].
    + rewrite IH by lia. rewrite Hn. reflexivity.
    + rewrite IH by lia. rewrite Hn. unfold valid_of.
      cbn [fold_left length]. f_equal. lia.
Qed.

Lemma valid_of_length_le (l : list float) : (length (valid_of l) <= length l)%nat.
Proof. apply filter_length_le. Qed.

Lemma avg_mean_of_valid (a : list float) (n : Z) :
  0 <= n <= 255 -> (Z.to_nat n <= length a)%nat ->
  Agro.avg a n = mean_of_valid a (Z.to_nat n).
Proof.
  intros Hn Hlen. unfold Agro.avg, mean_of_valid, valid_entries, float_sum.
  rewrite avg_loop_spec by lia.
  change (Z.to_nat 0) with 0%nat. rewrite drop_0.
  fold (valid_of (take (Z.to_nat n) a)).
  destruct (valid_of (take (Z.to_nat n) a)) as [|x v] eqn:E.
  - reflexivity.
  - replace (0 + Z.of_nat (length (x :: v)) =? 0) with false
      by (symmetry; apply Z.eqb_neq; simpl length; lia).
    reflexivity.
Qed.

Lemma calculateAverage_mean_of_valid (a : list float) (n : Z) :
  0 <= n -> (Z.to_nat n <= length a)%nat ->
  AgroPRO.calculateAverage a n = mean_of_valid a (Z.to_nat n).
Proof.
  intros Hn Hlen. unfold AgroPRO.calculateAverage, mean_of_valid, valid_entries, float_sum.
  destruct (n =? 0) eqn:E0.
  - apply Z.eqb_eq in E0. subst n. reflexivity.
  - rewrite calculateAverage_loop_spec by lia.
    change (Z.to_nat 0) with 0%nat. rewrite drop_0.
    fold (valid_of (take (Z.to_nat n) a)).
    destruct (valid_of (take (Z.to_nat n) a)) as [|x v] eqn:E.
    + reflexivity.
    + replace (0 <? 0 + Z.of_nat (length (x :: v))) with true
        by (symmetry; apply Z.ltb_lt; simpl length; lia).
      reflexivity.
Qed.

Lemma float_sum_not_nan (l : list float) :
  forall s, isnan s = false -> Forall (fun x => is_finite x = true) l ->
            isnan (fold_left fadd l s) = false.
Proof.
  induction l as [|x l IH]; intros s Hs Hl; simpl; auto.
  inversion Hl; subst. apply IH; auto using fadd_not_nan.
Qed.

Lemma valid_of_finite (l : list float) :
  Forall (fun x => finite_or_nan x = true) l ->
  Forall (fun x => is_finite x = true) (valid_of l).
Proof.
  induction 1 as [|x l Hx _ IH]; simpl; auto.
  destruct x; simpl in *; auto; discriminate.
Qed.

Lemma filter_split_length (l : list float) :
  (length (List.filter isnan l) + length (valid_of l) = length l)%nat.
Proof.
  induction l as [|x l IH]; simpl; auto.
  destruct (isnan x); simpl; lia.
Qed.

(** C1.  For a window [a] and a count [n] of populated slots within it
    ([n] a [uint8_t]), with [k] invalid and [m] valid entries among the
    first [n] slots: [k + m = n]; [avg] and [calculateAverage] agree;
    the mean is NaN when [m = 0] and is the float sum of the valid
    entries, in index order, divided by [m] otherwise; and on the
    readings that the drivers deliver, each a finite float or NaN, the
    mean is NaN exactly when [m = 0]. *)
Theorem mean_over_valid_entries (a : list float) (n : Z) :
  0 <= n <= 255 -> (Z.to_nat n <= length a)%nat ->
  let v := valid_entries a (Z.to_nat n) in
  let m := length v in
  let k := length (invalid_entries a (Z.to_nat n)) in
  (k + m)%nat = Z.to_nat n /\
  AgroPRO.calculateAverage a n = Agro.avg a n /\
  (m = 0%nat -> Agro.avg a n = NAN) /\
  (m <> 0%nat -> Agro.avg a n = fdiv (float_sum v) (of_int (Z.of_nat m))) /\
  (Forall (fun x => finite_or_nan x = true) (take (Z.to_nat n) a) ->
   (isnan (Agro.avg a n) = true <-> m = 0%nat)).
Proof.
  intros Hn Hlen. cbv zeta.
  assert (Hk : (length (invalid_entries a (Z.to_nat n))
                + length (valid_entries a (Z.to_nat n)))%nat = Z.to_nat n).
  { unfold invalid_entries, valid_entries.
    fold (valid_of (take (Z.to_nat n) a)).
    rewrite filter_split_length, length_take. lia. }
  assert (Havg : Agro.avg a n = mean_of_valid a (Z.to_nat n))
    by (apply avg_mean_of_valid; assumption).
  split; [exact Hk|].
  split; [rewrite Havg; apply calculateAverage_mean_of_valid; lia|].
  rewrite Havg. unfold mean_of_valid.
  assert (Hfin : Forall (fun x => finite_or_nan x = true) (take (Z.to_nat n) a) ->
                 Forall (fun x => is_finite x = true) (valid_entries a (Z.to_nat n)))
    by apply valid_of_finite.
  destruct (valid_entries a (Z.to_nat n)) as [|x v] eqn:Ev.
  - repeat split; auto; intros; congruence.
  - split; [discriminate|]. split; [reflexivity|].
    intros Hf. split; [|discriminate].
    intros Hnan. exfalso.
    rewrite fdiv_count_not_nan in Hnan; [discriminate| |].
    + apply float_sum_not_nan; [reflexivity|]. apply Hfin, Hf.
    + simpl length in *. lia.
Qed.

Lemma mean_over_valid_entries_witness :
  let w := [of_int 10; of_int 20; NAN; of_int 40; of_int 50; of_int 60] in
  0 <= 6 <= 255 /\ (Z.to_nat 6 <= length w)%nat /\
  AgroPRO.calculateAverage w 6 = Agro.avg w 6 /\
  (isnan (Agro.avg w 6) = true <-> length (valid_entries w (Z.to_nat 6)) = 0%nat).
Proof.
  intros w.
  assert (H1 : 0 <= 6 <= 255) by lia.
  assert (H2 : (Z.to_nat 6 <= length w)%nat) by (vm_compute; lia).
  assert (H3 : Forall (fun x => finite_or_nan x = true) (take (Z.to_nat 6) w))
    by (repeat (constructor; [reflexivity|]); constructor).
  split; [exact H1|]. split; [exact H2|].
  split; [exact (proj1 (proj2 (mean_over_valid_entries w 6 H1 H2)))|].
  exact (proj2 (proj2 (proj2 (proj2 (mean_over_valid_entries w 6 H1 H2)))) H3).
Defined.

(** Scenario A of the specification: six samples, one of them invalid. *)
Example scenario_A :
  let w := [of_int 10; of_int 20; NAN; of_int 40; of_int 50; of_int 60] in
  Agro.avg w 6 = of_int 36 /\ AgroPRO.calculateAverage w 6 = of_int 36.
Proof. split; vm_compute; reflexivity. Qed.

(** The hypothesis on the readings is needed: a window that holds both
    infinities, which no driver delivers, has two valid entries and a
    NaN mean. *)
Lemma mean_nan_with_valid_entries :
  let w := [pos_infinity; neg_infinity] in
  length (valid_entries w 2) = 2%nat /\
  Agro.avg w 2 = NAN /\
  AgroPRO.calculateAverage w 2 = NAN.
Proof.
  cbv zeta. repeat split; vm_compute; reflexivity.
Qed.

(** ** Arithmetic of the civil time *)

Lemma on_sampling_minute_iff (offset e : Z) :
  on_sampling_minute (civil_time offset e) = true <-> (e + offset) mod 600 < 60.
Proof.
  unfold on_sampling_minute, civil_time; simpl.
  rewrite Z.eqb_eq, Z.rem_mod_nonneg by (try apply Z.mod_pos_bound; lia).
  split; intros H; Z.div_mod_to_equations; lia.
Qed.

Lemma sample_boundary_iff (offset b : Z) :
  sample_boundary offset b <-> (b + offset) mod 600 = 0.
Proof.
  unfold sample_boundary. rewrite on_sampling_minute_iff.
  unfold civil_time; simpl.
  split; intros H; Z.div_mod_to_equations; lia.
Qed.

Lemma same_sampling_minute (offset e e' : Z) :
  (e + offset) mod 600 < 60 -> (e' + offset) mod 600 < 60 ->
  e <= e' <= e + 540 ->
  tm_min (civil_time offset e') = tm_min (civil_time offset e).
Proof.
  unfold civil_time; simpl. intros H H' Hg.
  assert ((e' + offset) / 60 = (e + offset) / 60)
    by (Z.div_mod_to_equations; lia).
  congruence.
Qed.

Lemma boundary_out_of_reach (offset e b : Z) :
  (e + offset) mod 600 < 60 -> (b + offset) mod 600 = 0 ->
  e < b <= e + 540 -> False.
Proof.
  intros H Hb Hg. Z.div_mod_to_equations. lia.
Qed.

Lemma civil_time_ranges (offset e : Z) :
  0 <= tm_sec (civil_time offset e) < 60 /\
  0 <= tm_min (civil_time offset e) < 60 /\
  0 <= tm_hour (civil_time offset e) < 24.
Proof.
  unfold civil_time; simpl.
  repeat split; try apply Z.mod_pos_bound; lia.
Qed.

Lemma hours_differ_within_a_day (offset r b : Z) :
  report_boundary offset r -> report_boundary offset b ->
  r < b -> b - r < 86400 ->
  tm_hour (civil_time offset r) <> tm_hour (civil_time offset b).
Proof.
  unfold report_boundary, civil_time; simpl.
  intros [Hrm Hrs] [Hbm Hbs] Hlt Hday Heq.
  Z.div_mod_to_equations. lia.
Qed.

(** ** The debounce on the minute *)

Lemma sample_guard_true (last_min : Z) (c : tm) :
  sample_guard last_min c = true <->
  on_sampling_minute c = true /\ tm_sec c = 0 /\ last_min <> tm_min c.
Proof.
  unfold sample_guard.
  rewrite !andb_true_iff, negb_true_iff, Z.eqb_eq, Z.eqb_neq. tauto.
Qed.

Lemma settled_first (offset e : Z) :
  settled offset (next_last_min (-1) (civil_time offset e)) e.
Proof.
  unfold settled, next_last_min.
  destruct (on_sampling_minute (civil_time offset e)) eqn:Hm.
  - destruct (sample_guard (-1) (civil_time offset e)) eqn:Hg.
    + right. auto.
    + left. split; [reflexivity|]. intros [_ Hs].
      assert (sample_guard (-1) (civil_time offset e) = true); [|congruence].
      apply sample_guard_true. repeat split; auto.
      pose proof (civil_time_ranges offset e). lia.
  - left. split; [reflexivity|]. intros [Hb _]. congruence.
Qed.

Lemma settled_next (offset last_min e e' : Z) :
  settled offset last_min e -> e <= e' <= e + 540 ->
  settled offset (next_last_min last_min (civil_time offset e')) e'.
Proof.
  intros Hs Hg. unfold next_last_min.
  destruct (on_sampling_minute (civil_time offset e')) eqn:Hm.
  - destruct (sample_guard last_min (civil_time offset e')) eqn:Hsg.
    + right. auto.
    + destruct Hs as [[Hl Hnb]|[Hon Hl]].
      * left. split; [exact Hl|]. intros [_ Hsec].
        assert (sample_guard last_min (civil_time offset e') = true); [|congruence].
        apply sample_guard_true. repeat split; auto.
        pose proof (civil_time_ranges offset e'). lia.
      * right. split; [exact Hm|]. rewrite Hl. symmetry.
        apply same_sampling_minute; auto; apply on_sampling_minute_iff; auto.
  - left. split; [reflexivity|]. intros [Hb _]. congruence.
Qed.

Lemma sample_guard_fresh (offset last_min e b : Z) :
  settled offset last_min e -> e < b <= e + 540 -> sample_boundary offset b ->
  sample_guard last_min (civil_time offset b) = true.
Proof.
  intros Hs Hg Hb. apply sample_guard_true.
  destruct Hb as [Hon Hsec]. repeat split; auto.
  destruct Hs as [[Hl _]|[Hon' _]].
  - pose proof (civil_time_ranges offset b). lia.
  - exfalso. apply (boundary_out_of_reach offset e b); auto.
    + apply on_sampling_minute_iff, Hon'.
    + apply sample_boundary_iff. split; auto.
Qed.

Lemma sample_guard_done (offset last_min b : Z) :
  settled offset last_min b -> sample_boundary offset b ->
  sample_guard last_min (civil_time offset b) = false.
Proof.
  intros [[_ Hnb]|[_ Hl]] Hb; [contradiction|].
  unfold sample_guard. rewrite Hl, Z.eqb_refl, andb_false_r. reflexivity.
Qed.

Section Debounce.

Context {St Tk Act : Type}.
Variable step : St -> Tk -> St * list Act.
Variable epoch : Tk -> Z.
Variable clock : Tk -> tm.
Variables is_sample is_report : Act -> bool.
Variables last_min last_hr : St -> Z.
Variable populated : St -> bool.
Variables offset min_epoch : Z.

Local Abbreviation valid := (on_wall_clock epoch clock offset min_epoch).
Local Abbreviation fired := (fired_at step epoch).

(** What the proofs need of a sketch: how many samples and reports
    one run of its loop performs over a valid clock, and what it
    does to the debounce variables and to the emptiness of the
    window. *)
Hypothesis law_sample : forall s k, min_epoch <= epoch k ->
  tally is_sample (snd (step s k))
  = if sample_guard (last_min s) (clock k) then 1%nat else 0%nat.
Hypothesis law_last_min : forall s k, min_epoch <= epoch k ->
  last_min (fst (step s k)) = next_last_min (last_min s) (clock k).
Hypothesis law_report : forall s k, min_epoch <= epoch k ->
  tally is_report (snd (step s k))
  = if report_guard (last_hr s) (populated s) (clock k) then 1%nat else 0%nat.
Hypothesis law_closed : forall s k, min_epoch <= epoch k ->
  report_guard (last_hr s) (populated s) (clock k) = true ->
  populated (fst (step s k)) = false.
Hypothesis law_idle : forall s k, min_epoch <= epoch k ->
  report_guard (last_hr s) (populated s) (clock k) = false ->
  sample_guard (last_min s) (clock k) = false ->
  populated (fst (step s k)) = populated s /\ last_hr (fst (step s k)) = last_hr s.
Hypothesis law_hour : forall s k, min_epoch <= epoch k ->
  last_hr (fst (step s k))
  = if report_guard (last_hr s) (populated s) (clock k) then tm_hour (clock k)
    else last_hr s.

Lemma fired_app (p : Act -> bool) (b : Z) (l1 l2 : list Tk) :
  forall s, fired p b s (l1 ++ l2)
            = (fired p b s l1 + fired p b (final step s l1) l2)%nat.
Proof.
  induction l1 as [|k l1 IH]; intros s; simpl; [reflexivity|].
  rewrite IH. unfold final. simpl. lia.
Qed.

Lemma fired_elsewhere (p : Act -> bool) (b : Z) (ks : list Tk) :
  forall s, Forall (fun k => epoch k <> b) ks -> fired p b s ks = 0%nat.
Proof.
  induction ks as [|k ks IH]; intros s H; simpl; [reflexivity|].
  inversion H as [|? ? Hk Hks]; subst.
  rewrite IH by assumption.
  apply Z.eqb_neq in Hk. rewrite Hk. reflexivity.
Qed.

Lemma monotone_lower (ks : list Tk) :
  forall e, monotone epoch e ks -> Forall (fun k => e <= epoch k) ks.
Proof.
  induction ks as [|k ks IH]; intros e H; constructor; simpl in H.
  - tauto.
  - destruct H as [H1 H2]. apply IH in H2.
    eapply Forall_impl; [exact H2|]. simpl. intros; lia.
Qed.

Lemma steady_monotone (gap : Z) (ks : list Tk) :
  forall e, steady epoch gap e ks -> monotone epoch e ks.
Proof.
  induction ks as [|k ks IH]; intros e H; simpl in *; [exact I|].
  destruct H as [H1 H2]. split; [lia|]. apply IH, H2.
Qed.

Lemma fired_later (p : Act -> bool) (b e : Z) (ks : list Tk) (s : St) :
  monotone epoch e ks -> b < e -> fired p b s ks = 0%nat.
Proof.
  intros Hm Hb. apply fired_elsewhere.
  eapply Forall_impl; [apply monotone_lower, Hm|]. simpl. intros; lia.
Qed.

Lemma polled_later (b e : Z) (ks : list Tk) :
  monotone epoch e ks -> b < e -> existsb (fun k => epoch k =? b) ks = false.
Proof.
  intros Hm Hb. apply monotone_lower in Hm.
  induction Hm as [|k ks Hk _ IH]; simpl; [reflexivity|].
  rewrite IH, orb_false_r. apply Z.eqb_neq. lia.
Qed.

(** From a settled state the run samples once at the boundary [b]
    if [b] is still ahead and polled, and never otherwise. *)
Lemma samples_fired_from (b : Z) (Hb : sample_boundary offset b) (ks : list Tk) :
  forall s e,
    settled offset (last_min s) e ->
    Forall valid ks -> steady epoch 540 e ks ->
    fired is_sample b s ks
    = if e <? b then (if existsb (fun k => epoch k =? b) ks then 1%nat else 0%nat)
      else 0%nat.
Proof.
  induction ks as [|k ks IH]; intros s e Hs Hv Hst.
  - simpl. destruct (e <? b); reflexivity.
  - inversion Hv as [|? ? [Hmin Hclk] Hv']; subst.
    destruct Hst as [Hg Hst].
    cbn [fired_at existsb].
    assert (Hs' : settled offset (last_min (fst (step s k))) (epoch k)).
    { rewrite law_last_min, Hclk by assumption. eapply settled_next; eauto. }
    rewrite (IH _ _ Hs' Hv' Hst).
    rewrite law_sample, Hclk by assumption.
    destruct (Z.eqb_spec (epoch k) b) as [He|He].
    + rewrite He in *. rewrite Z.ltb_irrefl. cbn [orb].
      destruct (Z.ltb_spec e b) as [Hlt|Hge].
      * rewrite (sample_guard_fresh offset (last_min s) e b) by (auto; lia).
        reflexivity.
      * assert (e = b) by lia. subst e.
        rewrite (sample_guard_done offset (last_min s) b) by auto.
        reflexivity.
    + cbn [orb plus].
      destruct (Z.ltb_spec (epoch k) b) as [Hlt|Hge].
      * destruct (Z.ltb_spec e b); [reflexivity|lia].
      * rewrite (polled_later b (epoch k) ks) by (eauto using steady_monotone; lia).
        destruct (e <? b); reflexivity.
Qed.

(** Over a valid clock polled at least every nine minutes, from a
    state whose debounce variable is cleared, every polled sample
    boundary fires exactly once. *)
Lemma sample_once (b : Z) (s : St) (k0 : Tk) (ks : list Tk) :
  last_min s = -1 ->
  Forall valid (k0 :: ks) -> steady epoch 540 (epoch k0) ks ->
  sample_boundary offset b -> In b (map epoch (k0 :: ks)) ->
  fired is_sample b s (k0 :: ks) = 1%nat.
Proof.
  intros Hl Hv Hst Hb Hin.
  inversion Hv as [|? ? [Hmin Hclk] Hv']; subst.
  cbn [fired_at].
  assert (Hs' : settled offset (last_min (fst (step s k0))) (epoch k0)).
  { rewrite law_last_min, Hclk, Hl by assumption. apply settled_first. }
  rewrite (samples_fired_from b Hb ks _ _ Hs' Hv' Hst).
  rewrite law_sample, Hclk, Hl by assumption.
  destruct (Z.eqb_spec (epoch k0) b) as [He|He].
  - rewrite He, Z.ltb_irrefl.
    replace (sample_guard (-1) (civil_time offset b)) with true; [reflexivity|].
    symmetry. apply sample_guard_true. destruct Hb as [Hon Hsec].
    repeat split; auto. pose proof (civil_time_ranges offset b). lia.
  - destruct Hin as [Hin|Hin]; [congruence|].
    assert (Hex : existsb (fun k => epoch k =? b) ks = true).
    { apply existsb_exists. apply in_map_iff in Hin.
      destruct Hin as [k [Hk Hin]]. exists k. split; [exact Hin|].
      apply Z.eqb_eq, Hk. }
    rewrite Hex.
    destruct (Z.ltb_spec (epoch k0) b) as [Hlt|Hge]; [reflexivity|].
    rewrite (polled_later b (epoch k0) ks) in Hex
      by (eauto using steady_monotone; lia).
    discriminate.
Qed.

(** Once the boundary [b] has been acted on, later polls of [b] do
    not sample. *)
Lemma samples_fired_done (b : Z) (ks : list Tk) :
  forall s,
    on_sampling_minute (civil_time offset b) = true ->
    last_min s = tm_min (civil_time offset b) ->
    Forall valid ks -> monotone epoch b ks ->
    fired is_sample b s ks = 0%nat.
Proof.
  induction ks as [|k ks IH]; intros s Hon Hl Hv Hm; [reflexivity|].
  inversion Hv as [|? ? [Hmin Hclk] Hv']; subst.
  destruct Hm as [Hle Hm]. cbn [fired_at].
  destruct (Z.eqb_spec (epoch k) b) as [He|He].
  - rewrite He in Hclk, Hm.
    assert (Hg : sample_guard (last_min s) (clock k) = false).
    { unfold sample_guard. rewrite Hclk, Hl, Z.eqb_refl, andb_false_r. reflexivity. }
    rewrite law_sample, Hg by assumption.
    apply IH; auto.
    rewrite law_last_min by assumption. unfold next_last_min.
    rewrite Hg, Hclk, Hon. exact Hl.
  - apply (fired_later is_sample b (epoch k)); [exact Hm | lia].
Qed.

(** Over a valid clock that never runs backwards, no sample boundary
    is sampled twice. *)
Lemma sample_at_most_once (b : Z) (ks : list Tk) :
  forall s e, Forall valid ks -> monotone epoch e ks ->
              (fired is_sample b s ks <= 1)%nat.
Proof.
  induction ks as [|k ks IH]; intros s e Hv Hm; [simpl; lia|].
  inversion Hv as [|? ? [Hmin Hclk] Hv']; subst.
  destruct Hm as [_ Hm]. cbn [fired_at].
  destruct (Z.eqb_spec (epoch k) b) as [He|He].
  - rewrite law_sample by assumption.
    destruct (sample_guard (last_min s) (clock k)) eqn:Hg.
    + rewrite He in Hclk, Hm.
      assert (Hon : on_sampling_minute (civil_time offset b) = true).
      { rewrite <- Hclk. apply sample_guard_true in Hg. tauto. }
      rewrite (samples_fired_done b ks); auto.
      rewrite law_last_min by assumption. unfold next_last_min.
      rewrite Hg, Hclk, Hon. reflexivity.
    + simpl. eapply IH; eauto.
  - simpl. eapply IH; eauto.
Qed.

(** ** The debounce on the hour *)

Lemma report_guard_at_boundary (b lh : Z) (pop : bool) :
  report_boundary offset b ->
  report_guard lh pop (civil_time offset b)
  = negb (lh =? tm_hour (civil_time offset b)) && pop.
Proof.
  intros [Hm Hs]. unfold report_guard. rewrite Hm, Hs. reflexivity.
Qed.

Lemma no_sample_at_report_boundary (b lm : Z) :
  report_boundary offset b -> sample_guard lm (civil_time offset b) = false.
Proof.
  intros [_ Hs]. unfold sample_guard. rewrite Hs.
  rewrite andb_false_r. reflexivity.
Qed.

(** Once the guard of the report is closed at the boundary [b], it
    stays closed for every later poll of [b]. *)
Lemma reports_fired_closed (b : Z) (Hb : report_boundary offset b) (ks : list Tk) :
  forall s,
    report_guard (last_hr s) (populated s) (civil_time offset b) = false ->
    Forall valid ks -> monotone epoch b ks ->
    fired is_report b s ks = 0%nat.
Proof.
  induction ks as [|k ks IH]; intros s Hg Hv Hm; [reflexivity|].
  inversion Hv as [|? ? [Hmin Hclk] Hv']; subst.
  destruct Hm as [Hle Hm]. cbn [fired_at].
  destruct (Z.eqb_spec (epoch k) b) as [He|He].
  - rewrite He in Hclk, Hm.
    rewrite law_report, Hclk, Hg by assumption.
    destruct (law_idle s k Hmin) as [Hp Hh].
    { rewrite Hclk. exact Hg. }
    { rewrite Hclk. apply no_sample_at_report_boundary, Hb. }
    apply IH; auto. rewrite Hp, Hh. exact Hg.
  - apply (fired_later is_report b (epoch k)); [exact Hm | lia].
Qed.

(** From the first poll of the report boundary [b] on, the report
    fires once if the guard is open at that poll, and never
    otherwise. *)
Lemma reports_fired_first (b : Z) (s : St) (k : Tk) (ks : list Tk) :
  report_boundary offset b -> epoch k = b ->
  Forall valid (k :: ks) -> monotone epoch b ks ->
  fired is_report b s (k :: ks)
  = if report_guard (last_hr s) (populated s) (civil_time offset b)
    then 1%nat else 0%nat.
Proof.
  intros Hb He Hv Hm.
  destruct (report_guard (last_hr s) (populated s) (civil_time offset b)) eqn:Hg.
  - inversion Hv as [|? ? [Hmin Hclk] Hv']; subst.
    cbn [fired_at]. rewrite Z.eqb_refl, law_report, Hclk, Hg by assumption.
    rewrite reports_fired_closed; auto.
    rewrite report_guard_at_boundary by exact Hb.
    rewrite (law_closed s k Hmin) by (rewrite Hclk; exact Hg).
    apply andb_false_r.
  - apply reports_fired_closed; auto.
    simpl. split; [lia|]. rewrite He. exact Hm.
Qed.

Lemma reports_fired_polled (b : Z) (s : St) (pre : list Tk) (k : Tk) (post : list Tk) :
  report_boundary offset b ->
  Forall (fun k' => epoch k' < b) pre -> epoch k = b ->
  Forall valid (k :: post) -> monotone epoch b post ->
  fired is_report b s (pre ++ k :: post)
  = if report_guard (last_hr (final step s pre)) (populated (final step s pre))
                    (civil_time offset b)
    then 1%nat else 0%nat.
Proof.
  intros Hb Hpre He Hv Hm.
  rewrite fired_app, fired_elsewhere.
  - apply reports_fired_first; auto.
  - eapply Forall_impl; [exact Hpre|]. simpl. intros; lia.
Qed.

(** Over a valid clock that never runs backwards, no report
    boundary fires twice. *)
Lemma report_at_most_once (b : Z) (ks : list Tk) :
  forall s e, Forall valid ks -> monotone epoch e ks ->
              (fired is_report b s ks <= 1)%nat.
Proof.
  induction ks as [|k ks IH]; intros s e Hv Hm; [simpl; lia|].
  destruct (Z.eqb_spec (epoch k) b) as [He|He].
  - destruct (report_guard (last_hr s) (populated s) (civil_time offset b)) eqn:Hg.
    + assert (Hb : report_boundary offset b).
      { unfold report_guard in Hg. rewrite !andb_true_iff, !Z.eqb_eq in Hg.
        split; tauto. }
      destruct Hm as [_ Hm]. rewrite He in Hm.
      rewrite (reports_fired_first b s k ks Hb He Hv Hm), Hg. lia.
    + inversion Hv as [|? ? [Hmin Hclk] Hv']; subst.
      destruct Hm as [_ Hm]. cbn [fired_at].
      rewrite law_report, Hclk, Hg by assumption.
      rewrite Z.eqb_refl. simpl. eapply IH; eauto.
  - inversion Hv as [|? ? _ Hv']; subst.
    destruct Hm as [_ Hm]. cbn [fired_at].
    apply Z.eqb_neq in He. rewrite He. simpl. eapply IH; eauto.
Qed.

(** The last report hour is the hour of the last report of the run,
    if there is one. *)
Lemma last_hr_tracks (ks : list Tk) :
  forall s, Forall valid ks ->
    last_hr (final step s ks)
    = match last (fired_epochs step epoch is_report s ks) with
      | Some r => tm_hour (civil_time offset r)
      | None => last_hr s
      end.
Proof.
  induction ks as [|k ks IH]; intros s Hv; [reflexivity|].
  inversion Hv as [|? ? [Hmin Hclk] Hv']; subst.
  unfold final in *. cbn [fold_left fired_epochs].
  rewrite IH, last_app by assumption.
  destruct (last (fired_epochs step epoch is_report (fst (step s k)) ks));
    [reflexivity|].
  rewrite law_hour, law_report by assumption.
  destruct (report_guard (last_hr s) (populated s) (clock k)); simpl;
    [rewrite Hclk|]; reflexivity.
Qed.

Lemma fired_epochs_boundaries (ks : list Tk) :
  forall s, Forall valid ks ->
    Forall (report_boundary offset) (fired_epochs step epoch is_report s ks).
Proof.
  induction ks as [|k ks IH]; intros s Hv; [constructor|].
  inversion Hv as [|? ? [Hmin Hclk] Hv']; subst.
  cbn [fired_epochs]. apply Forall_app. split; [|apply IH, Hv'].
  rewrite law_report by assumption.
  destruct (report_guard (last_hr s) (populated s) (clock k)) eqn:Hg; simpl;
    constructor; [|constructor].
  unfold report_guard in Hg. rewrite !andb_true_iff, !Z.eqb_eq in Hg.
  rewrite Hclk in Hg. split; tauto.
Qed.

Lemma fired_epochs_below (p : Act -> bool) (b : Z) (ks : list Tk) :
  forall s, Forall (fun k => epoch k < b) ks ->
    Forall (fun r => r < b) (fired_epochs step epoch p s ks).
Proof.
  induction ks as [|k ks IH]; intros s Hb; [constructor|].
  inversion Hb as [|? ? Hk Hks]; subst.
  cbn [fired_epochs]. apply Forall_app. split; [|apply IH, Hks].
  destruct (Nat.ltb 0 _); constructor; [exact Hk|constructor].
Qed.

(** From a state that has not reported yet, a polled report boundary
    with a populated window fires exactly once whenever the last
    report of the run so far, if any, was made less than a day
    before. *)
Lemma report_once_recent (b : Z) (s : St) (pre : list Tk) (k : Tk) (post : list Tk) :
  report_boundary offset b -> last_hr s = -1 ->
  Forall valid pre -> Forall (fun k' => epoch k' < b) pre -> epoch k = b ->
  Forall valid (k :: post) -> monotone epoch b post ->
  populated (final step s pre) = true ->
  (forall r, last (fired_epochs step epoch is_report s pre) = Some r -> b - r < 86400) ->
  fired is_report b s (pre ++ k :: post) = 1%nat.
Proof.
  intros Hb Hl Hvp Hpre He Hv Hm Hpop Hrecent.
  rewrite (reports_fired_polled b s pre k post Hb Hpre He Hv Hm).
  rewrite report_guard_at_boundary by exact Hb.
  rewrite Hpop, andb_true_r, (last_hr_tracks pre s Hvp).
  pose proof (fired_epochs_boundaries pre s Hvp) as Hbs.
  pose proof (fired_epochs_below is_report b pre s Hpre) as Hlt.
  destruct (last (fired_epochs step epoch is_report s pre)) as [r|] eqn:Hlast.
  - apply last_Some_elem_of, list_elem_of_In in Hlast.
    rewrite Forall_forall in Hbs, Hlt.
    replace (tm_hour (civil_time offset r) =? tm_hour (civil_time offset b)) with false;
      [reflexivity|].
    symmetry. apply Z.eqb_neq.
    apply hours_differ_within_a_day; auto.
    + apply Hbs. apply list_elem_of_In, Hlast.
    + apply Hlt. apply list_elem_of_In, Hlast.
  - rewrite Hl.
    replace (-1 =? tm_hour (civil_time offset b)) with false; [reflexivity|].
    symmetry. apply Z.eqb_neq. pose proof (civil_time_ranges offset b). lia.
Qed.

End Debounce.

(** ** One run of [loop()], phase by phase *)

Lemma tally_app {Act : Type} (p : Act -> bool) (l1 l2 : list Act) :
  tally p (l1 ++ l2) = (tally p l1 + tally p l2)%nat.
Proof. unfold tally. rewrite List.filter_app, length_app. reflexivity. Qed.

Section AgroSteps.

Variable D : float.

Lemma agro_fast_step_keeps (s : Agro.State) (k : Agro.Tick) :
  let s1 := fst (Agro.fast_step D s k) in
  Agro.win s1 = Agro.win s /\ Agro.bufIdx s1 = Agro.bufIdx s /\
  Agro.validSamples s1 = Agro.validSamples s /\
  Agro.lastSampleMin s1 = Agro.lastSampleMin s /\
  Agro.lastReportHr s1 = Agro.lastReportHr s.
Proof.
  unfold Agro.fast_step.
  destruct (Agro.FAST_READ_MS <=? _); simpl; repeat split; reflexivity.
Qed.

Lemma agro_fast_step_actions (s : Agro.State) (k : Agro.Tick) :
  Agro.tally_free (snd (Agro.fast_step D s k)).
Proof.
  unfold Agro.fast_step, Agro.tally_free.
  destruct (Agro.FAST_READ_MS <=? _); simpl; split; reflexivity.
Qed.

Lemma agro_loop_invalid (s : Agro.State) (k : Agro.Tick) :
  Agro.now k < Agro.MIN_EPOCH -> Agro.loop D s k = Agro.fast_step D s k.
Proof.
  intros H. unfold Agro.loop.
  destruct (Agro.fast_step D s k) as [s1 a1].
  apply Z.ltb_lt in H. rewrite H. reflexivity.
Qed.

Lemma agro_loop_valid (s : Agro.State) (k : Agro.Tick) :
  Agro.MIN_EPOCH <= Agro.now k ->
  let s1 := fst (Agro.fast_step D s k) in
  let s2 := fst (Agro.sample_step D s1 k) in
  let s3 := Agro.rearm_step s2 k in
  Agro.loop D s k
  = (fst (Agro.report_step s3 k),
     snd (Agro.fast_step D s k) ++ snd (Agro.sample_step D s1 k)
     ++ snd (Agro.report_step s3 k)).
Proof.
  intros H. unfold Agro.loop.
  destruct (Agro.fast_step D s k) as [s1 a1]. simpl.
  apply Z.ltb_ge in H. rewrite H.
  destruct (Agro.sample_step D s1 k) as [s2 a2]. simpl.
  destruct (Agro.report_step (Agro.rearm_step s2 k) k) as [s4 a4].
  reflexivity.
Qed.

Lemma sample_and_report_exclude (lm lh : Z) (pop : bool) (c : tm) :
  sample_guard lm c = true -> report_guard lh pop c = false.
Proof.
  unfold sample_guard, report_guard. intros H.
  rewrite !andb_true_iff, Z.eqb_eq in H. destruct H as [[_ Hs] _].
  rewrite Hs. simpl. rewrite andb_false_r. reflexivity.
Qed.

Lemma agro_sample_due (s : Agro.State) (k : Agro.Tick) :
  Agro.sample_due s k = sample_guard (Agro.lastSampleMin s) (Agro.t k).
Proof. reflexivity. Qed.

Lemma agro_report_due (s : Agro.State) (k : Agro.Tick) :
  Agro.report_due s k
  = report_guard (Agro.lastReportHr s) (Agro.populated s) (Agro.t k).
Proof. reflexivity. Qed.

(** The state before the report guard is read: the sample, if due,
    has advanced the counters and set the debounce variable. *)
Lemma agro_before_report (s : Agro.State) (k : Agro.Tick) :
  let s1 := fst (Agro.fast_step D s k) in
  let s3 := Agro.rearm_step (fst (Agro.sample_step D s1 k)) k in
  Agro.lastReportHr s3 = Agro.lastReportHr s /\
  Agro.lastSampleMin s3 = next_last_min (Agro.lastSampleMin s) (Agro.t k) /\
  (sample_guard (Agro.lastSampleMin s) (Agro.t k) = false ->
   Agro.win s3 = Agro.win s /\ Agro.bufIdx s3 = Agro.bufIdx s /\
   Agro.validSamples s3 = Agro.validSamples s).
Proof.
  cbv zeta.
  destruct (agro_fast_step_keeps s k) as (Hw & Hi & Hv & Hm & Hh).
  set (s1 := fst (Agro.fast_step D s k)) in *.
  unfold Agro.sample_step, Agro.rearm_step, next_last_min.
  rewrite agro_sample_due, Hm.
  change (Z.rem (tm_min (Agro.t k)) Agro.SAMPLE_STEP =? 0)
    with (on_sampling_minute (Agro.t k)).
  destruct (sample_guard (Agro.lastSampleMin s) (Agro.t k)) eqn:Hg.
  - assert (Hon : on_sampling_minute (Agro.t k) = true)
      by (apply sample_guard_true in Hg; tauto).
    rewrite Hon. cbn [negb fst Agro.take_sample Agro.lastReportHr Agro.lastSampleMin].
    repeat split; auto; discriminate.
  - destruct (on_sampling_minute (Agro.t k));
      cbn [negb fst Agro.win Agro.bufIdx Agro.validSamples
           Agro.lastReportHr Agro.lastSampleMin];
      repeat split; auto.
Qed.

Lemma agro_sample_step_tally (s : Agro.State) (k : Agro.Tick) :
  tally Agro.is_sample (snd (Agro.sample_step D s k))
  = (if Agro.sample_due s k then 1%nat else 0%nat) /\
  tally Agro.is_post (snd (Agro.sample_step D s k)) = 0%nat.
Proof.
  unfold Agro.sample_step. destruct (Agro.sample_due s k); split; reflexivity.
Qed.

Lemma agro_report_step_tally (s : Agro.State) (k : Agro.Tick) :
  tally Agro.is_sample (snd (Agro.report_step s k)) = 0%nat /\
  tally Agro.is_post (snd (Agro.report_step s k))
  = (if Agro.report_due s k then 1%nat else 0%nat).
Proof.
  unfold Agro.report_step. destruct (Agro.report_due s k); split; reflexivity.
Qed.

Lemma agro_law_sample (s : Agro.State) (k : Agro.Tick) :
  Agro.MIN_EPOCH <= Agro.now k ->
  tally Agro.is_sample (snd (Agro.loop D s k))
  = if sample_guard (Agro.lastSampleMin s) (Agro.t k) then 1%nat else 0%nat.
Proof.
  intros H. rewrite agro_loop_valid by exact H. cbn [snd].
  rewrite !tally_app.
  destruct (agro_fast_step_actions s k) as [Hf _]. rewrite Hf.
  destruct (agro_fast_step_keeps s k) as (_ & _ & _ & Hm & _).
  rewrite (proj1 (agro_sample_step_tally _ k)), (proj1 (agro_report_step_tally _ k)).
  rewrite agro_sample_due, Hm.
  destruct (sample_guard _ _); reflexivity.
Qed.

Lemma agro_law_last_min (s : Agro.State) (k : Agro.Tick) :
  Agro.MIN_EPOCH <= Agro.now k ->
  Agro.lastSampleMin (fst (Agro.loop D s k))
  = next_last_min (Agro.lastSampleMin s) (Agro.t k).
Proof.
  intros H. rewrite agro_loop_valid by exact H. cbn [fst].
  destruct (agro_before_report s k) as (_ & Hm & _).
  unfold Agro.report_step.
  destruct (Agro.report_due _ _); simpl; exact Hm.
Qed.

Lemma agro_law_report (s : Agro.State) (k : Agro.Tick) :
  Agro.MIN_EPOCH <= Agro.now k ->
  tally Agro.is_post (snd (Agro.loop D s k))
  = if report_guard (Agro.lastReportHr s) (Agro.populated s) (Agro.t k)
    then 1%nat else 0%nat.
Proof.
  intros H. rewrite agro_loop_valid by exact H. cbn [snd].
  rewrite !tally_app.
  destruct (agro_fast_step_actions s k) as [_ Hf]. rewrite Hf.
  destruct (agro_before_report s k) as (Hh & _ & Hk).
  rewrite (proj2 (agro_sample_step_tally _ k)), (proj2 (agro_report_step_tally _ k)).
  rewrite agro_report_due, Hh.
  destruct (sample_guard (Agro.lastSampleMin s) (Agro.t k)) eqn:Hg.
  - rewrite !(sample_and_report_exclude _ _ _ _ Hg). reflexivity.
  - destruct (Hk eq_refl) as (_ & _ & Hv).
    unfold Agro.populated. rewrite Hv.
    destruct (report_guard _ _ _); reflexivity.
Qed.

(** The state after a tick over a valid clock, by the two guards. *)
Lemma agro_after_tick (s : Agro.State) (k : Agro.Tick) :
  Agro.MIN_EPOCH <= Agro.now k ->
  let s' := fst (Agro.loop D s k) in
  (report_guard (Agro.lastReportHr s) (Agro.populated s) (Agro.t k) = true ->
   Agro.win s' = Agro.clearBuffers (Agro.win s) /\ Agro.bufIdx s' = 0 /\
   Agro.validSamples s' = 0 /\ Agro.lastReportHr s' = tm_hour (Agro.t k)) /\
  (report_guard (Agro.lastReportHr s) (Agro.populated s) (Agro.t k) = false ->
   Agro.lastReportHr s' = Agro.lastReportHr s /\
   (sample_guard (Agro.lastSampleMin s) (Agro.t k) = false ->
    Agro.win s' = Agro.win s /\ Agro.bufIdx s' = Agro.bufIdx s /\
    Agro.validSamples s' = Agro.validSamples s)).
Proof.
  intros H. cbv zeta. rewrite agro_loop_valid by exact H. cbn [fst].
  destruct (agro_before_report s k) as (Hh & _ & Hk).
  destruct (agro_fast_step_keeps s k) as (_ & _ & _ & Hm & _).
  unfold Agro.report_step. rewrite agro_report_due, Hh.
  set (s3 := Agro.rearm_step _ k) in *.
  destruct (sample_guard (Agro.lastSampleMin s) (Agro.t k)) eqn:Hg.
  - rewrite !(sample_and_report_exclude _ _ _ _ Hg). cbn [fst].
    split; [discriminate|]. intros _. split; [exact Hh|discriminate].
  - destruct (Hk eq_refl) as (Hw & Hi & Hv).
    assert (Hp : Agro.populated s3 = Agro.populated s)
      by (unfold Agro.populated; rewrite Hv; reflexivity).
    rewrite Hp.
    destruct (report_guard _ _ _); cbn [fst]; split; intros; try discriminate.
    + unfold Agro.close_window; simpl. rewrite Hw. auto.
    + auto.
Qed.

Lemma agro_law_closed (s : Agro.State) (k : Agro.Tick) :
  Agro.MIN_EPOCH <= Agro.now k ->
  report_guard (Agro.lastReportHr s) (Agro.populated s) (Agro.t k) = true ->
  Agro.populated (fst (Agro.loop D s k)) = false.
Proof.
  intros H Hg. destruct (agro_after_tick s k H) as [Hc _].
  destruct (Hc Hg) as (_ & _ & Hv & _).
  unfold Agro.populated. rewrite Hv. reflexivity.
Qed.

Lemma agro_law_idle (s : Agro.State) (k : Agro.Tick) :
  Agro.MIN_EPOCH <= Agro.now k ->
  report_guard (Agro.lastReportHr s) (Agro.populated s) (Agro.t k) = false ->
  sample_guard (Agro.lastSampleMin s) (Agro.t k) = false ->
  Agro.populated (fst (Agro.loop D s k)) = Agro.populated s /\
  Agro.lastReportHr (fst (Agro.loop D s k)) = Agro.lastReportHr s.
Proof.
  intros H Hr Hs. destruct (agro_after_tick s k H) as [_ Hi].
  destruct (Hi Hr) as (Hh & Hk). destruct (Hk Hs) as (_ & _ & Hv).
  unfold Agro.populated. rewrite Hv. auto.
Qed.

Lemma agro_law_hour (s : Agro.State) (k : Agro.Tick) :
  Agro.MIN_EPOCH <= Agro.now k ->
  Agro.lastReportHr (fst (Agro.loop D s k))
  = if report_guard (Agro.lastReportHr s) (Agro.populated s) (Agro.t k)
    then tm_hour (Agro.t k) else Agro.lastReportHr s.
Proof.
  intros H. destruct (agro_after_tick s k H) as [Hc Hi].
  destruct (report_guard _ _ _).
  - apply (Hc eq_refl).
  - apply (Hi eq_refl).
Qed.

End AgroSteps.

Section AgroPROSteps.

Variable D : float.

Lemma agropro_resync_step_keeps (s : AgroPRO.State) (k : AgroPRO.Tick) :
  let s1 := fst (AgroPRO.resync_step s k) in
  AgroPRO.win s1 = AgroPRO.win s /\ AgroPRO.current_sample_index s1 = AgroPRO.current_sample_index s /\
  AgroPRO.samples_taken_this_hour s1 = AgroPRO.samples_taken_this_hour s /\
  AgroPRO.last_sample_minute_taken s1 = AgroPRO.last_sample_minute_taken s /\
  AgroPRO.last_report_hour_sent s1 = AgroPRO.last_report_hour_sent s.
Proof.
  unfold AgroPRO.resync_step.
  destruct (_ || _); simpl; repeat split; reflexivity.
Qed.

Lemma agropro_resync_step_actions (s : AgroPRO.State) (k : AgroPRO.Tick) :
  AgroPRO.tally_free (snd (AgroPRO.resync_step s k)).
Proof.
  unfold AgroPRO.resync_step, AgroPRO.tally_free.
  destruct (_ || _); [destruct (AgroPRO.wifi_at_sync k)|]; simpl; split; reflexivity.
Qed.

Lemma agropro_loop_invalid (s : AgroPRO.State) (k : AgroPRO.Tick) :
  AgroPRO.now_epoch k < AgroPRO.MIN_EPOCH_TIME_SEC -> AgroPRO.loop D s k = AgroPRO.resync_step s k.
Proof.
  intros H. unfold AgroPRO.loop.
  destruct (AgroPRO.resync_step s k) as [s1 a1].
  apply Z.ltb_lt in H. rewrite H. reflexivity.
Qed.

Lemma agropro_loop_valid (s : AgroPRO.State) (k : AgroPRO.Tick) :
  AgroPRO.MIN_EPOCH_TIME_SEC <= AgroPRO.now_epoch k ->
  let s1 := fst (AgroPRO.resync_step s k) in
  let s2 := fst (AgroPRO.sample_step D s1 k) in
  let s3 := AgroPRO.rearm_step s2 k in
  AgroPRO.loop D s k
  = (fst (AgroPRO.report_step s3 k),
     snd (AgroPRO.resync_step s k) ++ snd (AgroPRO.sample_step D s1 k)
     ++ snd (AgroPRO.report_step s3 k)).
Proof.
  intros H. unfold AgroPRO.loop.
  destruct (AgroPRO.resync_step s k) as [s1 a1]. simpl.
  apply Z.ltb_ge in H. rewrite H.
  destruct (AgroPRO.sample_step D s1 k) as [s2 a2]. simpl.
  destruct (AgroPRO.report_step (AgroPRO.rearm_step s2 k) k) as [s4 a4].
  reflexivity.
Qed.

Lemma agropro_sample_due (s : AgroPRO.State) (k : AgroPRO.Tick) :
  AgroPRO.sample_due s k = sample_guard (AgroPRO.last_sample_minute_taken s) (AgroPRO.time_info k).
Proof. reflexivity. Qed.

Lemma agropro_report_due (s : AgroPRO.State) (k : AgroPRO.Tick) :
  AgroPRO.report_due s k
  = report_guard (AgroPRO.last_report_hour_sent s) (AgroPRO.populated s) (AgroPRO.time_info k).
Proof. reflexivity. Qed.

(** The state before the report guard is read: the sample, if due,
    has advanced the counters and set the debounce variable. *)
Lemma agropro_before_report (s : AgroPRO.State) (k : AgroPRO.Tick) :
  let s1 := fst (AgroPRO.resync_step s k) in
  let s3 := AgroPRO.rearm_step (fst (AgroPRO.sample_step D s1 k)) k in
  AgroPRO.last_report_hour_sent s3 = AgroPRO.last_report_hour_sent s /\
  AgroPRO.last_sample_minute_taken s3 = next_last_min (AgroPRO.last_sample_minute_taken s) (AgroPRO.time_info k) /\
  (sample_guard (AgroPRO.last_sample_minute_taken s) (AgroPRO.time_info k) = false ->
   AgroPRO.win s3 = AgroPRO.win s /\ AgroPRO.current_sample_index s3 = AgroPRO.current_sample_index s /\
   AgroPRO.samples_taken_this_hour s3 = AgroPRO.samples_taken_this_hour s).
Proof.
  cbv zeta.
  destruct (agropro_resync_step_keeps s k) as (Hw & Hi & Hv & Hm & Hh).
  set (s1 := fst (AgroPRO.resync_step s k)) in *.
  unfold AgroPRO.sample_step, AgroPRO.rearm_step, next_last_min.
  rewrite agropro_sample_due, Hm.
  change (Z.rem (tm_min (AgroPRO.time_info k)) AgroPRO.SAMPLING_INTERVAL_MIN =? 0)
    with (on_sampling_minute (AgroPRO.time_info k)).
  destruct (sample_guard (AgroPRO.last_sample_minute_taken s) (AgroPRO.time_info k)) eqn:Hg.
  - assert (Hon : on_sampling_minute (AgroPRO.time_info k) = true)
      by (apply sample_guard_true in Hg; tauto).
    rewrite Hon. cbn [negb fst AgroPRO.sample_body AgroPRO.last_report_hour_sent AgroPRO.last_sample_minute_taken].
    repeat split; auto; discriminate.
  - destruct (on_sampling_minute (AgroPRO.time_info k));
      cbn [negb fst AgroPRO.win AgroPRO.current_sample_index AgroPRO.samples_taken_this_hour
           AgroPRO.last_report_hour_sent AgroPRO.last_sample_minute_taken];
      repeat split; auto.
Qed.

Lemma agropro_sample_step_tally (s : AgroPRO.State) (k : AgroPRO.Tick) :
  tally AgroPRO.is_sample (snd (AgroPRO.sample_step D s k))
  = (if AgroPRO.sample_due s k then 1%nat else 0%nat) /\
  tally AgroPRO.is_report (snd (AgroPRO.sample_step D s k)) = 0%nat.
Proof.
  unfold AgroPRO.sample_step. destruct (AgroPRO.sample_due s k); split; reflexivity.
Qed.

Lemma agropro_report_step_tally (s : AgroPRO.State) (k : AgroPRO.Tick) :
  tally AgroPRO.is_sample (snd (AgroPRO.report_step s k)) = 0%nat /\
  tally AgroPRO.is_report (snd (AgroPRO.report_step s k))
  = (if AgroPRO.report_due s k then 1%nat else 0%nat).
Proof.
  unfold AgroPRO.report_step. destruct (AgroPRO.report_due s k); split; reflexivity.
Qed.

Lemma agropro_law_sample (s : AgroPRO.State) (k : AgroPRO.Tick) :
  AgroPRO.MIN_EPOCH_TIME_SEC <= AgroPRO.now_epoch k ->
  tally AgroPRO.is_sample (snd (AgroPRO.loop D s k))
  = if sample_guard (AgroPRO.last_sample_minute_taken s) (AgroPRO.time_info k) then 1%nat else 0%nat.
Proof.
  intros H. rewrite agropro_loop_valid by exact H. cbn [snd].
  rewrite !tally_app.
  destruct (agropro_resync_step_actions s k) as [Hf _]. rewrite Hf.
  destruct (agropro_resync_step_keeps s k) as (_ & _ & _ & Hm & _).
  rewrite (proj1 (agropro_sample_step_tally _ k)), (proj1 (agropro_report_step_tally _ k)).
  rewrite agropro_sample_due, Hm.
  destruct (sample_guard _ _); reflexivity.
Qed.

Lemma agropro_law_last_min (s : AgroPRO.State) (k : AgroPRO.Tick) :
  AgroPRO.MIN_EPOCH_TIME_SEC <= AgroPRO.now_epoch k ->
  AgroPRO.last_sample_minute_taken (fst (AgroPRO.loop D s k))
  = next_last_min (AgroPRO.last_sample_minute_taken s) (AgroPRO.time_info k).
Proof.
  intros H. rewrite agropro_loop_valid by exact H. cbn [fst].
  destruct (agropro_before_report s k) as (_ & Hm & _).
  unfold AgroPRO.report_step.
  destruct (AgroPRO.report_due _ _); simpl; exact Hm.
Qed.

Lemma agropro_law_report (s : AgroPRO.State) (k : AgroPRO.Tick) :
  AgroPRO.MIN_EPOCH_TIME_SEC <= AgroPRO.now_epoch k ->
  tally AgroPRO.is_report (snd (AgroPRO.loop D s k))
  = if report_guard (AgroPRO.last_report_hour_sent s) (AgroPRO.populated s) (AgroPRO.time_info k)
    then 1%nat else 0%nat.
Proof.
  intros H. rewrite agropro_loop_valid by exact H. cbn [snd].
  rewrite !tally_app.
  destruct (agropro_resync_step_actions s k) as [_ Hf]. rewrite Hf.
  destruct (agropro_before_report s k) as (Hh & _ & Hk).
  rewrite (proj2 (agropro_sample_step_tally _ k)), (proj2 (agropro_report_step_tally _ k)).
  rewrite agropro_report_due, Hh.
  destruct (sample_guard (AgroPRO.last_sample_minute_taken s) (AgroPRO.time_info k)) eqn:Hg.
  - rewrite !(sample_and_report_exclude _ _ _ _ Hg). reflexivity.
  - destruct (Hk eq_refl) as (_ & _ & Hv).
    unfold AgroPRO.populated. rewrite Hv.
    destruct (report_guard _ _ _); reflexivity.
Qed.

(** The state after a tick over a valid clock, by the two guards. *)
Lemma agropro_after_tick (s : AgroPRO.State) (k : AgroPRO.Tick) :
  AgroPRO.MIN_EPOCH_TIME_SEC <= AgroPRO.now_epoch k ->
  let s' := fst (AgroPRO.loop D s k) in
  (report_guard (AgroPRO.last_report_hour_sent s) (AgroPRO.populated s) (AgroPRO.time_info k) = true ->
   AgroPRO.win s' = AgroPRO.clearSampleArrays (AgroPRO.win s) /\ AgroPRO.current_sample_index s' = 0 /\
   AgroPRO.samples_taken_this_hour s' = 0 /\ AgroPRO.last_report_hour_sent s' = tm_hour (AgroPRO.time_info k)) /\
  (report_guard (AgroPRO.last_report_hour_sent s) (AgroPRO.populated s) (AgroPRO.time_info k) = false ->
   AgroPRO.last_report_hour_sent s' = AgroPRO.last_report_hour_sent s /\
   (sample_guard (AgroPRO.last_sample_minute_taken s) (AgroPRO.time_info k) = false ->
    AgroPRO.win s' = AgroPRO.win s /\ AgroPRO.current_sample_index s' = AgroPRO.current_sample_index s /\
    AgroPRO.samples_taken_this_hour s' = AgroPRO.samples_taken_this_hour s)).
Proof.
  intros H. cbv zeta. rewrite agropro_loop_valid by exact H. cbn [fst].
  destruct (agropro_before_report s k) as (Hh & _ & Hk).
  destruct (agropro_resync_step_keeps s k) as (_ & _ & _ & Hm & _).
  unfold AgroPRO.report_step. rewrite agropro_report_due, Hh.
  set (s3 := AgroPRO.rearm_step _ k) in *.
  destruct (sample_guard (AgroPRO.last_sample_minute_taken s) (AgroPRO.time_info k)) eqn:Hg.
  - rewrite !(sample_and_report_exclude _ _ _ _ Hg). cbn [fst].
    split; [discriminate|]. intros _. split; [exact Hh|discriminate].
  - destruct (Hk eq_refl) as (Hw & Hi & Hv).
    assert (Hp : AgroPRO.populated s3 = AgroPRO.populated s)
      by (unfold AgroPRO.populated; rewrite Hv; reflexivity).
    rewrite Hp.
    destruct (report_guard _ _ _); cbn [fst]; split; intros; try discriminate.
    + unfold AgroPRO.close_window; simpl. rewrite Hw. auto.
    + auto.
Qed.

Lemma agropro_law_closed (s : AgroPRO.State) (k : AgroPRO.Tick) :
  AgroPRO.MIN_EPOCH_TIME_SEC <= AgroPRO.now_epoch k ->
  report_guard (AgroPRO.last_report_hour_sent s) (AgroPRO.populated s) (AgroPRO.time_info k) = true ->
  AgroPRO.populated (fst (AgroPRO.loop D s k)) = false.
Proof.
  intros H Hg. destruct (agropro_after_tick s k H) as [Hc _].
  destruct (Hc Hg) as (_ & _ & Hv & _).
  unfold AgroPRO.populated. rewrite Hv. reflexivity.
Qed.

Lemma agropro_law_idle (s : AgroPRO.State) (k : AgroPRO.Tick) :
  AgroPRO.MIN_EPOCH_TIME_SEC <= AgroPRO.now_epoch k ->
  report_guard (AgroPRO.last_report_hour_sent s) (AgroPRO.populated s) (AgroPRO.time_info k) = false ->
  sample_guard (AgroPRO.last_sample_minute_taken s) (AgroPRO.time_info k) = false ->
  AgroPRO.populated (fst (AgroPRO.loop D s k)) = AgroPRO.populated s /\
  AgroPRO.last_report_hour_sent (fst (AgroPRO.loop D s k)) = AgroPRO.last_report_hour_sent s.
Proof.
  intros H Hr Hs. destruct (agropro_after_tick s k H) as [_ Hi].
  destruct (Hi Hr) as (Hh & Hk). destruct (Hk Hs) as (_ & _ & Hv).
  unfold AgroPRO.populated. rewrite Hv. auto.
Qed.

Lemma agropro_law_hour (s : AgroPRO.State) (k : AgroPRO.Tick) :
  AgroPRO.MIN_EPOCH_TIME_SEC <= AgroPRO.now_epoch k ->
  AgroPRO.last_report_hour_sent (fst (AgroPRO.loop D s k))
  = if report_guard (AgroPRO.last_report_hour_sent s) (AgroPRO.populated s)
                    (AgroPRO.time_info k)
    then tm_hour (AgroPRO.time_info k) else AgroPRO.last_report_hour_sent s.
Proof.
  intros H. destruct (agropro_after_tick s k H) as [Hc Hi].
  destruct (report_guard _ _ _).
  - apply (Hc eq_refl).
  - apply (Hi eq_refl).
Qed.

End AgroPROSteps.

(** ** The sample boundary (C2) *)

(** C2, as amended.  In either sketch, over a valid wall clock that
    never runs backwards: no sample boundary is sampled twice, however
    many polls fall into its second; when moreover the clock is polled
    at least once every 540 seconds, from a state whose last sample
    minute is cleared (as after [setup()]), every sample boundary that
    is polled is sampled exactly once; and any run of [loop()] over a
    valid clock in a minute not divisible by ten clears the last
    sample minute. *)
Theorem sample_boundary_fires_once (D : float) :
  (forall (b : Z) (s : Agro.State) (k0 : Agro.Tick) (ks : list Agro.Tick),
      sample_boundary Agro.GMT_OFFSET b ->
      Agro.lastSampleMin s = -1 ->
      Forall AgroClock.wall_clock (k0 :: ks) ->
      steady Agro.now 540 (Agro.now k0) ks ->
      In b (map Agro.now (k0 :: ks)) ->
      fired_at (Agro.loop D) Agro.now Agro.is_sample b s (k0 :: ks) = 1%nat) /\
  (forall (b : Z) (s : AgroPRO.State) (k0 : AgroPRO.Tick) (ks : list AgroPRO.Tick),
      sample_boundary AgroPRO.GMT_OFFSET_SECONDS b ->
      AgroPRO.last_sample_minute_taken s = -1 ->
      Forall AgroPROClock.wall_clock (k0 :: ks) ->
      steady AgroPRO.now_epoch 540 (AgroPRO.now_epoch k0) ks ->
      In b (map AgroPRO.now_epoch (k0 :: ks)) ->
      fired_at (AgroPRO.loop D) AgroPRO.now_epoch AgroPRO.is_sample b s (k0 :: ks)
      = 1%nat) /\
  (forall (b : Z) (s : Agro.State) (ks : list Agro.Tick) (e : Z),
      Forall AgroClock.wall_clock ks -> monotone Agro.now e ks ->
      (fired_at (Agro.loop D) Agro.now Agro.is_sample b s ks <= 1)%nat) /\
  (forall (b : Z) (s : AgroPRO.State) (ks : list AgroPRO.Tick) (e : Z),
      Forall AgroPROClock.wall_clock ks -> monotone AgroPRO.now_epoch e ks ->
      (fired_at (AgroPRO.loop D) AgroPRO.now_epoch AgroPRO.is_sample b s ks <= 1)%nat) /\
  (forall (s : Agro.State) (k : Agro.Tick),
      Agro.MIN_EPOCH <= Agro.now k ->
      Z.rem (tm_min (Agro.t k)) Agro.SAMPLE_STEP <> 0 ->
      Agro.lastSampleMin (fst (Agro.loop D s k)) = -1) /\
  (forall (s : AgroPRO.State) (k : AgroPRO.Tick),
      AgroPRO.MIN_EPOCH_TIME_SEC <= AgroPRO.now_epoch k ->
      Z.rem (tm_min (AgroPRO.time_info k)) AgroPRO.SAMPLING_INTERVAL_MIN <> 0 ->
      AgroPRO.last_sample_minute_taken (fst (AgroPRO.loop D s k)) = -1).
Proof.
  split; [|split; [|split; [|split; [|split]]]].
  - intros b s k0 ks Hb Hl Hv Hst Hin.
    eapply (sample_once (Agro.loop D) Agro.now Agro.t Agro.is_sample
                        Agro.lastSampleMin Agro.GMT_OFFSET Agro.MIN_EPOCH);
      eauto using agro_law_sample, agro_law_last_min.
  - intros b s k0 ks Hb Hl Hv Hst Hin.
    eapply (sample_once (AgroPRO.loop D) AgroPRO.now_epoch AgroPRO.time_info
                        AgroPRO.is_sample AgroPRO.last_sample_minute_taken
                        AgroPRO.GMT_OFFSET_SECONDS AgroPRO.MIN_EPOCH_TIME_SEC);
      eauto using agropro_law_sample, agropro_law_last_min.
  - intros b s ks e Hv Hm.
    eapply (sample_at_most_once (Agro.loop D) Agro.now Agro.t Agro.is_sample
                                Agro.lastSampleMin Agro.GMT_OFFSET Agro.MIN_EPOCH);
      eauto using agro_law_sample, agro_law_last_min.
  - intros b s ks e Hv Hm.
    eapply (sample_at_most_once (AgroPRO.loop D) AgroPRO.now_epoch AgroPRO.time_info
                                AgroPRO.is_sample AgroPRO.last_sample_minute_taken
                                AgroPRO.GMT_OFFSET_SECONDS AgroPRO.MIN_EPOCH_TIME_SEC);
      eauto using agropro_law_sample, agropro_law_last_min.
  - intros s k Hmin Hoff. rewrite agro_law_last_min by exact Hmin.
    unfold next_last_min, on_sampling_minute.
    apply Z.eqb_neq in Hoff. unfold Agro.SAMPLE_STEP in Hoff. rewrite Hoff.
    reflexivity.
  - intros s k Hmin Hoff. rewrite agropro_law_last_min by exact Hmin.
    unfold next_last_min, on_sampling_minute.
    apply Z.eqb_neq in Hoff. unfold AgroPRO.SAMPLING_INTERVAL_MIN in Hoff.
    rewrite Hoff. reflexivity.
Qed.

(** Three polls in the second 08:00:00 and one at 08:03:20, local
    time, of 1 January 2000. *)
Lemma sample_boundary_fires_once_witness :
  let D := of_int (-127) in
  let b := 946684800 in
  let v := of_int 21 in
  fired_at (Agro.loop D) Agro.now Agro.is_sample b (Agro.boot (cloud_of v))
           [AgroClock.poll b 0 v; AgroClock.poll b 300 v; AgroClock.poll b 600 v;
            AgroClock.poll (b + 200) 200600 v] = 1%nat /\
  fired_at (AgroPRO.loop D) AgroPRO.now_epoch AgroPRO.is_sample b
           (AgroPRO.boot (cloud_of v))
           [AgroPROClock.poll b 0 v; AgroPROClock.poll b 300 v;
            AgroPROClock.poll b 600 v; AgroPROClock.poll (b + 200) 200600 v]
  = 1%nat.
Proof.
  intros D b v.
  destruct (sample_boundary_fires_once D) as (HA & HP & _).
  split.
  - apply HA.
    + split; reflexivity.
    + reflexivity.
    + repeat constructor; vm_compute; congruence.
    + simpl; lia.
    + simpl; auto.
  - apply HP.
    + split; reflexivity.
    + reflexivity.
    + repeat constructor; vm_compute; congruence.
    + simpl; lia.
    + simpl; auto.
Defined.

(** C2 as stated fails in two ways.  When the polls skip every minute
    that is not divisible by ten (here polls at 08:00:00 and 09:00:00
    only), the second boundary finds the last sample minute still at 0
    and does not sample.  And a boundary second that no poll falls
    into (here polls at 08:09:59 and 08:10:01) is never sampled. *)
Lemma stale_minute_blocks_sample :
  let D := of_int (-127) in
  let v := of_int 21 in
  let b1 := 946684800 in
  let b2 := 946688400 in
  let b3 := 946685400 in
  sample_boundary Agro.GMT_OFFSET b2 /\
  Forall AgroClock.wall_clock [AgroClock.poll b1 0 v; AgroClock.poll b2 3600000 v] /\
  fired_at (Agro.loop D) Agro.now Agro.is_sample b2 (Agro.boot (cloud_of v))
           [AgroClock.poll b1 0 v; AgroClock.poll b2 3600000 v] = 0%nat /\
  Forall AgroPROClock.wall_clock
         [AgroPROClock.poll b1 0 v; AgroPROClock.poll b2 3600000 v] /\
  fired_at (AgroPRO.loop D) AgroPRO.now_epoch AgroPRO.is_sample b2
           (AgroPRO.boot (cloud_of v))
           [AgroPROClock.poll b1 0 v; AgroPROClock.poll b2 3600000 v] = 0%nat /\
  sample_boundary Agro.GMT_OFFSET b3 /\
  Agro.validSamples
    (final (Agro.loop D) (Agro.boot (cloud_of v))
           [AgroClock.poll (b3 - 1) 0 v; AgroClock.poll (b3 + 1) 2000 v]) = 0 /\
  AgroPRO.samples_taken_this_hour
    (final (AgroPRO.loop D) (AgroPRO.boot (cloud_of v))
           [AgroPROClock.poll (b3 - 1) 0 v; AgroPROClock.poll (b3 + 1) 2000 v]) = 0.
Proof.
  cbv zeta. split; [split; reflexivity|].
  split; [repeat constructor; vm_compute; congruence|].
  split; [vm_compute; reflexivity|].
  split; [repeat constructor; vm_compute; congruence|].
  split; [vm_compute; reflexivity|].
  split; [split; reflexivity|].
  split; vm_compute; reflexivity.
Qed.

(** ** The report boundary (C3) *)

(** C3, as amended.  In either sketch, over a valid wall clock that
    never runs backwards: a polled report boundary fires the report
    exactly once when, at its first poll, the window is populated and
    the last report hour differs from the hour of the boundary, and
    does not fire otherwise; this is the case, in a run from a state
    that has not reported yet (as after [setup()]), whenever the window
    is populated and the last report of the run, if any, was made less
    than a day before; no boundary fires twice; and a poll of the
    boundary with [populatedCount = 0] performs no report and leaves
    the buffers, the write index, the count and both debounce
    variables unchanged. *)
Theorem report_boundary_fires_once (D : float) :
  (forall (b : Z) (s : Agro.State) (pre : list Agro.Tick) (k : Agro.Tick)
          (post : list Agro.Tick),
      report_boundary Agro.GMT_OFFSET b ->
      Forall (fun k' => Agro.now k' < b) pre -> Agro.now k = b ->
      Forall AgroClock.wall_clock (k :: post) -> monotone Agro.now b post ->
      let s1 := final (Agro.loop D) s pre in
      fired_at (Agro.loop D) Agro.now Agro.is_post b s (pre ++ k :: post)
      = if negb (Agro.lastReportHr s1 =? tm_hour (civil_time Agro.GMT_OFFSET b))
           && Agro.populated s1
        then 1%nat else 0%nat) /\
  (forall (b : Z) (s : AgroPRO.State) (pre : list AgroPRO.Tick) (k : AgroPRO.Tick)
          (post : list AgroPRO.Tick),
      report_boundary AgroPRO.GMT_OFFSET_SECONDS b ->
      Forall (fun k' => AgroPRO.now_epoch k' < b) pre -> AgroPRO.now_epoch k = b ->
      Forall AgroPROClock.wall_clock (k :: post) ->
      monotone AgroPRO.now_epoch b post ->
      let s1 := final (AgroPRO.loop D) s pre in
      fired_at (AgroPRO.loop D) AgroPRO.now_epoch AgroPRO.is_report b s
               (pre ++ k :: post)
      = if negb (AgroPRO.last_report_hour_sent s1
                 =? tm_hour (civil_time AgroPRO.GMT_OFFSET_SECONDS b))
           && AgroPRO.populated s1
        then 1%nat else 0%nat) /\
  (forall (b : Z) (s : Agro.State) (pre : list Agro.Tick) (k : Agro.Tick)
          (post : list Agro.Tick),
      report_boundary Agro.GMT_OFFSET b -> Agro.lastReportHr s = -1 ->
      Forall AgroClock.wall_clock pre ->
      Forall (fun k' => Agro.now k' < b) pre -> Agro.now k = b ->
      Forall AgroClock.wall_clock (k :: post) -> monotone Agro.now b post ->
      0 < Agro.validSamples (final (Agro.loop D) s pre) ->
      (forall r, last (fired_epochs (Agro.loop D) Agro.now Agro.is_post s pre) = Some r ->
                 b - r < 86400) ->
      fired_at (Agro.loop D) Agro.now Agro.is_post b s (pre ++ k :: post) = 1%nat) /\
  (forall (b : Z) (s : AgroPRO.State) (pre : list AgroPRO.Tick) (k : AgroPRO.Tick)
          (post : list AgroPRO.Tick),
      report_boundary AgroPRO.GMT_OFFSET_SECONDS b ->
      AgroPRO.last_report_hour_sent s = -1 ->
      Forall AgroPROClock.wall_clock pre ->
      Forall (fun k' => AgroPRO.now_epoch k' < b) pre -> AgroPRO.now_epoch k = b ->
      Forall AgroPROClock.wall_clock (k :: post) ->
      monotone AgroPRO.now_epoch b post ->
      0 < AgroPRO.samples_taken_this_hour (final (AgroPRO.loop D) s pre) ->
      (forall r,
          last (fired_epochs (AgroPRO.loop D) AgroPRO.now_epoch AgroPRO.is_report s pre)
          = Some r -> b - r < 86400) ->
      fired_at (AgroPRO.loop D) AgroPRO.now_epoch AgroPRO.is_report b s
               (pre ++ k :: post) = 1%nat) /\
  (forall (b : Z) (s : Agro.State) (ks : list Agro.Tick) (e : Z),
      Forall AgroClock.wall_clock ks -> monotone Agro.now e ks ->
      (fired_at (Agro.loop D) Agro.now Agro.is_post b s ks <= 1)%nat) /\
  (forall (b : Z) (s : AgroPRO.State) (ks : list AgroPRO.Tick) (e : Z),
      Forall AgroPROClock.wall_clock ks -> monotone AgroPRO.now_epoch e ks ->
      (fired_at (AgroPRO.loop D) AgroPRO.now_epoch AgroPRO.is_report b s ks <= 1)%nat) /\
  (forall (b : Z) (s : Agro.State) (k : Agro.Tick),
      report_boundary Agro.GMT_OFFSET b ->
      AgroClock.wall_clock k -> Agro.now k = b -> Agro.validSamples s = 0 ->
      let s' := fst (Agro.loop D s k) in
      Agro.tally_free (snd (Agro.loop D s k)) /\
      Agro.win s' = Agro.win s /\ Agro.bufIdx s' = Agro.bufIdx s /\
      Agro.validSamples s' = Agro.validSamples s /\
      Agro.lastSampleMin s' = Agro.lastSampleMin s /\
      Agro.lastReportHr s' = Agro.lastReportHr s) /\
  (forall (b : Z) (s : AgroPRO.State) (k : AgroPRO.Tick),
      report_boundary AgroPRO.GMT_OFFSET_SECONDS b ->
      AgroPROClock.wall_clock k -> AgroPRO.now_epoch k = b ->
      AgroPRO.samples_taken_this_hour s = 0 ->
      let s' := fst (AgroPRO.loop D s k) in
      AgroPRO.tally_free (snd (AgroPRO.loop D s k)) /\
      AgroPRO.win s' = AgroPRO.win s /\
      AgroPRO.current_sample_index s' = AgroPRO.current_sample_index s /\
      AgroPRO.samples_taken_this_hour s' = AgroPRO.samples_taken_this_hour s /\
      AgroPRO.last_sample_minute_taken s' = AgroPRO.last_sample_minute_taken s /\
      AgroPRO.last_report_hour_sent s' = AgroPRO.last_report_hour_sent s).
Proof.
  split; [|split; [|split; [|split; [|split; [|split; [|split]]]]]].
  - intros b s pre k post Hb Hpre He Hv Hm s1.
    rewrite (reports_fired_polled (Agro.loop D) Agro.now Agro.t Agro.is_post
               Agro.lastSampleMin Agro.lastReportHr Agro.populated
               Agro.GMT_OFFSET Agro.MIN_EPOCH
               (agro_law_report D) (agro_law_closed D) (agro_law_idle D)
               b s pre k post Hb Hpre He Hv Hm).
    fold s1. rewrite report_guard_at_boundary by exact Hb. reflexivity.
  - intros b s pre k post Hb Hpre He Hv Hm s1.
    rewrite (reports_fired_polled (AgroPRO.loop D) AgroPRO.now_epoch AgroPRO.time_info
               AgroPRO.is_report AgroPRO.last_sample_minute_taken
               AgroPRO.last_report_hour_sent AgroPRO.populated
               AgroPRO.GMT_OFFSET_SECONDS AgroPRO.MIN_EPOCH_TIME_SEC
               (agropro_law_report D) (agropro_law_closed D) (agropro_law_idle D)
               b s pre k post Hb Hpre He Hv Hm).
    fold s1. rewrite report_guard_at_boundary by exact Hb. reflexivity.
  - intros b s pre k post Hb Hl Hvp Hpre He Hv Hm Hpop Hrecent.
    apply (report_once_recent (Agro.loop D) Agro.now Agro.t Agro.is_post
             Agro.lastSampleMin Agro.lastReportHr Agro.populated
             Agro.GMT_OFFSET Agro.MIN_EPOCH
             (agro_law_report D) (agro_law_closed D) (agro_law_idle D)
             (agro_law_hour D)); auto.
    unfold Agro.populated. apply negb_true_iff, Z.eqb_neq. lia.
  - intros b s pre k post Hb Hl Hvp Hpre He Hv Hm Hpop Hrecent.
    apply (report_once_recent (AgroPRO.loop D) AgroPRO.now_epoch AgroPRO.time_info
             AgroPRO.is_report AgroPRO.last_sample_minute_taken
             AgroPRO.last_report_hour_sent AgroPRO.populated
             AgroPRO.GMT_OFFSET_SECONDS AgroPRO.MIN_EPOCH_TIME_SEC
             (agropro_law_report D) (agropro_law_closed D) (agropro_law_idle D)
             (agropro_law_hour D)); auto.
    unfold AgroPRO.populated. apply Z.ltb_lt. lia.
  - intros b s ks e Hv Hm.
    eapply (report_at_most_once (Agro.loop D) Agro.now Agro.t Agro.is_post
              Agro.lastSampleMin Agro.lastReportHr Agro.populated
              Agro.GMT_OFFSET Agro.MIN_EPOCH);
      eauto using agro_law_report, agro_law_closed, agro_law_idle.
  - intros b s ks e Hv Hm.
    eapply (report_at_most_once (AgroPRO.loop D) AgroPRO.now_epoch AgroPRO.time_info
              AgroPRO.is_report AgroPRO.last_sample_minute_taken
              AgroPRO.last_report_hour_sent AgroPRO.populated
              AgroPRO.GMT_OFFSET_SECONDS AgroPRO.MIN_EPOCH_TIME_SEC);
      eauto using agropro_law_report, agropro_law_closed, agropro_law_idle.
  - intros b s k Hb [Hmin Hclk] He Hz s'. rewrite He in Hclk.
    assert (Hr : report_guard (Agro.lastReportHr s) (Agro.populated s) (Agro.t k) = false).
    { unfold report_guard, Agro.populated. rewrite Hz. simpl. apply andb_false_r. }
    assert (Hs : sample_guard (Agro.lastSampleMin s) (Agro.t k) = false).
    { rewrite Hclk. apply (no_sample_at_report_boundary Agro.GMT_OFFSET), Hb. }
    destruct (agro_after_tick D s k Hmin) as [_ Hi].
    destruct (Hi Hr) as (Hh & Hk). destruct (Hk Hs) as (Hw & Hx & Hc).
    split; [|repeat split; auto].
    + split.
      * rewrite agro_law_sample, Hs by exact Hmin. reflexivity.
      * rewrite agro_law_report, Hr by exact Hmin. reflexivity.
    + subst s'. rewrite agro_law_last_min by exact Hmin.
      unfold next_last_min. rewrite Hs.
      destruct (on_sampling_minute (Agro.t k)) eqn:Hon; [reflexivity|].
      destruct Hb as [Hb _]. rewrite Hclk in Hon.
      unfold on_sampling_minute in Hon. rewrite Hb in Hon. discriminate.
  - intros b s k Hb [Hmin Hclk] He Hz s'. rewrite He in Hclk.
    assert (Hr : report_guard (AgroPRO.last_report_hour_sent s) (AgroPRO.populated s)
                              (AgroPRO.time_info k) = false).
    { unfold report_guard, AgroPRO.populated. rewrite Hz. simpl. apply andb_false_r. }
    assert (Hs : sample_guard (AgroPRO.last_sample_minute_taken s)
                              (AgroPRO.time_info k) = false).
    { rewrite Hclk. apply (no_sample_at_report_boundary Agro.GMT_OFFSET), Hb. }
    destruct (agropro_after_tick D s k Hmin) as [_ Hi].
    destruct (Hi Hr) as (Hh & Hk). destruct (Hk Hs) as (Hw & Hx & Hc).
    split; [|repeat split; auto].
    + split.
      * rewrite agropro_law_sample, Hs by exact Hmin. reflexivity.
      * rewrite agropro_law_report, Hr by exact Hmin. reflexivity.
    + subst s'. rewrite agropro_law_last_min by exact Hmin.
      unfold next_last_min. rewrite Hs.
      destruct (on_sampling_minute (AgroPRO.time_info k)) eqn:Hon; [reflexivity|].
      destruct Hb as [Hb _]. rewrite Hclk in Hon.
      unfold on_sampling_minute in Hon.
      change Agro.GMT_OFFSET with AgroPRO.GMT_OFFSET_SECONDS in Hon.
      rewrite Hb in Hon. discriminate.
Qed.

(** Polls at 08:00:00 (a sample), then three polls in the second
    08:00:05: the report fires once. *)
Lemma report_boundary_fires_once_witness :
  let D := of_int (-127) in
  let v := of_int 21 in
  let b := 946684805 in
  fired_at (Agro.loop D) Agro.now Agro.is_post b (Agro.boot (cloud_of v))
           ([AgroClock.poll (b - 5) 0 v]
            ++ AgroClock.poll b 5000 v
            :: [AgroClock.poll b 5300 v; AgroClock.poll b 5600 v]) = 1%nat /\
  fired_at (AgroPRO.loop D) AgroPRO.now_epoch AgroPRO.is_report b
           (AgroPRO.boot (cloud_of v))
           ([AgroPROClock.poll (b - 5) 0 v]
            ++ AgroPROClock.poll b 5000 v
            :: [AgroPROClock.poll b 5300 v; AgroPROClock.poll b 5600 v]) = 1%nat.
Proof.
  intros D v b.
  destruct (report_boundary_fires_once D) as (HA & HP & _).
  split.
  - refine (HA b (Agro.boot (cloud_of v)) [AgroClock.poll (b - 5) 0 v]
               (AgroClock.poll b 5000 v)
               [AgroClock.poll b 5300 v; AgroClock.poll b 5600 v] _ _ _ _ _).
    + split; reflexivity.
    + repeat constructor.
    + reflexivity.
    + repeat constructor; vm_compute; congruence.
    + simpl; lia.
  - refine (HP b (AgroPRO.boot (cloud_of v)) [AgroPROClock.poll (b - 5) 0 v]
               (AgroPROClock.poll b 5000 v)
               [AgroPROClock.poll b 5300 v; AgroPROClock.poll b 5600 v] _ _ _ _ _).
    + split; reflexivity.
    + repeat constructor.
    + reflexivity.
    + repeat constructor; vm_compute; congruence.
    + simpl; lia.
Defined.

(** C3 as stated fails in two ways.  When a day passes without a
    report (after the report of 08:00:05 and a sample at 08:10:00, the
    next poll is that of 08:00:05 of the next day), the boundary finds
    one sample in the window and the last report hour still at 8, and
    does not report.  And a boundary second that no poll falls into
    (here polls at 08:00:00, 08:00:04 and 08:00:06) is never reported,
    although the window is populated. *)
Lemma stale_hour_blocks_report :
  let D := of_int (-127) in
  let v := of_int 21 in
  let b := 946684805 + 86400 in
  let before := [AgroClock.poll 946684800 0 v; AgroClock.poll 946684805 5000 v;
                 AgroClock.poll 946685400 600000 v] in
  let before' := [AgroPROClock.poll 946684800 0 v; AgroPROClock.poll 946684805 5000 v;
                  AgroPROClock.poll 946685400 600000 v] in
  let around := [AgroClock.poll 946684800 0 v; AgroClock.poll 946684804 4000 v;
                 AgroClock.poll 946684806 6000 v] in
  let around' := [AgroPROClock.poll 946684800 0 v; AgroPROClock.poll 946684804 4000 v;
                  AgroPROClock.poll 946684806 6000 v] in
  report_boundary Agro.GMT_OFFSET b /\
  Forall AgroClock.wall_clock (before ++ [AgroClock.poll b 86405000 v]) /\
  monotone Agro.now 946684800 (before ++ [AgroClock.poll b 86405000 v]) /\
  Agro.validSamples (final (Agro.loop D) (Agro.boot (cloud_of v)) before) = 1 /\
  fired_at (Agro.loop D) Agro.now Agro.is_post b (Agro.boot (cloud_of v))
           (before ++ [AgroClock.poll b 86405000 v]) = 0%nat /\
  AgroPRO.samples_taken_this_hour
    (final (AgroPRO.loop D) (AgroPRO.boot (cloud_of v)) before') = 1 /\
  fired_at (AgroPRO.loop D) AgroPRO.now_epoch AgroPRO.is_report b
           (AgroPRO.boot (cloud_of v))
           (before' ++ [AgroPROClock.poll b 86405000 v]) = 0%nat /\
  Agro.validSamples (final (Agro.loop D) (Agro.boot (cloud_of v)) around) = 1 /\
  Agro.lastReportHr (final (Agro.loop D) (Agro.boot (cloud_of v)) around) = -1 /\
  AgroPRO.samples_taken_this_hour
    (final (AgroPRO.loop D) (AgroPRO.boot (cloud_of v)) around') = 1 /\
  AgroPRO.last_report_hour_sent
    (final (AgroPRO.loop D) (AgroPRO.boot (cloud_of v)) around') = -1.
Proof.
  cbv zeta. split; [split; reflexivity|].
  split; [repeat constructor; vm_compute; congruence|].
  split; [simpl; lia|].
  repeat split; vm_compute; reflexivity.
Qed.

(** ** Closing the window (C9) *)

Lemma length_six {A : Type} (l : list A) :
  length l = 6%nat -> exists a b c d e f, l = [a; b; c; d; e; f].
Proof.
  intros H.
  do 6 (destruct l as [|? l]; [discriminate|]).
  destruct l; [|discriminate]. eauto 10.
Qed.

Lemma rows_shape (rows : list (list float)) :
  length rows = 4%nat -> Forall (fun row => length row = 6%nat) rows ->
  exists r0 r1 r2 r3, rows = [r0; r1; r2; r3] /\
    length r0 = 6%nat /\ length r1 = 6%nat /\ length r2 = 6%nat /\ length r3 = 6%nat.
Proof.
  intros H HF.
  do 4 (destruct rows as [|? rows]; [discriminate|]).
  destruct rows; [|discriminate].
  repeat match goal with H : Forall _ (_ :: _) |- _ => inversion H; clear H; subst end.
  eauto 10.
Qed.

Lemma agro_clearBuffers_blank (w : Window) :
  window_shape Agro.NUM_DS (Z.to_nat Agro.SAMPLES_HR) w ->
  Agro.clearBuffers w = blank_window Agro.NUM_DS (Z.to_nat Agro.SAMPLES_HR).
Proof.
  destruct w as [rows tr hr]. intros (H1 & H2 & H3 & H4). simpl in *.
  destruct (rows_shape rows H1 H2) as (r0 & r1 & r2 & r3 & -> & L0 & L1 & L2 & L3).
  destruct (length_six _ L0) as (? & ? & ? & ? & ? & ? & ->).
  destruct (length_six _ L1) as (? & ? & ? & ? & ? & ? & ->).
  destruct (length_six _ L2) as (? & ? & ? & ? & ? & ? & ->).
  destruct (length_six _ L3) as (? & ? & ? & ? & ? & ? & ->).
  destruct (length_six _ H3) as (? & ? & ? & ? & ? & ? & ->).
  destruct (length_six _ H4) as (? & ? & ? & ? & ? & ? & ->).
  reflexivity.
Qed.

Lemma agropro_clearSampleArrays_blank (w : Window) :
  window_shape AgroPRO.NUM_DS18B20_SENSORS (Z.to_nat AgroPRO.SAMPLES_PER_HOUR) w ->
  AgroPRO.clearSampleArrays w
  = blank_window AgroPRO.NUM_DS18B20_SENSORS (Z.to_nat AgroPRO.SAMPLES_PER_HOUR).
Proof. exact (agro_clearBuffers_blank w). Qed.

Lemma blank_window_shape (probes capacity : nat) :
  window_shape probes capacity (blank_window probes capacity).
Proof.
  unfold window_shape, blank_window; simpl.
  rewrite !length_replicate. repeat split; auto.
  apply Forall_replicate. apply length_replicate.
Qed.

Lemma blank_window_invalid (probes capacity : nat) :
  all_invalid (blank_window probes capacity).
Proof.
  unfold all_invalid, blank_window; simpl.
  repeat split; repeat apply Forall_replicate; reflexivity.
Qed.

(** ** The four outcomes of one run of [loop()] *)

Section AgroOutcomes.

Variable D : float.

(** One run of [Agro.cpp]'s loop performs its fast step and then
    nothing (the clock is invalid, or no boundary is due), the
    sample, or the report. *)
Lemma agro_loop_cases (s : Agro.State) (k : Agro.Tick) :
  let s1 := fst (Agro.fast_step D s k) in
  let out := Agro.loop D s k in
  (Agro.now k < Agro.MIN_EPOCH /\ fst out = s1 /\ Agro.tally_free (snd out)) \/
  (Agro.MIN_EPOCH <= Agro.now k /\ Agro.sample_due s k = true /\
   Agro.report_due s k = false /\
   fst out = Agro.take_sample D s1 k /\
   tally Agro.is_sample (snd out) = 1%nat /\ tally Agro.is_post (snd out) = 0%nat) \/
  (Agro.MIN_EPOCH <= Agro.now k /\ Agro.sample_due s k = false /\
   Agro.report_due s k = true /\
   fst out = Agro.close_window s1 k /\
   tally Agro.is_sample (snd out) = 0%nat /\ tally Agro.is_post (snd out) = 1%nat) \/
  (Agro.MIN_EPOCH <= Agro.now k /\ Agro.sample_due s k = false /\
   Agro.report_due s k = false /\
   fst out = Agro.rearm_step s1 k /\ Agro.tally_free (snd out)).
Proof.
  cbv zeta.
  destruct (Z.lt_ge_cases (Agro.now k) Agro.MIN_EPOCH) as [Hlt|Hge].
  - left. rewrite agro_loop_invalid by exact Hlt.
    split; [exact Hlt|]. split; [reflexivity|]. apply agro_fast_step_actions.
  - right.
    pose proof (agro_law_sample D s k Hge) as Hts.
    pose proof (agro_law_report D s k Hge) as Htr.
    rewrite <- agro_sample_due in Hts. rewrite <- agro_report_due in Htr.
    rewrite agro_loop_valid in * by exact Hge. cbn [fst snd] in *.
    destruct (agro_fast_step_keeps D s k) as (Hw & Hi & Hv & Hm & Hh).
    set (s1 := fst (Agro.fast_step D s k)) in *.
    assert (Hd1 : Agro.sample_due s1 k = Agro.sample_due s k)
      by (rewrite !agro_sample_due, Hm; reflexivity).
    destruct (Agro.sample_due s k) eqn:Hsd.
    + left. split; [exact Hge|].
      assert (Hrd : Agro.report_due s k = false).
      { rewrite agro_report_due. rewrite agro_sample_due in Hsd.
        eapply sample_and_report_exclude; eauto. }
      rewrite Hrd in *.
      repeat split; auto.
      unfold Agro.sample_step. rewrite Hd1. cbn [fst].
      assert (Hon : on_sampling_minute (Agro.t k) = true).
      { rewrite agro_sample_due in Hsd. apply sample_guard_true in Hsd. tauto. }
      assert (Hr3 : Agro.rearm_step (Agro.take_sample D s1 k) k
                    = Agro.take_sample D s1 k).
      { unfold Agro.rearm_step.
        change (Z.rem (tm_min (Agro.t k)) Agro.SAMPLE_STEP =? 0)
          with (on_sampling_minute (Agro.t k)).
        rewrite Hon. reflexivity. }
      rewrite Hr3. unfold Agro.report_step.
      replace (Agro.report_due (Agro.take_sample D s1 k) k) with false; [reflexivity|].
      symmetry. rewrite agro_report_due. rewrite agro_sample_due in Hsd.
      eapply sample_and_report_exclude; eauto.
    + right.
      assert (Hs2 : fst (Agro.sample_step D s1 k) = s1)
        by (unfold Agro.sample_step; rewrite Hd1; reflexivity).
      rewrite Hs2 in *.
      assert (Hd3 : Agro.report_due (Agro.rearm_step s1 k) k = Agro.report_due s k).
      { rewrite !agro_report_due. unfold Agro.rearm_step, Agro.populated.
        destruct (negb _); cbn [Agro.lastReportHr Agro.validSamples];
          rewrite Hh, Hv; reflexivity. }
      unfold Agro.report_step in *. rewrite Hd3 in *.
      destruct (Agro.report_due s k) eqn:Hrd.
      * left. split; [exact Hge|]. repeat split; auto. cbn [fst].
        assert (Hr3 : Agro.rearm_step s1 k = s1).
        { unfold Agro.rearm_step.
          rewrite agro_report_due in Hrd. unfold report_guard in Hrd.
          rewrite !andb_true_iff, Z.eqb_eq in Hrd.
          destruct Hrd as [[[Hmin _] _] _]. rewrite Hmin. reflexivity. }
        rewrite Hr3. reflexivity.
      * right. split; [exact Hge|]. repeat split; auto.
Qed.

End AgroOutcomes.

Section AgroPROOutcomes.

Variable D : float.

(** One run of [AgroPRO.cpp]'s loop performs its resync step and then
    nothing (the clock is invalid, or no boundary is due), the
    sample, or the report. *)
Lemma agropro_loop_cases (s : AgroPRO.State) (k : AgroPRO.Tick) :
  let s1 := fst (AgroPRO.resync_step s k) in
  let out := AgroPRO.loop D s k in
  (AgroPRO.now_epoch k < AgroPRO.MIN_EPOCH_TIME_SEC /\ fst out = s1 /\ AgroPRO.tally_free (snd out)) \/
  (AgroPRO.MIN_EPOCH_TIME_SEC <= AgroPRO.now_epoch k /\ AgroPRO.sample_due s k = true /\
   AgroPRO.report_due s k = false /\
   fst out = AgroPRO.sample_body D s1 k /\
   tally AgroPRO.is_sample (snd out) = 1%nat /\ tally AgroPRO.is_report (snd out) = 0%nat) \/
  (AgroPRO.MIN_EPOCH_TIME_SEC <= AgroPRO.now_epoch k /\ AgroPRO.sample_due s k = false /\
   AgroPRO.report_due s k = true /\
   fst out = AgroPRO.close_window s1 k /\
   tally AgroPRO.is_sample (snd out) = 0%nat /\ tally AgroPRO.is_report (snd out) = 1%nat) \/
  (AgroPRO.MIN_EPOCH_TIME_SEC <= AgroPRO.now_epoch k /\ AgroPRO.sample_due s k = false /\
   AgroPRO.report_due s k = false /\
   fst out = AgroPRO.rearm_step s1 k /\ AgroPRO.tally_free (snd out)).
Proof.
  cbv zeta.
  destruct (Z.lt_ge_cases (AgroPRO.now_epoch k) AgroPRO.MIN_EPOCH_TIME_SEC) as [Hlt|Hge].
  - left. rewrite agropro_loop_invalid by exact Hlt.
    split; [exact Hlt|]. split; [reflexivity|]. apply agropro_resync_step_actions.
  - right.
    pose proof (agropro_law_sample D s k Hge) as Hts.
    pose proof (agropro_law_report D s k Hge) as Htr.
    rewrite <- agropro_sample_due in Hts. rewrite <- agropro_report_due in Htr.
    rewrite agropro_loop_valid in * by exact Hge. cbn [fst snd] in *.
    destruct (agropro_resync_step_keeps s k) as (Hw & Hi & Hv & Hm & Hh).
    set (s1 := fst (AgroPRO.resync_step s k)) in *.
    assert (Hd1 : AgroPRO.sample_due s1 k = AgroPRO.sample_due s k)
      by (rewrite !agropro_sample_due, Hm; reflexivity).
    destruct (AgroPRO.sample_due s k) eqn:Hsd.
    + left. split; [exact Hge|].
      assert (Hrd : AgroPRO.report_due s k = false).
      { rewrite agropro_report_due. rewrite agropro_sample_due in Hsd.
        eapply sample_and_report_exclude; eauto. }
      rewrite Hrd in *.
      repeat split; auto.
      unfold AgroPRO.sample_step. rewrite Hd1. cbn [fst].
      assert (Hon : on_sampling_minute (AgroPRO.time_info k) = true).
      { rewrite agropro_sample_due in Hsd. apply sample_guard_true in Hsd. tauto. }
      assert (Hr3 : AgroPRO.rearm_step (AgroPRO.sample_body D s1 k) k
                    = AgroPRO.sample_body D s1 k).
      { unfold AgroPRO.rearm_step.
        change (Z.rem (tm_min (AgroPRO.time_info k)) AgroPRO.SAMPLING_INTERVAL_MIN =? 0)
          with (on_sampling_minute (AgroPRO.time_info k)).
        rewrite Hon. reflexivity. }
      rewrite Hr3. unfold AgroPRO.report_step.
      replace (AgroPRO.report_due (AgroPRO.sample_body D s1 k) k) with false; [reflexivity|].
      symmetry. rewrite agropro_report_due. rewrite agropro_sample_due in Hsd.
      eapply sample_and_report_exclude; eauto.
    + right.
      assert (Hs2 : fst (AgroPRO.sample_step D s1 k) = s1)
        by (unfold AgroPRO.sample_step; rewrite Hd1; reflexivity).
      rewrite Hs2 in *.
      assert (Hd3 : AgroPRO.report_due (AgroPRO.rearm_step s1 k) k = AgroPRO.report_due s k).
      { rewrite !agropro_report_due. unfold AgroPRO.rearm_step, AgroPRO.populated.
        destruct (negb _); cbn [AgroPRO.last_report_hour_sent AgroPRO.samples_taken_this_hour];
          rewrite Hh, Hv; reflexivity. }
      unfold AgroPRO.report_step in *. rewrite Hd3 in *.
      destruct (AgroPRO.report_due s k) eqn:Hrd.
      * left. split; [exact Hge|]. repeat split; auto. cbn [fst].
        assert (Hr3 : AgroPRO.rearm_step s1 k = s1).
        { unfold AgroPRO.rearm_step.
          rewrite agropro_report_due in Hrd. unfold report_guard in Hrd.
          rewrite !andb_true_iff, Z.eqb_eq in Hrd.
          destruct Hrd as [[[Hmin _] _] _]. rewrite Hmin. reflexivity. }
        rewrite Hr3. reflexivity.
      * right. split; [exact Hge|]. repeat split; auto.
Qed.

End AgroPROOutcomes.

(** ** Writes into the window *)

Lemma store_rows (w : Window) (i : nat) (f : nat -> float) (r0 r1 r2 r3 : list float) :
  ds_rows w = [r0; r1; r2; r3] ->
  fold_left (fun w j => store_ds w j i (f j)) (seq 0 4) w
  = {| ds_rows := [<[i := f 0%nat]> r0; <[i := f 1%nat]> r1;
                   <[i := f 2%nat]> r2; <[i := f 3%nat]> r3];
       dht_temp_row := dht_temp_row w; dht_humi_row := dht_humi_row w |}.
Proof.
  destruct w as [rows tr hr]; simpl. intros ->. reflexivity.
Qed.

Lemma store_branch (i : nat) (p : nat -> bool) (g : nat -> float) (l : list nat) :
  forall w,
    fold_left (fun w j => if p j then store_ds w j i NAN else store_ds w j i (g j)) l w
    = fold_left (fun w j => store_ds w j i (if p j then NAN else g j)) l w.
Proof.
  induction l as [|j l IH]; intros w; simpl; [reflexivity|].
  rewrite IH. destruct (p j); reflexivity.
Qed.

Lemma window_rows (w : Window) (capacity : nat) :
  window_shape 4 capacity w ->
  exists r0 r1 r2 r3, ds_rows w = [r0; r1; r2; r3] /\
    length r0 = capacity /\ length r1 = capacity /\
    length r2 = capacity /\ length r3 = capacity.
Proof.
  intros (H & HF & _). destruct (ds_rows w) as [|r0 rows]; [discriminate|].
  do 3 (destruct rows as [|? rows]; [discriminate|]).
  destruct rows; [|discriminate].
  repeat match goal with H : Forall _ (_ :: _) |- _ => inversion H; clear H; subst end.
  eauto 10.
Qed.

Lemma slot_insert (row : list float) (i : nat) (v : float) :
  (i < length row)%nat -> slot (<[i := v]> row) i = v.
Proof.
  intros H. unfold slot.
  apply nth_lookup_Some with (d := NAN).
  apply list_lookup_insert_eq, H.
Qed.

Lemma sampled_window_shape (w : Window) (i : nat) (f : nat -> float) (tt hh : float)
    (probes capacity : nat) :
  window_shape probes capacity w ->
  window_shape probes capacity (sampled_window w i f tt hh).
Proof.
  intros (H1 & H2 & H3 & H4). unfold window_shape, sampled_window; simpl.
  rewrite length_imap, !length_insert. repeat split; auto.
  clear H1. revert f. induction H2 as [|row rows Hr _ IH]; intros f; simpl.
  - constructor.
  - constructor; [rewrite length_insert; exact Hr|]. apply IH.
Qed.

Section AgroWrites.

Variable D : float.

Lemma agro_take_sample_win (s : Agro.State) (k : Agro.Tick) :
  window_shape Agro.NUM_DS (Z.to_nat Agro.SAMPLES_HR) (Agro.win s) ->
  Agro.win (Agro.take_sample D s k)
  = sampled_window (Agro.win s) (Z.to_nat (Agro.bufIdx s))
      (fun j => Agro.probe_value D (getTempC (Agro.boundary_pass k) j))
      (if isnan (readTemperature (Agro.boundary_pass k)) then NAN
       else readTemperature (Agro.boundary_pass k))
      (if isnan (readHumidity (Agro.boundary_pass k)) then NAN
       else readHumidity (Agro.boundary_pass k)).
Proof.
  intros Hs. destruct (window_rows _ _ Hs) as (r0 & r1 & r2 & r3 & Hr & _).
  unfold Agro.take_sample, sampled_window. cbn [Agro.win].
  change (seq 0 Agro.NUM_DS) with (seq 0 4).
  rewrite (store_rows _ _ _ r0 r1 r2 r3 Hr), Hr. reflexivity.
Qed.

Lemma agropro_takeSample_win (s : AgroPRO.State) (i : Z) (r : Sensors) :
  window_shape AgroPRO.NUM_DS18B20_SENSORS (Z.to_nat AgroPRO.SAMPLES_PER_HOUR)
               (AgroPRO.win s) ->
  AgroPRO.win (AgroPRO.takeSample D s i r)
  = sampled_window (AgroPRO.win s) (Z.to_nat i)
      (fun j => if AgroPRO.probe_invalid D (getTempC r j) then NAN else getTempC r j)
      (if negb (isnan (readTemperature r)) then readTemperature r else NAN)
      (if negb (isnan (readHumidity r)) then readHumidity r else NAN).
Proof.
  intros Hs. destruct (window_rows _ _ Hs) as (r0 & r1 & r2 & r3 & Hr & _).
  unfold AgroPRO.takeSample, sampled_window. cbn [AgroPRO.win].
  change (seq 0 AgroPRO.NUM_DS18B20_SENSORS) with (seq 0 4).
  rewrite store_branch, (store_rows _ _ _ r0 r1 r2 r3 Hr), Hr. reflexivity.
Qed.

End AgroWrites.

(** ** The ring buffer (C8) *)

Ltac ring_finish :=
  unfold Agro.SAMPLES_HR, AgroPRO.SAMPLES_PER_HOUR in *;
  repeat (intros; match goal with |- _ /\ _ => split end);
  intros; auto using blank_window_invalid; try lia; try discriminate.

Section RingBuffer.

Variable D : float.

Lemma agro_ring_step (s : Agro.State) (k : Agro.Tick) :
  Agro.ring_ok s ->
  let s' := fst (Agro.loop D s k) in
  let acts := snd (Agro.loop D s k) in
  Agro.ring_ok s' /\
  (tally Agro.is_sample acts = 1%nat ->
   Agro.bufIdx s' = (Agro.bufIdx s + 1) mod Agro.SAMPLES_HR /\
   Agro.validSamples s' = Z.min (Agro.validSamples s + 1) Agro.SAMPLES_HR) /\
  (tally Agro.is_post acts = 0%nat -> Agro.validSamples s <= Agro.validSamples s') /\
  (tally Agro.is_post acts = 1%nat ->
   Agro.validSamples s' = 0 /\ Agro.bufIdx s' = 0 /\ all_invalid (Agro.win s')) /\
  (Agro.validSamples s' < Agro.validSamples s -> tally Agro.is_post acts = 1%nat) /\
  (tally Agro.is_sample acts = 0%nat -> tally Agro.is_post acts = 0%nat ->
   Agro.win s' = Agro.win s /\ Agro.bufIdx s' = Agro.bufIdx s /\
   Agro.validSamples s' = Agro.validSamples s).
Proof.
  intros (Hshape & Hidx & Hcnt). cbv zeta.
  destruct (agro_fast_step_keeps D s k) as (Hw & Hi & Hv & Hm & Hh).
  destruct (agro_loop_cases D s k)
    as [(_ & -> & Hs & Hp)
       |[(_ & _ & _ & -> & Hs & Hp)
        |[(_ & _ & _ & -> & Hs & Hp)|(_ & _ & _ & -> & Hs & Hp)]]];
    rewrite Hs, Hp.
  - unfold Agro.ring_ok. rewrite Hw, Hi, Hv.
    split; [split; [exact Hshape|]|]; ring_finish.
  - unfold Agro.ring_ok. rewrite agro_take_sample_win by (rewrite Hw; exact Hshape).
    cbn [Agro.take_sample Agro.bufIdx Agro.validSamples]. rewrite Hw, Hi, Hv.
    unfold Agro.SAMPLES_HR in *.
    assert (Hb : u8 (Z.rem (Agro.bufIdx s + 1) 6) = (Agro.bufIdx s + 1) mod 6).
    { unfold u8. rewrite Z.rem_mod_nonneg by lia.
      apply Z.mod_small. pose proof (Z.mod_pos_bound (Agro.bufIdx s + 1) 6). lia. }
    assert (Hc : u8 (Agro.validSamples s + 1) = Agro.validSamples s + 1)
      by (unfold u8; apply Z.mod_small; lia).
    rewrite Hb, Hc.
    pose proof (Z.mod_pos_bound (Agro.bufIdx s + 1) 6 ltac:(lia)).
    split; [split; [apply sampled_window_shape, Hshape|]|]; ring_finish.
  - unfold Agro.ring_ok, Agro.close_window.
    cbn [Agro.win Agro.bufIdx Agro.validSamples].
    rewrite agro_clearBuffers_blank by (rewrite Hw; exact Hshape).
    split; [split; [apply blank_window_shape|]|]; ring_finish.
  - assert (Hr : Agro.win (Agro.rearm_step (fst (Agro.fast_step D s k)) k) = Agro.win s
                 /\ Agro.bufIdx (Agro.rearm_step (fst (Agro.fast_step D s k)) k)
                    = Agro.bufIdx s
                 /\ Agro.validSamples (Agro.rearm_step (fst (Agro.fast_step D s k)) k)
                    = Agro.validSamples s).
    { unfold Agro.rearm_step. destruct (negb _); simpl; auto. }
    destruct Hr as (Hw' & Hi' & Hv').
    unfold Agro.ring_ok. rewrite Hw', Hi', Hv'.
    split; [split; [exact Hshape|]|]; ring_finish.
Qed.

Lemma agropro_ring_step (s : AgroPRO.State) (k : AgroPRO.Tick) :
  AgroPRO.ring_ok s ->
  let s' := fst (AgroPRO.loop D s k) in
  let acts := snd (AgroPRO.loop D s k) in
  AgroPRO.ring_ok s' /\
  (tally AgroPRO.is_sample acts = 1%nat ->
   AgroPRO.current_sample_index s'
   = (AgroPRO.current_sample_index s + 1) mod AgroPRO.SAMPLES_PER_HOUR /\
   AgroPRO.samples_taken_this_hour s'
   = Z.min (AgroPRO.samples_taken_this_hour s + 1) AgroPRO.SAMPLES_PER_HOUR) /\
  (tally AgroPRO.is_report acts = 0%nat ->
   AgroPRO.samples_taken_this_hour s <= AgroPRO.samples_taken_this_hour s') /\
  (tally AgroPRO.is_report acts = 1%nat ->
   AgroPRO.samples_taken_this_hour s' = 0 /\ AgroPRO.current_sample_index s' = 0 /\
   all_invalid (AgroPRO.win s')) /\
  (AgroPRO.samples_taken_this_hour s' < AgroPRO.samples_taken_this_hour s ->
   tally AgroPRO.is_report acts = 1%nat) /\
  (tally AgroPRO.is_sample acts = 0%nat -> tally AgroPRO.is_report acts = 0%nat ->
   AgroPRO.win s' = AgroPRO.win s /\
   AgroPRO.current_sample_index s' = AgroPRO.current_sample_index s /\
   AgroPRO.samples_taken_this_hour s' = AgroPRO.samples_taken_this_hour s).
Proof.
  intros (Hshape & Hidx & Hcnt). cbv zeta.
  destruct (agropro_resync_step_keeps s k) as (Hw & Hi & Hv & Hm & Hh).
  destruct (agropro_loop_cases D s k)
    as [(_ & -> & Hs & Hp)
       |[(_ & _ & _ & -> & Hs & Hp)
        |[(_ & _ & _ & -> & Hs & Hp)|(_ & _ & _ & -> & Hs & Hp)]]];
    rewrite Hs, Hp.
  - unfold AgroPRO.ring_ok. rewrite Hw, Hi, Hv.
    split; [split; [exact Hshape|]|]; ring_finish.
  - unfold AgroPRO.ring_ok, AgroPRO.sample_body.
    cbn [AgroPRO.win AgroPRO.current_sample_index AgroPRO.samples_taken_this_hour].
    rewrite agropro_takeSample_win by (rewrite Hw; exact Hshape).
    cbn [AgroPRO.takeSample AgroPRO.current_sample_index
         AgroPRO.samples_taken_this_hour].
    rewrite Hw, Hi, Hv. unfold AgroPRO.SAMPLES_PER_HOUR in *.
    rewrite Z.rem_mod_nonneg by lia.
    pose proof (Z.mod_pos_bound (AgroPRO.current_sample_index s + 1) 6 ltac:(lia)).
    split; [split; [apply sampled_window_shape, Hshape|]|]; ring_finish.
  - unfold AgroPRO.ring_ok, AgroPRO.close_window.
    cbn [AgroPRO.win AgroPRO.current_sample_index AgroPRO.samples_taken_this_hour].
    rewrite agropro_clearSampleArrays_blank by (rewrite Hw; exact Hshape).
    split; [split; [apply blank_window_shape|]|]; ring_finish.
  - assert (Hr : AgroPRO.win (AgroPRO.rearm_step (fst (AgroPRO.resync_step s k)) k)
                 = AgroPRO.win s
                 /\ AgroPRO.current_sample_index
                      (AgroPRO.rearm_step (fst (AgroPRO.resync_step s k)) k)
                    = AgroPRO.current_sample_index s
                 /\ AgroPRO.samples_taken_this_hour
                      (AgroPRO.rearm_step (fst (AgroPRO.resync_step s k)) k)
                    = AgroPRO.samples_taken_this_hour s).
    { unfold AgroPRO.rearm_step. destruct (negb _); simpl; auto. }
    destruct Hr as (Hw' & Hi' & Hv').
    unfold AgroPRO.ring_ok. rewrite Hw', Hi', Hv'.
    split; [split; [exact Hshape|]|]; ring_finish.
Qed.

End RingBuffer.

Lemma agro_boot_ring_ok (c : Cloud) : Agro.ring_ok (Agro.boot c).
Proof. split; [apply blank_window_shape|]. simpl. unfold Agro.SAMPLES_HR. lia. Qed.

Lemma agropro_boot_ring_ok (c : Cloud) : AgroPRO.ring_ok (AgroPRO.boot c).
Proof.
  split; [apply blank_window_shape|]. simpl. unfold AgroPRO.SAMPLES_PER_HOUR. lia.
Qed.

(** C8.  In either sketch every run of [loop()] preserves the
    ring-buffer invariant (the arrays keep their shape, the write
    index stays in [[0, capacity)], the count in [[0, capacity]]); a
    sample advances the index modulo the capacity and increments the
    count clamped at the capacity; the count does not decrease in a
    run without a report; a report resets count and index to 0
    together with the buffers; the count decreases only then; and the
    invariant holds along every run from [setup()]. *)
Theorem ring_buffer_invariant (D : float) :
  (forall (s : Agro.State) (k : Agro.Tick),
      Agro.ring_ok s ->
      let s' := fst (Agro.loop D s k) in
      let acts := snd (Agro.loop D s k) in
      Agro.ring_ok s' /\
      (tally Agro.is_sample acts = 1%nat ->
       Agro.bufIdx s' = (Agro.bufIdx s + 1) mod Agro.SAMPLES_HR /\
       Agro.validSamples s' = Z.min (Agro.validSamples s + 1) Agro.SAMPLES_HR) /\
      (tally Agro.is_post acts = 0%nat -> Agro.validSamples s <= Agro.validSamples s') /\
      (tally Agro.is_post acts = 1%nat ->
       Agro.validSamples s' = 0 /\ Agro.bufIdx s' = 0 /\ all_invalid (Agro.win s')) /\
      (Agro.validSamples s' < Agro.validSamples s -> tally Agro.is_post acts = 1%nat) /\
      (tally Agro.is_sample acts = 0%nat -> tally Agro.is_post acts = 0%nat ->
       Agro.win s' = Agro.win s /\ Agro.bufIdx s' = Agro.bufIdx s /\
       Agro.validSamples s' = Agro.validSamples s)) /\
  (forall (s : AgroPRO.State) (k : AgroPRO.Tick),
      AgroPRO.ring_ok s ->
      let s' := fst (AgroPRO.loop D s k) in
      let acts := snd (AgroPRO.loop D s k) in
      AgroPRO.ring_ok s' /\
      (tally AgroPRO.is_sample acts = 1%nat ->
       AgroPRO.current_sample_index s'
       = (AgroPRO.current_sample_index s + 1) mod AgroPRO.SAMPLES_PER_HOUR /\
       AgroPRO.samples_taken_this_hour s'
       = Z.min (AgroPRO.samples_taken_this_hour s + 1) AgroPRO.SAMPLES_PER_HOUR) /\
      (tally AgroPRO.is_report acts = 0%nat ->
       AgroPRO.samples_taken_this_hour s <= AgroPRO.samples_taken_this_hour s') /\
      (tally AgroPRO.is_report acts = 1%nat ->
       AgroPRO.samples_taken_this_hour s' = 0 /\ AgroPRO.current_sample_index s' = 0 /\
       all_invalid (AgroPRO.win s')) /\
      (AgroPRO.samples_taken_this_hour s' < AgroPRO.samples_taken_this_hour s ->
       tally AgroPRO.is_report acts = 1%nat) /\
      (tally AgroPRO.is_sample acts = 0%nat -> tally AgroPRO.is_report acts = 0%nat ->
       AgroPRO.win s' = AgroPRO.win s /\
       AgroPRO.current_sample_index s' = AgroPRO.current_sample_index s /\
       AgroPRO.samples_taken_this_hour s' = AgroPRO.samples_taken_this_hour s)) /\
  (forall (c : Cloud) (ks : list Agro.Tick),
      Agro.ring_ok (final (Agro.loop D) (Agro.boot c) ks)) /\
  (forall (c : Cloud) (ks : list AgroPRO.Tick),
      AgroPRO.ring_ok (final (AgroPRO.loop D) (AgroPRO.boot c) ks)).
Proof.
  split; [exact (agro_ring_step D)|]. split; [exact (agropro_ring_step D)|]. split.
  - intros c ks.
    pose proof (agro_boot_ring_ok c) as H0. revert H0. generalize (Agro.boot c). unfold final.
    induction ks as [|k ks IH]; intros s Hs; simpl; [exact Hs|].
    apply IH. apply (agro_ring_step D s k Hs).
  - intros c ks.
    pose proof (agropro_boot_ring_ok c) as H0. revert H0. generalize (AgroPRO.boot c). unfold final.
    induction ks as [|k ks IH]; intros s Hs; simpl; [exact Hs|].
    apply IH. apply (agropro_ring_step D s k Hs).
Qed.

(** The first sample after [setup()], at 08:00:00. *)
Lemma ring_buffer_invariant_witness :
  let D := of_int (-127) in
  let v := of_int 21 in
  Agro.ring_ok (fst (Agro.loop D (Agro.boot (cloud_of v)) (AgroClock.poll 946684800 0 v))) /\
  AgroPRO.ring_ok
    (fst (AgroPRO.loop D (AgroPRO.boot (cloud_of v)) (AgroPROClock.poll 946684800 0 v))).
Proof.
  intros D v. destruct (ring_buffer_invariant D) as (HA & HP & _ & _).
  split.
  - apply (HA (Agro.boot (cloud_of v)) (AgroClock.poll 946684800 0 v)).
    apply agro_boot_ring_ok.
  - apply (HP (AgroPRO.boot (cloud_of v)) (AgroPROClock.poll 946684800 0 v)).
    apply agropro_boot_ring_ok.
Defined.

(** ** Closing the window (C9) *)

(** C9.  In either sketch, for every state whose arrays have their
    declared shape, the reset performed at window close yields a count
    of 0, a write index of 0 and NaN in every slot of every row; every
    snapshot is then empty and every average is NaN. *)
Theorem reset_clears_window :
  (forall (s : Agro.State) (k : Agro.Tick),
      window_shape Agro.NUM_DS (Z.to_nat Agro.SAMPLES_HR) (Agro.win s) ->
      let r := Agro.close_window s k in
      Agro.validSamples r = 0 /\ Agro.bufIdx r = 0 /\
      all_invalid (Agro.win r) /\
      window_shape Agro.NUM_DS (Z.to_nat Agro.SAMPLES_HR) (Agro.win r) /\
      forall row, snapshot row (Agro.validSamples r) = [] /\
                  Agro.avg row (Agro.validSamples r) = NAN) /\
  (forall (s : AgroPRO.State) (k : AgroPRO.Tick),
      window_shape AgroPRO.NUM_DS18B20_SENSORS (Z.to_nat AgroPRO.SAMPLES_PER_HOUR)
                   (AgroPRO.win s) ->
      let r := AgroPRO.close_window s k in
      AgroPRO.samples_taken_this_hour r = 0 /\ AgroPRO.current_sample_index r = 0 /\
      all_invalid (AgroPRO.win r) /\
      window_shape AgroPRO.NUM_DS18B20_SENSORS (Z.to_nat AgroPRO.SAMPLES_PER_HOUR)
                   (AgroPRO.win r) /\
      forall row, snapshot row (AgroPRO.samples_taken_this_hour r) = [] /\
                  AgroPRO.calculateAverage row (AgroPRO.samples_taken_this_hour r) = NAN).
Proof.
  split.
  - intros s k Hs r. subst r. unfold Agro.close_window.
    cbn [Agro.win Agro.validSamples Agro.bufIdx].
    rewrite agro_clearBuffers_blank by exact Hs.
    split; [reflexivity|]. split; [reflexivity|].
    split; [apply blank_window_invalid|]. split; [apply blank_window_shape|].
    intros row. split; reflexivity.
  - intros s k Hs r. subst r. unfold AgroPRO.close_window.
    cbn [AgroPRO.win AgroPRO.samples_taken_this_hour AgroPRO.current_sample_index].
    rewrite agropro_clearSampleArrays_blank by exact Hs.
    split; [reflexivity|]. split; [reflexivity|].
    split; [apply blank_window_invalid|]. split; [apply blank_window_shape|].
    intros row. split; reflexivity.
Qed.

(** The reset of the window that [setup()] left. *)
Lemma reset_clears_window_witness :
  let v := of_int 21 in
  Agro.validSamples (Agro.close_window (Agro.boot (cloud_of v))
                                       (AgroClock.poll 946684805 0 v)) = 0 /\
  AgroPRO.samples_taken_this_hour
    (AgroPRO.close_window (AgroPRO.boot (cloud_of v))
                          (AgroPROClock.poll 946684805 0 v)) = 0.
Proof.
  intros v. destruct reset_clears_window as (HA & HP).
  split.
  - apply (HA (Agro.boot (cloud_of v)) (AgroClock.poll 946684805 0 v)).
    apply blank_window_shape.
  - apply (HP (AgroPRO.boot (cloud_of v)) (AgroPROClock.poll 946684805 0 v)).
    apply blank_window_shape.
Defined.

(** ** The clock check (C4) *)

(** C4.  In either sketch, a run of [loop()] whose epoch is below the
    minimum performs neither sample nor report and leaves the window,
    the write index, the count and both debounce variables as they
    were. *)
Theorem invalid_clock_skips (D : float) :
  (forall (s : Agro.State) (k : Agro.Tick),
      Agro.now k < Agro.MIN_EPOCH ->
      let s' := fst (Agro.loop D s k) in
      Agro.tally_free (snd (Agro.loop D s k)) /\
      Agro.win s' = Agro.win s /\ Agro.bufIdx s' = Agro.bufIdx s /\
      Agro.validSamples s' = Agro.validSamples s /\
      Agro.lastSampleMin s' = Agro.lastSampleMin s /\
      Agro.lastReportHr s' = Agro.lastReportHr s) /\
  (forall (s : AgroPRO.State) (k : AgroPRO.Tick),
      AgroPRO.now_epoch k < AgroPRO.MIN_EPOCH_TIME_SEC ->
      let s' := fst (AgroPRO.loop D s k) in
      AgroPRO.tally_free (snd (AgroPRO.loop D s k)) /\
      AgroPRO.win s' = AgroPRO.win s /\
      AgroPRO.current_sample_index s' = AgroPRO.current_sample_index s /\
      AgroPRO.samples_taken_this_hour s' = AgroPRO.samples_taken_this_hour s /\
      AgroPRO.last_sample_minute_taken s' = AgroPRO.last_sample_minute_taken s /\
      AgroPRO.last_report_hour_sent s' = AgroPRO.last_report_hour_sent s).
Proof.
  split.
  - intros s k H s'. subst s'. rewrite agro_loop_invalid by exact H.
    split; [apply agro_fast_step_actions|apply agro_fast_step_keeps].
  - intros s k H s'. subst s'. rewrite agropro_loop_invalid by exact H.
    split; [apply agropro_resync_step_actions|apply agropro_resync_step_keeps].
Qed.

(** A poll on a sample boundary of 1970, before the clock is set. *)
Lemma invalid_clock_skips_witness :
  let D := of_int (-127) in
  let v := of_int 21 in
  Agro.tally_free (snd (Agro.loop D (Agro.boot (cloud_of v)) (AgroClock.poll 3600 6000 v))) /\
  AgroPRO.tally_free
    (snd (AgroPRO.loop D (AgroPRO.boot (cloud_of v)) (AgroPROClock.poll 3600 6000 v))).
Proof.
  intros D v. destruct (invalid_clock_skips D) as (HA & HP).
  split.
  - apply (HA (Agro.boot (cloud_of v)) (AgroClock.poll 3600 6000 v)). reflexivity.
  - apply (HP (AgroPRO.boot (cloud_of v)) (AgroPROClock.poll 3600 6000 v)). reflexivity.
Defined.

(** ** The report and its delivery (C7) *)

Lemma agro_no_report_when_empty (D : float) (s : Agro.State) (k : Agro.Tick) :
  Agro.validSamples s = 0 -> tally Agro.is_post (snd (Agro.loop D s k)) = 0%nat.
Proof.
  intros Hz.
  destruct (agro_loop_cases D s k)
    as [(_ & _ & _ & Hp)
       |[(_ & _ & _ & _ & _ & Hp)
        |[(_ & _ & Hr & _)|(_ & _ & _ & _ & _ & Hp)]]]; auto.
  unfold Agro.report_due in Hr. rewrite Hz in Hr. simpl in Hr.
  rewrite andb_false_r in Hr. discriminate.
Qed.

Lemma agropro_no_report_when_empty (D : float) (s : AgroPRO.State) (k : AgroPRO.Tick) :
  AgroPRO.samples_taken_this_hour s = 0 ->
  tally AgroPRO.is_report (snd (AgroPRO.loop D s k)) = 0%nat.
Proof.
  intros Hz.
  destruct (agropro_loop_cases D s k)
    as [(_ & _ & _ & Hp)
       |[(_ & _ & _ & _ & _ & Hp)
        |[(_ & _ & Hr & _)|(_ & _ & _ & _ & _ & Hp)]]]; auto.
  unfold AgroPRO.report_due in Hr. rewrite Hz in Hr. simpl in Hr.
  rewrite andb_false_r in Hr. discriminate.
Qed.





(** ** The fast read before the clock check (C10) *)

(** C10.  In [Agro.cpp], a run of [loop()] at which five seconds have
    passed since the last fast read performs the fast read although
    the epoch is below the minimum: the time stamp is renewed, the
    four probe variables take the sanitised readings, [dhtTemp] and
    [dhtHumi] take the readings that are not NaN; the run performs
    neither sample nor report, and the window, the write index, the
    count and both debounce variables stay as they were. *)
Theorem fast_read_precedes_clock_check (D : float) (s : Agro.State) (k : Agro.Tick) :
  Agro.FAST_READ_MS <= u32 (Agro.millis_check k - Agro.lastFastRead s) ->
  Agro.now k < Agro.MIN_EPOCH ->
  let s' := fst (Agro.loop D s k) in
  let r := Agro.fast_pass k in
  snd (Agro.loop D s k) = [Agro.FastRead] /\
  Agro.lastFastRead s' = Agro.millis_stamp k /\
  Agro.temp1 s' = Agro.probe_value D (getTempC r 0) /\
  Agro.temp2 s' = Agro.probe_value D (getTempC r 1) /\
  Agro.temp3 s' = Agro.probe_value D (getTempC r 2) /\
  Agro.temp4 s' = Agro.probe_value D (getTempC r 3) /\
  Agro.dhtTemp s'
  = (if isnan (readTemperature r) then Agro.dhtTemp s else readTemperature r) /\
  Agro.dhtHumi s'
  = (if isnan (readHumidity r) then Agro.dhtHumi s else readHumidity r) /\
  Agro.win s' = Agro.win s /\ Agro.bufIdx s' = Agro.bufIdx s /\
  Agro.validSamples s' = Agro.validSamples s /\
  Agro.lastSampleMin s' = Agro.lastSampleMin s /\
  Agro.lastReportHr s' = Agro.lastReportHr s.
Proof.
  intros Hf Hn. cbv zeta. rewrite agro_loop_invalid by exact Hn.
  unfold Agro.fast_step. apply Z.leb_le in Hf. rewrite Hf.
  repeat split; reflexivity.
Qed.

(** Six seconds after boot, the clock still in 1970, every sensor at
    21 degrees. *)
Lemma fast_read_precedes_clock_check_witness :
  let D := of_int (-127) in
  Agro.temp1 (fst (Agro.loop D (Agro.boot (cloud_of NAN))
                             (AgroClock.poll 6 6000 (of_int 21)))) = of_int 21.
Proof.
  intros D.
  destruct (fast_read_precedes_clock_check D (Agro.boot (cloud_of NAN))
              (AgroClock.poll 6 6000 (of_int 21))
              ltac:(vm_compute; congruence) ltac:(reflexivity))
    as (_ & _ & H & _).
  rewrite H. vm_compute. reflexivity.
Defined.

(** ** Probe readings at the sample (C6) *)

Lemma nan_not_sentinel (d : float) : is_sentinel d NAN = false.
Proof. reflexivity. Qed.

Lemma sanitised_not_sentinel (d r : float) :
  is_sentinel d (if is_sentinel d r then NAN else r) = false.
Proof. destruct (is_sentinel d r) eqn:E; [reflexivity|exact E]. Qed.

Lemma sampled_slot (w : Window) (i j : nat) (f : nat -> float) (tt hh : float)
    (capacity : nat) :
  window_shape 4 capacity w -> (i < capacity)%nat -> (j < 4)%nat ->
  slot (ds_row (sampled_window w i f tt hh) j) i = f j.
Proof.
  intros Hs Hi Hj.
  destruct (window_rows _ _ Hs) as (r0 & r1 & r2 & r3 & Hr & L0 & L1 & L2 & L3).
  unfold ds_row, sampled_window; simpl. rewrite Hr.
  do 4 (destruct j as [|j]; [simpl; apply slot_insert; lia|]). lia.
Qed.

Lemma sampled_clean (d : float) (w : Window) (i : nat) (f : nat -> float) (tt hh : float) :
  probes_clean d w -> (forall j, is_sentinel d (f j) = false) ->
  probes_clean d (sampled_window w i f tt hh).
Proof.
  unfold probes_clean, sampled_window; simpl. intros Hc Hf.
  revert f Hf. induction Hc as [|row rows Hrow _ IH]; intros f Hf; simpl.
  - constructor.
  - constructor; [apply Forall_insert; auto|]. apply IH. intros j. apply Hf.
Qed.

Lemma blank_clean (d : float) (probes capacity : nat) :
  probes_clean d (blank_window probes capacity).
Proof.
  unfold probes_clean, blank_window; simpl.
  repeat apply Forall_replicate. reflexivity.
Qed.

Section ProbeReadings.

Variable D : float.

Lemma agro_probe_value (r : float) :
  Agro.probe_value D r = if is_sentinel D r then NAN else r.
Proof. reflexivity. Qed.

Lemma agro_clean_step (s : Agro.State) (k : Agro.Tick) :
  Agro.ring_ok s -> probes_clean D (Agro.win s) ->
  probes_clean D (Agro.win (fst (Agro.loop D s k))).
Proof.
  intros (Hshape & _ & _) Hc.
  destruct (agro_fast_step_keeps D s k) as (Hw & _).
  destruct (agro_loop_cases D s k)
    as [(_ & -> & _)|[(_ & _ & _ & -> & _)|[(_ & _ & _ & -> & _)|(_ & _ & _ & -> & _)]]].
  - rewrite Hw. exact Hc.
  - rewrite agro_take_sample_win by (rewrite Hw; exact Hshape).
    rewrite Hw. apply sampled_clean; [exact Hc|].
    intros j. rewrite agro_probe_value. apply sanitised_not_sentinel.
  - unfold Agro.close_window. cbn [Agro.win].
    rewrite agro_clearBuffers_blank by (rewrite Hw; exact Hshape).
    apply blank_clean.
  - unfold Agro.rearm_step. destruct (negb _); cbn [Agro.win]; rewrite Hw; exact Hc.
Qed.

Lemma agropro_clean_step (s : AgroPRO.State) (k : AgroPRO.Tick) :
  AgroPRO.ring_ok s -> probes_clean D (AgroPRO.win s) ->
  probes_clean D (AgroPRO.win (fst (AgroPRO.loop D s k))).
Proof.
  intros (Hshape & _ & _) Hc.
  destruct (agropro_resync_step_keeps s k) as (Hw & _).
  destruct (agropro_loop_cases D s k)
    as [(_ & -> & _)|[(_ & _ & _ & -> & _)|[(_ & _ & _ & -> & _)|(_ & _ & _ & -> & _)]]].
  - rewrite Hw. exact Hc.
  - unfold AgroPRO.sample_body. cbn [AgroPRO.win].
    rewrite agropro_takeSample_win by (rewrite Hw; exact Hshape).
    rewrite Hw. apply sampled_clean; [exact Hc|].
    intros j. apply sanitised_not_sentinel.
  - unfold AgroPRO.close_window. cbn [AgroPRO.win].
    rewrite agropro_clearSampleArrays_blank by (rewrite Hw; exact Hshape).
    apply blank_clean.
  - unfold AgroPRO.rearm_step. destruct (negb _); cbn [AgroPRO.win]; rewrite Hw; exact Hc.
Qed.

Lemma agro_probe_slot (s : Agro.State) (k : Agro.Tick) (j : nat) :
  Agro.ring_ok s -> Agro.MIN_EPOCH <= Agro.now k ->
  Agro.sample_due s k = true -> (j < Agro.NUM_DS)%nat ->
  slot (ds_row (Agro.win (fst (Agro.loop D s k))) j) (Z.to_nat (Agro.bufIdx s))
  = if is_sentinel D (getTempC (Agro.boundary_pass k) j) then NAN
    else getTempC (Agro.boundary_pass k) j.
Proof.
  intros (Hshape & Hidx & Hcnt) Hmin Hdue Hj.
  destruct (agro_fast_step_keeps D s k) as (Hw & Hi & _).
  destruct (agro_loop_cases D s k)
    as [(Hlt & _)|[(_ & _ & _ & He & _)|[(_ & Hd & _)|(_ & Hd & _)]]];
    try lia; try congruence.
  rewrite He, agro_take_sample_win by (rewrite Hw; exact Hshape).
  rewrite Hw, Hi.
  rewrite (sampled_slot _ _ _ _ _ _ (Z.to_nat Agro.SAMPLES_HR)); auto.
  unfold Agro.SAMPLES_HR in *. lia.
Qed.

Lemma agropro_probe_slot (s : AgroPRO.State) (k : AgroPRO.Tick) (j : nat) :
  AgroPRO.ring_ok s -> AgroPRO.MIN_EPOCH_TIME_SEC <= AgroPRO.now_epoch k ->
  AgroPRO.sample_due s k = true -> (j < AgroPRO.NUM_DS18B20_SENSORS)%nat ->
  slot (ds_row (AgroPRO.win (fst (AgroPRO.loop D s k))) j)
       (Z.to_nat (AgroPRO.current_sample_index s))
  = if is_sentinel D (getTempC (AgroPRO.sensors k) j) then NAN
    else getTempC (AgroPRO.sensors k) j.
Proof.
  intros (Hshape & Hidx & Hcnt) Hmin Hdue Hj.
  destruct (agropro_resync_step_keeps s k) as (Hw & Hi & _).
  destruct (agropro_loop_cases D s k)
    as [(Hlt & _)|[(_ & _ & _ & He & _)|[(_ & Hd & _)|(_ & Hd & _)]]];
    try lia; try congruence.
  rewrite He. unfold AgroPRO.sample_body. cbn [AgroPRO.win].
  rewrite agropro_takeSample_win by (rewrite Hw; exact Hshape).
  rewrite Hw, Hi.
  rewrite (sampled_slot _ _ _ _ _ _ (Z.to_nat AgroPRO.SAMPLES_PER_HOUR)); auto.
  unfold AgroPRO.SAMPLES_PER_HOUR in *. lia.
Qed.

End ProbeReadings.

(** C6.  In either sketch, at a sample that is due, the slot at the
    write index of each probe row receives NaN when the reading
    compares equal to the disconnected-device value, to 85 or to -127,
    and the reading itself otherwise; the stored value is never one of
    the three sentinels; and from [setup()] on no slot of a probe row
    ever holds one. *)
Theorem probe_sentinels_become_nan (D : float) :
  (forall (s : Agro.State) (k : Agro.Tick) (j : nat),
      Agro.ring_ok s -> Agro.MIN_EPOCH <= Agro.now k ->
      Agro.sample_due s k = true -> (j < Agro.NUM_DS)%nat ->
      let r := getTempC (Agro.boundary_pass k) j in
      let v := slot (ds_row (Agro.win (fst (Agro.loop D s k))) j)
                    (Z.to_nat (Agro.bufIdx s)) in
      v = (if feqb r D || feqb r (of_int 85) || feqb r (of_int (-127)) then NAN else r) /\
      feqb v D = false /\ feqb v (of_int 85) = false /\ feqb v (of_int (-127)) = false) /\
  (forall (s : AgroPRO.State) (k : AgroPRO.Tick) (j : nat),
      AgroPRO.ring_ok s -> AgroPRO.MIN_EPOCH_TIME_SEC <= AgroPRO.now_epoch k ->
      AgroPRO.sample_due s k = true -> (j < AgroPRO.NUM_DS18B20_SENSORS)%nat ->
      let r := getTempC (AgroPRO.sensors k) j in
      let v := slot (ds_row (AgroPRO.win (fst (AgroPRO.loop D s k))) j)
                    (Z.to_nat (AgroPRO.current_sample_index s)) in
      v = (if feqb r D || feqb r (of_int 85) || feqb r (of_int (-127)) then NAN else r) /\
      feqb v D = false /\ feqb v (of_int 85) = false /\ feqb v (of_int (-127)) = false) /\
  (forall (c : Cloud) (ks : list Agro.Tick),
      probes_clean D (Agro.win (final (Agro.loop D) (Agro.boot c) ks))) /\
  (forall (c : Cloud) (ks : list AgroPRO.Tick),
      probes_clean D (AgroPRO.win (final (AgroPRO.loop D) (AgroPRO.boot c) ks))).
Proof.
  split; [|split; [|split]].
  - intros s k j Hr Hmin Hdue Hj r v.
    pose proof (agro_probe_slot D s k j Hr Hmin Hdue Hj) as Hv. fold r v in Hv.
    split; [exact Hv|].
    pose proof (sanitised_not_sentinel D r) as Hn. rewrite <- Hv in Hn.
    unfold is_sentinel in Hn. rewrite !orb_false_iff in Hn. tauto.
  - intros s k j Hr Hmin Hdue Hj r v.
    pose proof (agropro_probe_slot D s k j Hr Hmin Hdue Hj) as Hv. fold r v in Hv.
    split; [exact Hv|].
    pose proof (sanitised_not_sentinel D r) as Hn. rewrite <- Hv in Hn.
    unfold is_sentinel in Hn. rewrite !orb_false_iff in Hn. tauto.
  - intros c ks.
    assert (H : Agro.ring_ok (Agro.boot c) /\ probes_clean D (Agro.win (Agro.boot c)))
      by (split; [apply agro_boot_ring_ok|apply blank_clean]).
    revert H. generalize (Agro.boot c). unfold final.
    induction ks as [|k ks IH]; intros s [Hr Hc]; simpl; [exact Hc|].
    apply IH. split; [apply (agro_ring_step D s k Hr)|apply agro_clean_step; auto].
  - intros c ks.
    assert (H : AgroPRO.ring_ok (AgroPRO.boot c)
                /\ probes_clean D (AgroPRO.win (AgroPRO.boot c)))
      by (split; [apply agropro_boot_ring_ok|apply blank_clean]).
    revert H. generalize (AgroPRO.boot c). unfold final.
    induction ks as [|k ks IH]; intros s [Hr Hc]; simpl; [exact Hc|].
    apply IH. split; [apply (agropro_ring_step D s k Hr)|apply agropro_clean_step; auto].
Qed.

(** A disconnected probe at the first sample after [setup()]. *)
Lemma probe_sentinels_become_nan_witness :
  let D := of_int (-127) in
  let v := of_int 85 in
  slot (ds_row (Agro.win (fst (Agro.loop D (Agro.boot (cloud_of v))
                                         (AgroClock.poll 946684800 0 v)))) 0) 0 = NAN /\
  slot (ds_row (AgroPRO.win (fst (AgroPRO.loop D (AgroPRO.boot (cloud_of v))
                                               (AgroPROClock.poll 946684800 0 v)))) 0) 0
  = NAN.
Proof.
  intros D v. destruct (probe_sentinels_become_nan D) as (HA & HP & _ & _).
  split.
  - destruct (HA (Agro.boot (cloud_of v)) (AgroClock.poll 946684800 0 v) 0%nat
                 (agro_boot_ring_ok _) ltac:(vm_compute; congruence)
                 ltac:(reflexivity) ltac:(unfold Agro.NUM_DS; lia)) as (H & _).
    exact H.
  - destruct (HP (AgroPRO.boot (cloud_of v)) (AgroPROClock.poll 946684800 0 v) 0%nat
                 (agropro_boot_ring_ok _) ltac:(vm_compute; congruence)
                 ltac:(reflexivity) ltac:(unfold AgroPRO.NUM_DS18B20_SENSORS; lia))
      as (H & _).
    exact H.
Defined.

(** ** Live mirroring of invalid reads (C5) *)

Section LiveMirror.

Variable D : float.

Lemma agro_cloud_after_loop (s : Agro.State) (k : Agro.Tick) :
  Agro.cloud (fst (Agro.loop D s k)) = Agro.cloud (fst (Agro.fast_step D s k)).
Proof.
  destruct (agro_loop_cases D s k)
    as [(_ & -> & _)|[(_ & _ & _ & -> & _)|[(_ & _ & _ & -> & _)|(_ & _ & _ & -> & _)]]];
    try reflexivity.
  unfold Agro.rearm_step. destruct (negb _); reflexivity.
Qed.

Lemma agro_dht_rows_after_sample (s : Agro.State) (k : Agro.Tick) :
  Agro.ring_ok s -> Agro.MIN_EPOCH <= Agro.now k -> Agro.sample_due s k = true ->
  let s' := fst (Agro.loop D s k) in
  let i := Z.to_nat (Agro.bufIdx s) in
  let r := Agro.boundary_pass k in
  slot (Agro.dhtTBuf s') i
  = (if isnan (readTemperature r) then NAN else readTemperature r) /\
  slot (Agro.dhtHBuf s') i
  = (if isnan (readHumidity r) then NAN else readHumidity r).
Proof.
  intros (Hshape & Hidx & _) Hmin Hdue. cbv zeta.
  destruct (agro_fast_step_keeps D s k) as (Hw & Hi & _).
  destruct (agro_loop_cases D s k)
    as [(Hlt & _)|[(_ & _ & _ & He & _)|[(_ & Hd & _)|(_ & Hd & _)]]];
    try lia; try congruence.
  unfold Agro.dhtTBuf, Agro.dhtHBuf.
  rewrite He, agro_take_sample_win by (rewrite Hw; exact Hshape).
  rewrite Hw, Hi. unfold sampled_window; simpl.
  destruct Hshape as (_ & _ & Ltemp & Lhumi). unfold Agro.SAMPLES_HR in *.
  split; apply slot_insert; lia.
Qed.

End LiveMirror.

(** C5, as amended.  In [Agro.cpp] a run of [loop()] whose fast pass
    reads NaN from the DHT leaves [dhtTemp] (respectively [dhtHumi])
    at its previous value, while a sample with an invalid read (NaN
    from the DHT, a sentinel from a probe) records NaN in the window.
    In [AgroPRO.cpp], which mirrors at the sample only, every cloud
    variable takes the value just stored in the window, which is NaN
    for an invalid read. *)
Theorem live_mirror_on_invalid_read (D : float) :
  (forall (s : Agro.State) (k : Agro.Tick),
      (isnan (readTemperature (Agro.fast_pass k)) = true ->
       Agro.dhtTemp (fst (Agro.loop D s k)) = Agro.dhtTemp s) /\
      (isnan (readHumidity (Agro.fast_pass k)) = true ->
       Agro.dhtHumi (fst (Agro.loop D s k)) = Agro.dhtHumi s)) /\
  (forall (s : Agro.State) (k : Agro.Tick),
      Agro.ring_ok s -> Agro.MIN_EPOCH <= Agro.now k -> Agro.sample_due s k = true ->
      let s' := fst (Agro.loop D s k) in
      let i := Z.to_nat (Agro.bufIdx s) in
      let r := Agro.boundary_pass k in
      (isnan (readTemperature r) = true -> slot (Agro.dhtTBuf s') i = NAN) /\
      (isnan (readHumidity r) = true -> slot (Agro.dhtHBuf s') i = NAN) /\
      (forall j, (j < Agro.NUM_DS)%nat -> is_sentinel D (getTempC r j) = true ->
                 slot (ds_row (Agro.win s') j) i = NAN)) /\
  (forall (s : AgroPRO.State) (k : AgroPRO.Tick),
      AgroPRO.ring_ok s -> AgroPRO.MIN_EPOCH_TIME_SEC <= AgroPRO.now_epoch k ->
      AgroPRO.sample_due s k = true ->
      let s' := fst (AgroPRO.loop D s k) in
      let i := Z.to_nat (AgroPRO.current_sample_index s) in
      let r := AgroPRO.sensors k in
      AgroPRO.sensor1 s' = slot (ds_row (AgroPRO.win s') 0) i /\
      AgroPRO.sensor2 s' = slot (ds_row (AgroPRO.win s') 1) i /\
      AgroPRO.sensor3 s' = slot (ds_row (AgroPRO.win s') 2) i /\
      AgroPRO.sensor4 s' = slot (ds_row (AgroPRO.win s') 3) i /\
      AgroPRO.dhtTemp s' = slot (AgroPRO.dht_temp_samples s') i /\
      AgroPRO.dhtHumi s' = slot (AgroPRO.dht_humidity_samples s') i /\
      (isnan (readTemperature r) = true -> AgroPRO.dhtTemp s' = NAN) /\
      (isnan (readHumidity r) = true -> AgroPRO.dhtHumi s' = NAN) /\
      (forall j, (j < AgroPRO.NUM_DS18B20_SENSORS)%nat ->
                 is_sentinel D (getTempC r j) = true ->
                 slot (ds_row (AgroPRO.win s') j) i = NAN)).
Proof.
  split; [|split].
  - intros s k. unfold Agro.dhtTemp, Agro.dhtHumi.
    rewrite agro_cloud_after_loop. unfold Agro.fast_step.
    destruct (Agro.FAST_READ_MS <=? _); cbn [fst]; [|auto].
    unfold Agro.readSensorsFast, Agro.dhtTemp, Agro.dhtHumi; simpl.
    split; intros ->; reflexivity.
  - intros s k Hr Hmin Hdue s' i r.
    destruct (agro_dht_rows_after_sample D s k Hr Hmin Hdue) as [Ht Hh].
    subst s' i r. rewrite Ht, Hh.
    split; [intros ->; reflexivity|]. split; [intros ->; reflexivity|].
    intros j Hj Hsen. rewrite agro_probe_slot, Hsen by assumption. reflexivity.
  - intros s k Hr Hmin Hdue s' i r.
    pose proof (fun j Hj => agropro_probe_slot D s k j Hr Hmin Hdue Hj) as Hprobe.
    destruct Hr as (Hshape & Hidx & _).
    destruct (agropro_resync_step_keeps s k) as (Hw & Hi & _).
    destruct (agropro_loop_cases D s k)
      as [(Hlt & _)|[(_ & _ & _ & He & _)|[(_ & Hd & _)|(_ & Hd & _)]]];
      try lia; try congruence.
    assert (Hwin : AgroPRO.win s'
                   = sampled_window (AgroPRO.win s) i
                       (fun j => if AgroPRO.probe_invalid D (getTempC r j) then NAN
                                 else getTempC r j)
                       (if negb (isnan (readTemperature r)) then readTemperature r else NAN)
                       (if negb (isnan (readHumidity r)) then readHumidity r else NAN)).
    { subst s' i r. rewrite He. unfold AgroPRO.sample_body. cbn [AgroPRO.win].
      rewrite agropro_takeSample_win by (rewrite Hw; exact Hshape).
      rewrite Hw, Hi. reflexivity. }
    assert (Hcloud : AgroPRO.cloud s'
                     = {| cloud1 := slot (ds_row (AgroPRO.win s') 0) i;
                          cloud2 := slot (ds_row (AgroPRO.win s') 1) i;
                          cloud3 := slot (ds_row (AgroPRO.win s') 2) i;
                          cloud4 := slot (ds_row (AgroPRO.win s') 3) i;
                          cloudTemp := slot (dht_temp_row (AgroPRO.win s')) i;
                          cloudHumi := slot (dht_humi_row (AgroPRO.win s')) i |}).
    { subst s' i. rewrite He. unfold AgroPRO.sample_body.
      cbn [AgroPRO.cloud AgroPRO.win AgroPRO.takeSample]. rewrite Hi. reflexivity. }
    unfold AgroPRO.sensor1, AgroPRO.sensor2, AgroPRO.sensor3, AgroPRO.sensor4,
      AgroPRO.dhtTemp, AgroPRO.dhtHumi, AgroPRO.dht_temp_samples,
      AgroPRO.dht_humidity_samples.
    rewrite Hcloud. cbn [cloud1 cloud2 cloud3 cloud4 cloudTemp cloudHumi].
    do 6 (split; [reflexivity|]).
    split; [|split].
    + rewrite Hwin. unfold sampled_window; cbn [dht_temp_row].
      destruct Hshape as (_ & _ & Ltemp & _).
      rewrite slot_insert by (subst i; unfold AgroPRO.SAMPLES_PER_HOUR in *; lia).
      intros ->. reflexivity.
    + rewrite Hwin. unfold sampled_window; cbn [dht_humi_row].
      destruct Hshape as (_ & _ & _ & Lhumi).
      rewrite slot_insert by (subst i; unfold AgroPRO.SAMPLES_PER_HOUR in *; lia).
      intros ->. reflexivity.
    + intros j Hj Hsen. subst s' i r. rewrite Hprobe, Hsen by assumption. reflexivity.
Qed.

(** A fast pass and a sample that read NaN from the DHT, the cloud
    variables at 21 degrees before. *)
Lemma live_mirror_on_invalid_read_witness :
  let D := of_int (-127) in
  let s := Agro.boot (cloud_of (of_int 21)) in
  Agro.dhtTemp (fst (Agro.loop D s (AgroClock.poll 946684800 6000 NAN))) = of_int 21 /\
  slot (Agro.dhtTBuf (fst (Agro.loop D s (AgroClock.poll 946684800 6000 NAN)))) 0 = NAN.
Proof.
  intros D s. destruct (live_mirror_on_invalid_read D) as (H1 & H2 & _).
  split.
  - apply (H1 s (AgroClock.poll 946684800 6000 NAN)). reflexivity.
  - apply (H2 s (AgroClock.poll 946684800 6000 NAN) (agro_boot_ring_ok _)
              ltac:(vm_compute; congruence) ltac:(reflexivity)).
    reflexivity.
Defined.

(** C5 as stated fails on the probe channels of [Agro.cpp] and on
    every channel of [AgroPRO.cpp]: with the cloud variables at 21
    degrees, a fast pass that finds a probe disconnected sets [temp1]
    to NaN, and a sample that reads NaN from the DHT sets [dhtTemp]
    to NaN. *)
Lemma live_value_overwritten_with_nan :
  let D := of_int (-127) in
  let s := Agro.boot (cloud_of (of_int 21)) in
  let s' := AgroPRO.boot (cloud_of (of_int 21)) in
  Agro.temp1 s = of_int 21 /\
  Agro.temp1 (fst (Agro.loop D s (AgroClock.poll 946684800 6000 (of_int (-127))))) = NAN /\
  AgroPRO.dhtTemp s' = of_int 21 /\
  AgroPRO.dhtTemp (fst (AgroPRO.loop D s' (AgroPROClock.poll 946684800 0 NAN))) = NAN.
Proof.
  cbv zeta. repeat split; vm_compute; reflexivity.
Qed.

(** * Further properties of the sketches *)

(** ** Waiting for the clock: [syncNTP] and [synchronizeNtpTime] *)

Lemma syncNTP_wait_spec (clock : nat -> Z) (t : nat) :
  forall (waits : nat) (n : Z),
    n = clock waits ->
    (forall j, (j < waits)%nat -> clock j < Agro.MIN_EPOCH) ->
    let out := Agro.syncNTP_wait clock waits t n in
    (waits <= fst out <= waits + t)%nat /\
    snd out = clock (fst out) /\
    (forall j, (j < fst out)%nat -> clock j < Agro.MIN_EPOCH) /\
    (snd out < Agro.MIN_EPOCH -> fst out = (waits + t)%nat).
Proof.
  induction t as [|t IH]; intros waits n Hn Hbelow; cbn [Agro.syncNTP_wait].
  - destruct (Z.ltb_spec n Agro.MIN_EPOCH); simpl; repeat split; auto; lia.
  - destruct (Z.ltb_spec n Agro.MIN_EPOCH) as [Hlt|Hge].
    + assert (Hb : forall j, (j < S waits)%nat -> clock j < Agro.MIN_EPOCH).
      { intros j Hj. destruct (Nat.eq_dec j waits) as [->|]; [lia|apply Hbelow; lia]. }
      destruct (IH (S waits) (clock (S waits)) eq_refl Hb) as (H1 & H2 & H3 & H4).
      repeat split; auto; try lia.
    + simpl. repeat split; auto; lia.
Qed.

Lemma synchronizeNtpTime_wait_syncNTP_wait (clock : nat -> Z) (t : nat) :
  forall (waits : nat) (n : Z),
    AgroPRO.synchronizeNtpTime_wait clock waits t n = Agro.syncNTP_wait clock waits t n.
Proof.
  induction t as [|t IH]; intros waits n;
    cbn [AgroPRO.synchronizeNtpTime_wait Agro.syncNTP_wait].
  - reflexivity.
  - rewrite IH. reflexivity.
Qed.

(** X1.  [syncNTP] of [Agro.cpp] and [synchronizeNtpTime] of
    [AgroPRO.cpp] wait at most 20 times; they return the first reading
    of the clock that has passed the minimum epoch, every earlier
    reading being below it; and they end with the clock still below
    the minimum (which [synchronizeNtpTime] reports as a failure)
    exactly when all of the first 21 readings are below it, after 20
    waits. *)
Theorem clock_wait_is_bounded (clock : nat -> Z) :
  (let w := fst (Agro.syncNTP clock) in
   let n := snd (Agro.syncNTP clock) in
   (w <= 20)%nat /\ n = clock w /\
   (forall j, (j < w)%nat -> clock j < Agro.MIN_EPOCH) /\
   (n < Agro.MIN_EPOCH <->
    forall j, (j <= 20)%nat -> clock j < Agro.MIN_EPOCH) /\
   (n < Agro.MIN_EPOCH -> w = 20%nat)) /\
  (let w := fst (fst (AgroPRO.synchronizeNtpTime clock)) in
   let n := snd (fst (AgroPRO.synchronizeNtpTime clock)) in
   let synced := snd (AgroPRO.synchronizeNtpTime clock) in
   (w <= 20)%nat /\ n = clock w /\
   (forall j, (j < w)%nat -> clock j < AgroPRO.MIN_EPOCH_TIME_SEC) /\
   (synced = false <->
    forall j, (j <= 20)%nat -> clock j < AgroPRO.MIN_EPOCH_TIME_SEC) /\
   (synced = false -> w = 20%nat) /\
   (synced = true -> AgroPRO.MIN_EPOCH_TIME_SEC <= n)).
Proof.
  assert (HA : let w := fst (Agro.syncNTP clock) in
               let n := snd (Agro.syncNTP clock) in
               (w <= 20)%nat /\ n = clock w /\
               (forall j, (j < w)%nat -> clock j < Agro.MIN_EPOCH) /\
               (n < Agro.MIN_EPOCH <->
                forall j, (j <= 20)%nat -> clock j < Agro.MIN_EPOCH) /\
               (n < Agro.MIN_EPOCH -> w = 20%nat)).
  { cbv zeta. unfold Agro.syncNTP.
    destruct (syncNTP_wait_spec clock 20 0 (clock 0%nat) eq_refl
                ltac:(intros j Hj; lia)) as (H1 & H2 & H3 & H4).
    set (out := Agro.syncNTP_wait clock 0 20 (clock 0%nat)) in *.
    split; [lia|]. split; [exact H2|]. split; [exact H3|]. split; [|exact H4].
    split.
    - intros Hn j Hj. specialize (H4 Hn). simpl in H4.
      destruct (Nat.eq_dec j 20%nat) as [->|].
      + replace (clock 20%nat) with (snd out); [exact Hn|].
        rewrite H2. f_equal. exact H4.
      + apply H3. rewrite H4. lia.
    - intros Hall. rewrite H2. apply Hall. rewrite <- Nat.lt_succ_r. lia. }
  split; [exact HA|].
  cbv zeta in *. unfold AgroPRO.synchronizeNtpTime.
  rewrite synchronizeNtpTime_wait_syncNTP_wait.
  replace (Agro.syncNTP_wait clock 0 AgroPRO.NTP_SYNC_MAX_TRIES (clock 0%nat))
    with (Agro.syncNTP clock) by reflexivity.
  destruct (Agro.syncNTP clock) as [w n]. cbn [fst snd] in *.
  replace AgroPRO.MIN_EPOCH_TIME_SEC with Agro.MIN_EPOCH by reflexivity.
  destruct HA as (H1 & H2 & H3 & H4 & H5).
  split; [exact H1|]. split; [exact H2|]. split; [exact H3|].
  destruct (Z.ltb_spec n Agro.MIN_EPOCH) as [Hlt|Hge]; cbn [negb].
  - split; [split; [intros _; apply H4, Hlt|reflexivity]|].
    split; [intros _; apply H5, Hlt|discriminate].
  - split; [split; [discriminate|intros Hall; apply H4 in Hall; lia]|].
    split; [discriminate|intros _; exact Hge].
Qed.

(** The clock is set during the third wait. *)
Lemma clock_wait_is_bounded_witness :
  let clock := fun i : nat => if Nat.ltb i 3 then 0 else 946684900 in
  AgroPRO.MIN_EPOCH_TIME_SEC <= snd (fst (AgroPRO.synchronizeNtpTime clock)).
Proof.
  intros clock.
  destruct (clock_wait_is_bounded clock) as [_ (_ & _ & _ & _ & _ & H)].
  apply H. vm_compute. reflexivity.
Defined.

(** ** The cadence of the fast read and of the resynchronisation *)

(** The unsigned difference of two readings of [millis()] is the time
    that has passed, also when the counter has wrapped around in
    between. *)
Lemma u32_elapsed (last elapsed : Z) :
  0 <= last < 4294967296 -> 0 <= elapsed < 4294967296 ->
  u32 (u32 (last + elapsed) - last) = elapsed.
Proof.
  intros Hl He. unfold u32.
  rewrite Zminus_mod_idemp_l.
  replace (last + elapsed - last) with elapsed by lia.
  apply Z.mod_small. lia.
Qed.

Lemma agro_tail_actions (D : float) (s : Agro.State) (k : Agro.Tick) (s3 : Agro.State) :
  ~ In Agro.FastRead (snd (Agro.sample_step D s k) ++ snd (Agro.report_step s3 k)).
Proof.
  unfold Agro.sample_step, Agro.report_step, Agro.postSheet.
  destruct (Agro.sample_due s k), (Agro.report_due s3 k); cbn;
    intros H; repeat (destruct H as [H|H]; [discriminate H|]); exact H.
Qed.

Lemma agro_loop_fast_read (D : float) (s : Agro.State) (k : Agro.Tick) :
  In Agro.FastRead (snd (Agro.loop D s k))
  <-> Agro.FAST_READ_MS <= u32 (Agro.millis_check k - Agro.lastFastRead s).
Proof.
  assert (Hf : In Agro.FastRead (snd (Agro.fast_step D s k))
               <-> Agro.FAST_READ_MS <= u32 (Agro.millis_check k - Agro.lastFastRead s)).
  { unfold Agro.fast_step.
    destruct (Z.leb_spec Agro.FAST_READ_MS
                (u32 (Agro.millis_check k - Agro.lastFastRead s))) as [Hle|Hgt]; cbn.
    - split; [intros _; exact Hle|intros _; left; reflexivity].
    - split; [intros []|intros Hle; lia]. }
  rewrite <- Hf.
  destruct (Z.lt_ge_cases (Agro.now k) Agro.MIN_EPOCH) as [Hlt|Hge].
  - rewrite agro_loop_invalid by exact Hlt. reflexivity.
  - rewrite agro_loop_valid by exact Hge. cbn [snd].
    rewrite in_app_iff. split; [|intros H; left; exact H].
    intros [H|H]; [exact H|]. exfalso. eapply agro_tail_actions. exact H.
Qed.

Lemma agro_loop_lastFastRead (D : float) (s : Agro.State) (k : Agro.Tick) :
  Agro.lastFastRead (fst (Agro.loop D s k))
  = Agro.lastFastRead (fst (Agro.fast_step D s k)).
Proof.
  destruct (Z.lt_ge_cases (Agro.now k) Agro.MIN_EPOCH) as [Hlt|Hge].
  - rewrite agro_loop_invalid by exact Hlt. reflexivity.
  - rewrite agro_loop_valid by exact Hge. cbn [fst].
    set (s1 := fst (Agro.fast_step D s k)).
    unfold Agro.report_step, Agro.rearm_step, Agro.sample_step.
    destruct (Agro.sample_due s1 k); cbn [fst];
      destruct (negb (Z.rem (tm_min (Agro.t k)) Agro.SAMPLE_STEP =? 0));
      match goal with |- context [Agro.report_due ?x k] =>
        destruct (Agro.report_due x k) end; reflexivity.
Qed.

(** X2.  In [Agro.cpp] a run of [loop()] performs the fast read exactly
    when at least [FAST_READ_MS] milliseconds have passed since the
    stamp [lastFastRead], also when the 32-bit counter of [millis()]
    has wrapped around since then; the stamp is renewed exactly in
    that case and is otherwise left alone, whatever the clock, the
    sample and the report do. *)
Theorem fast_read_every_five_seconds (D : float) (s : Agro.State) (k : Agro.Tick)
    (elapsed : Z) :
  0 <= Agro.lastFastRead s < 4294967296 ->
  0 <= elapsed < 4294967296 ->
  Agro.millis_check k = u32 (Agro.lastFastRead s + elapsed) ->
  (In Agro.FastRead (snd (Agro.loop D s k)) <-> Agro.FAST_READ_MS <= elapsed) /\
  Agro.lastFastRead (fst (Agro.loop D s k))
  = (if Agro.FAST_READ_MS <=? elapsed then Agro.millis_stamp k
     else Agro.lastFastRead s).
Proof.
  intros Hl He Hm.
  pose proof (u32_elapsed _ _ Hl He) as Hu. rewrite <- Hm in Hu.
  split.
  - rewrite agro_loop_fast_read, Hu. reflexivity.
  - rewrite agro_loop_lastFastRead. unfold Agro.fast_step. rewrite Hu.
    destruct (Agro.FAST_READ_MS <=? elapsed); reflexivity.
Qed.

(** The counter of [millis()] wraps around between the stamp and the
    run: the stamp is one second before the wrap, the run four seconds
    after it. *)
Lemma fast_read_every_five_seconds_witness :
  let D := of_int (-127) in
  let s := {| Agro.win := blank_window 4 6; Agro.bufIdx := 0; Agro.validSamples := 0;
              Agro.lastSampleMin := -1; Agro.lastReportHr := -1;
              Agro.lastFastRead := 4294966296; Agro.cloud := cloud_of NAN |} in
  In Agro.FastRead (snd (Agro.loop D s (AgroClock.poll 6 4000 (of_int 21)))).
Proof.
  intros D s.
  apply (proj1 (fast_read_every_five_seconds D s (AgroClock.poll 6 4000 (of_int 21)) 5000
                  ltac:(cbn; lia) ltac:(lia) ltac:(reflexivity))).
  unfold Agro.FAST_READ_MS. lia.
Defined.

Lemma agropro_tail_actions (D : float) (s : AgroPRO.State) (k : AgroPRO.Tick)
    (s3 : AgroPRO.State) :
  ~ In AgroPRO.NtpSync (snd (AgroPRO.sample_step D s k) ++ snd (AgroPRO.report_step s3 k)).
Proof.
  unfold AgroPRO.sample_step, AgroPRO.report_step.
  destruct (AgroPRO.sample_due s k), (AgroPRO.report_due s3 k); cbn;
    intros H; repeat (destruct H as [H|H]; [discriminate H|]); exact H.
Qed.

Lemma agropro_loop_resync (D : float) (s : AgroPRO.State) (k : AgroPRO.Tick) :
  (In AgroPRO.NtpSync (snd (AgroPRO.loop D s k))
   <-> In AgroPRO.NtpSync (snd (AgroPRO.resync_step s k))) /\
  AgroPRO.lastNtpSyncMillis (fst (AgroPRO.loop D s k))
  = AgroPRO.lastNtpSyncMillis (fst (AgroPRO.resync_step s k)).
Proof.
  destruct (Z.lt_ge_cases (AgroPRO.now_epoch k) AgroPRO.MIN_EPOCH_TIME_SEC) as [Hlt|Hge].
  - rewrite agropro_loop_invalid by exact Hlt. split; reflexivity.
  - rewrite agropro_loop_valid by exact Hge. cbn [fst snd]. split.
    + rewrite in_app_iff. split; [|intros H; left; exact H].
      intros [H|H]; [exact H|]. exfalso. eapply agropro_tail_actions. exact H.
    + set (s1 := fst (AgroPRO.resync_step s k)).
      unfold AgroPRO.report_step, AgroPRO.rearm_step, AgroPRO.sample_step.
      destruct (AgroPRO.sample_due s1 k); cbn [fst];
        destruct (negb (Z.rem (tm_min (AgroPRO.time_info k)) AgroPRO.SAMPLING_INTERVAL_MIN =? 0));
        match goal with |- context [AgroPRO.report_due ?x k] =>
          destruct (AgroPRO.report_due x k) end; reflexivity.
Qed.

(** X3.  In [AgroPRO.cpp] a run of [loop()] calls [synchronizeNtpTime]
    exactly when WiFi is connected and either more than
    [NTP_RESYNC_INTERVAL_MS] milliseconds have passed since the stamp
    [lastNtpSyncMillis] (also across a wrap-around of [millis()]) or
    the stamp is 0; the stamp is renewed whenever the interval has
    passed or the stamp is 0, with or without WiFi, and is otherwise
    left alone. *)
Theorem ntp_resync_every_twelve_hours (D : float) (s : AgroPRO.State) (k : AgroPRO.Tick)
    (elapsed : Z) :
  0 <= AgroPRO.lastNtpSyncMillis s < 4294967296 ->
  0 <= elapsed < 4294967296 ->
  AgroPRO.current_millis k = u32 (AgroPRO.lastNtpSyncMillis s + elapsed) ->
  (In AgroPRO.NtpSync (snd (AgroPRO.loop D s k))
   <-> AgroPRO.wifi_at_sync k = true /\
       (AgroPRO.NTP_RESYNC_INTERVAL_MS < elapsed \/ AgroPRO.lastNtpSyncMillis s = 0)) /\
  AgroPRO.lastNtpSyncMillis (fst (AgroPRO.loop D s k))
  = (if (AgroPRO.NTP_RESYNC_INTERVAL_MS <? elapsed) || (AgroPRO.lastNtpSyncMillis s =? 0)
     then AgroPRO.current_millis k else AgroPRO.lastNtpSyncMillis s).
Proof.
  intros Hl He Hm.
  pose proof (u32_elapsed _ _ Hl He) as Hu. rewrite <- Hm in Hu.
  destruct (agropro_loop_resync D s k) as [Hin Hst]. rewrite Hin, Hst.
  unfold AgroPRO.resync_step. rewrite Hu.
  destruct (Z.ltb_spec AgroPRO.NTP_RESYNC_INTERVAL_MS elapsed) as [H1|H1];
    destruct (Z.eqb_spec (AgroPRO.lastNtpSyncMillis s) 0) as [H2|H2];
    cbn [orb fst snd]; (split; [|reflexivity]);
    destruct (AgroPRO.wifi_at_sync k); cbn;
    (split; [intros H|intros [Hw Hc]]);
    try (destruct H as [H|H]; [|destruct H]);
    try discriminate; try (left; reflexivity);
    try (split; [reflexivity|]); try tauto; try lia.
Qed.

(** The first run after [setup()], with WiFi: the stamp is 0. *)
Lemma ntp_resync_every_twelve_hours_witness :
  let D := of_int (-127) in
  In AgroPRO.NtpSync
     (snd (AgroPRO.loop D (AgroPRO.boot (cloud_of NAN))
                        (AgroPROClock.poll 6 1500 (of_int 21)))).
Proof.
  intros D.
  apply (proj1 (ntp_resync_every_twelve_hours D (AgroPRO.boot (cloud_of NAN))
                  (AgroPROClock.poll 6 1500 (of_int 21)) 1500
                  ltac:(cbn; lia) ltac:(lia) ltac:(reflexivity))).
  split; [reflexivity|right; reflexivity].
Defined.

(** ** One outcome for each run of [loop()] *)

Lemma report_guard_true (last_hr : Z) (pop : bool) (c : tm) :
  report_guard last_hr pop c = true
  <-> tm_min c = 0 /\ tm_sec c = 5 /\ last_hr <> tm_hour c /\ pop = true.
Proof.
  unfold report_guard.
  rewrite !andb_true_iff, negb_true_iff, !Z.eqb_eq, Z.eqb_neq. tauto.
Qed.

(** X4.  In either sketch a run of [loop()] takes at most one sample
    and sends at most one report, and never both.  A sample is taken
    only over a valid clock at second 0 of a minute divisible by ten
    that differs from the last sampled minute; a report is sent only
    over a valid clock at minute 0, second 5, in an hour that differs
    from the last reported hour, with a count that is not 0. *)
Theorem one_outcome_per_run (D : float) :
  (forall (s : Agro.State) (k : Agro.Tick),
      let acts := snd (Agro.loop D s k) in
      (tally Agro.is_sample acts + tally Agro.is_post acts <= 1)%nat /\
      (tally Agro.is_sample acts = 1%nat ->
       Agro.MIN_EPOCH <= Agro.now k /\ tm_sec (Agro.t k) = 0 /\
       Z.rem (tm_min (Agro.t k)) Agro.SAMPLE_STEP = 0 /\
       Agro.lastSampleMin s <> tm_min (Agro.t k)) /\
      (tally Agro.is_post acts = 1%nat ->
       Agro.MIN_EPOCH <= Agro.now k /\ tm_min (Agro.t k) = 0 /\
       tm_sec (Agro.t k) = Agro.REPORT_SEC /\
       Agro.lastReportHr s <> tm_hour (Agro.t k) /\ Agro.validSamples s <> 0)) /\
  (forall (s : AgroPRO.State) (k : AgroPRO.Tick),
      let acts := snd (AgroPRO.loop D s k) in
      (tally AgroPRO.is_sample acts + tally AgroPRO.is_report acts <= 1)%nat /\
      (tally AgroPRO.is_sample acts = 1%nat ->
       AgroPRO.MIN_EPOCH_TIME_SEC <= AgroPRO.now_epoch k /\
       tm_sec (AgroPRO.time_info k) = 0 /\
       Z.rem (tm_min (AgroPRO.time_info k)) AgroPRO.SAMPLING_INTERVAL_MIN = 0 /\
       AgroPRO.last_sample_minute_taken s <> tm_min (AgroPRO.time_info k)) /\
      (tally AgroPRO.is_report acts = 1%nat ->
       AgroPRO.MIN_EPOCH_TIME_SEC <= AgroPRO.now_epoch k /\
       tm_min (AgroPRO.time_info k) = 0 /\
       tm_sec (AgroPRO.time_info k) = AgroPRO.REPORTING_TRIGGER_SECOND /\
       AgroPRO.last_report_hour_sent s <> tm_hour (AgroPRO.time_info k) /\
       0 < AgroPRO.samples_taken_this_hour s)).
Proof.
  split; intros s k; cbv zeta.
  - destruct (agro_loop_cases D s k)
      as [(Hc & _ & Hs & Hp)|[(Hc & Hsd & Hrd & _ & Hs & Hp)|
          [(Hc & Hsd & Hrd & _ & Hs & Hp)|(Hc & Hsd & Hrd & _ & Hs & Hp)]]];
      rewrite Hs, Hp; (split; [lia|]); (split; [|]); try discriminate; intros _.
    + rewrite agro_sample_due in Hsd. apply sample_guard_true in Hsd.
      destruct Hsd as (Hon & Hsec & Hne). unfold on_sampling_minute in Hon.
      apply Z.eqb_eq in Hon. auto.
    + rewrite agro_report_due in Hrd. apply report_guard_true in Hrd.
      destruct Hrd as (Hmin & Hsec & Hne & Hpop). unfold Agro.populated in Hpop.
      apply negb_true_iff, Z.eqb_neq in Hpop. auto.
  - destruct (agropro_loop_cases D s k)
      as [(Hc & _ & Hs & Hp)|[(Hc & Hsd & Hrd & _ & Hs & Hp)|
          [(Hc & Hsd & Hrd & _ & Hs & Hp)|(Hc & Hsd & Hrd & _ & Hs & Hp)]]];
      rewrite Hs, Hp; (split; [lia|]); (split; [|]); try discriminate; intros _.
    + rewrite agropro_sample_due in Hsd. apply sample_guard_true in Hsd.
      destruct Hsd as (Hon & Hsec & Hne). unfold on_sampling_minute in Hon.
      apply Z.eqb_eq in Hon. auto.
    + rewrite agropro_report_due in Hrd. apply report_guard_true in Hrd.
      destruct Hrd as (Hmin & Hsec & Hne & Hpop). unfold AgroPRO.populated in Hpop.
      apply Z.ltb_lt in Hpop. auto.
Qed.

(** ** What the report carries *)

(** The first run after [setup()] over a valid clock, at 08:00:00. *)
Lemma one_outcome_per_run_witness :
  let D := of_int (-127) in
  tm_sec (Agro.t (AgroClock.poll 946684800 0 (of_int 21))) = 0.
Proof.
  intros D.
  destruct (one_outcome_per_run D) as [HA _].
  destruct (HA (Agro.boot (cloud_of NAN)) (AgroClock.poll 946684800 0 (of_int 21)))
    as (_ & Hs & _).
  destruct (Hs ltac:(vm_compute; reflexivity)) as (_ & Hsec & _).
  exact Hsec.
Defined.

(** ** What the report carries *)

Lemma sample_guard_off_second (last_min : Z) (c : tm) :
  tm_sec c = 5 -> sample_guard last_min c = false.
Proof.
  intros Hsec. destruct (sample_guard last_min c) eqn:Hg; [|reflexivity].
  apply sample_guard_true in Hg. lia.
Qed.

Lemma agro_posted_in_loop (D : float) (s : Agro.State) (k : Agro.Tick)
    (body : Agro.Body) (code : Z) :
  In (Agro.Posted body code) (snd (Agro.loop D s k)) ->
  Agro.Posted body code = Agro.postSheet s (Agro.written_chars k) (Agro.http_code k).
Proof.
  assert (Hfast : ~ In (Agro.Posted body code) (snd (Agro.fast_step D s k))).
  { unfold Agro.fast_step.
    destruct (Agro.FAST_READ_MS <=? u32 (Agro.millis_check k - Agro.lastFastRead s));
      cbn; intros H; repeat (destruct H as [H|H]; [discriminate H|]); exact H. }
  destruct (Z.lt_ge_cases (Agro.now k) Agro.MIN_EPOCH) as [Hlt|Hge].
  - rewrite agro_loop_invalid by exact Hlt. intros H. destruct (Hfast H).
  - rewrite agro_loop_valid by exact Hge. cbn [snd].
    rewrite !in_app_iff. intros [H|[H|H]].
    + destruct (Hfast H).
    + unfold Agro.sample_step in H.
      destruct (Agro.sample_due (fst (Agro.fast_step D s k)) k); cbn in H;
        repeat (destruct H as [H|H]; [discriminate H|]); destruct H.
    + destruct (agro_before_report D s k) as (_ & _ & Hsame). cbv zeta in Hsame.
      set (s3 := Agro.rearm_step (fst (Agro.sample_step D (fst (Agro.fast_step D s k)) k)) k)
        in *.
      unfold Agro.report_step in H.
      destruct (Agro.report_due s3 k) eqn:Hrd; cbn in H; [|destruct H].
      destruct H as [H|[]]. rewrite <- H.
      rewrite agro_report_due in Hrd. apply report_guard_true in Hrd.
      destruct (Hsame (sample_guard_off_second _ _ (proj1 (proj2 Hrd)))) as (Hw & _ & Hv).
      unfold Agro.postSheet, Agro.dhtTBuf, Agro.dhtHBuf. rewrite Hw, Hv. reflexivity.
Qed.

Lemma agro_postSheet_means (s : Agro.State) (chars code : Z) :
  Agro.ring_ok s ->
  Agro.postSheet s chars code
  = Agro.Posted
      (if chars <? 0 then Agro.Unformatted
       else if chars <? 256
            then Agro.Whole (window_means (Agro.win s) (Agro.validSamples s))
            else Agro.Cut (window_means (Agro.win s) (Agro.validSamples s))) code.
Proof.
  intros (Hshape & _ & Hcnt).
  destruct (window_rows _ _ Hshape) as (r0 & r1 & r2 & r3 & Hrows & L0 & L1 & L2 & L3).
  destruct Hshape as (_ & _ & Ltemp & Lhumi).
  unfold Agro.SAMPLES_HR in *.
  unfold Agro.postSheet, window_means, channels, ds_row, Agro.dhtTBuf, Agro.dhtHBuf.
  rewrite Hrows. cbn [map seq nth app].
  rewrite !avg_mean_of_valid by lia. reflexivity.
Qed.

Lemma agropro_report_in_loop (D : float) (s : AgroPRO.State) (k : AgroPRO.Tick)
    (d : AgroPRO.Delivery) :
  In (AgroPRO.Report d) (snd (AgroPRO.loop D s k)) ->
  d = AgroPRO.reportDataToGoogleSheet s k.
Proof.
  assert (Hsync : ~ In (AgroPRO.Report d) (snd (AgroPRO.resync_step s k))).
  { unfold AgroPRO.resync_step.
    destruct ((AgroPRO.NTP_RESYNC_INTERVAL_MS
               <? u32 (AgroPRO.current_millis k - AgroPRO.lastNtpSyncMillis s))
              || (AgroPRO.lastNtpSyncMillis s =? 0)); cbn [snd];
      [destruct (AgroPRO.wifi_at_sync k)|]; cbn;
      intros H; repeat (destruct H as [H|H]; [discriminate H|]); exact H. }
  destruct (Z.lt_ge_cases (AgroPRO.now_epoch k) AgroPRO.MIN_EPOCH_TIME_SEC) as [Hlt|Hge].
  - rewrite agropro_loop_invalid by exact Hlt. intros H. destruct (Hsync H).
  - rewrite agropro_loop_valid by exact Hge. cbn [snd].
    rewrite !in_app_iff. intros [H|[H|H]].
    + destruct (Hsync H).
    + unfold AgroPRO.sample_step in H.
      destruct (AgroPRO.sample_due (fst (AgroPRO.resync_step s k)) k); cbn in H;
        repeat (destruct H as [H|H]; [discriminate H|]); destruct H.
    + destruct (agropro_before_report D s k) as (_ & _ & Hsame). cbv zeta in Hsame.
      set (s3 := AgroPRO.rearm_step
                   (fst (AgroPRO.sample_step D (fst (AgroPRO.resync_step s k)) k)) k) in *.
      unfold AgroPRO.report_step in H.
      destruct (AgroPRO.report_due s3 k) eqn:Hrd; cbn in H; [|destruct H].
      destruct H as [H|[]]. injection H as <-.
      rewrite agropro_report_due in Hrd. apply report_guard_true in Hrd.
      destruct (Hsame (sample_guard_off_second _ _ (proj1 (proj2 Hrd)))) as (Hw & _ & Hv).
      unfold AgroPRO.reportDataToGoogleSheet, AgroPRO.dht_temp_samples,
        AgroPRO.dht_humidity_samples.
      rewrite Hw, Hv. reflexivity.
Qed.

Lemma agropro_report_means (s : AgroPRO.State) :
  AgroPRO.ring_ok s ->
  map (fun i => AgroPRO.calculateAverage (ds_row (AgroPRO.win s) i)
                  (AgroPRO.samples_taken_this_hour s))
      (seq 0 AgroPRO.NUM_DS18B20_SENSORS)
  ++ [ AgroPRO.calculateAverage (AgroPRO.dht_temp_samples s)
         (AgroPRO.samples_taken_this_hour s);
       AgroPRO.calculateAverage (AgroPRO.dht_humidity_samples s)
         (AgroPRO.samples_taken_this_hour s) ]
  = window_means (AgroPRO.win s) (AgroPRO.samples_taken_this_hour s).
Proof.
  intros (Hshape & _ & Hcnt).
  destruct (window_rows _ _ Hshape) as (r0 & r1 & r2 & r3 & Hrows & L0 & L1 & L2 & L3).
  destruct Hshape as (_ & _ & Ltemp & Lhumi).
  unfold AgroPRO.SAMPLES_PER_HOUR in *.
  unfold window_means, channels, ds_row, AgroPRO.dht_temp_samples,
    AgroPRO.dht_humidity_samples, AgroPRO.NUM_DS18B20_SENSORS.
  rewrite Hrows. cbn [map seq nth app].
  rewrite !calculateAverage_mean_of_valid by lia. reflexivity.
Qed.

(** X5.  Whenever a run of [loop()] sends a report from a well-formed
    window, the text of the report is formatted from, for each of the
    six channels, the mean of the valid entries among the first [count]
    slots of the window as it was when the run began, that is before
    the reset that the same run performs.  In [Agro.cpp] the count of
    [snprintf] is not tested: the body posted is the whole text when
    the count is below 256 and only its first 255 characters when the
    count is 256 or more, and it is not formatted at all when the count
    is negative.  In [AgroPRO.cpp] nothing is computed without WiFi;
    the body is dropped when [snprintf] reports an error or 256
    characters or more; it is not posted when the connection does not
    open; and it is posted otherwise. *)
Theorem report_carries_window_means (D : float) :
  (forall (s : Agro.State) (k : Agro.Tick) (body : Agro.Body) (code : Z),
      Agro.ring_ok s ->
      In (Agro.Posted body code) (snd (Agro.loop D s k)) ->
      let means := window_means (Agro.win s) (Agro.validSamples s) in
      code = Agro.http_code k /\
      match body with
      | Agro.Whole a => 0 <= Agro.written_chars k < 256 /\ a = means
      | Agro.Cut a => 256 <= Agro.written_chars k /\ a = means
      | Agro.Unformatted => Agro.written_chars k < 0
      end) /\
  (forall (s : AgroPRO.State) (k : AgroPRO.Tick) (d : AgroPRO.Delivery),
      AgroPRO.ring_ok s ->
      In (AgroPRO.Report d) (snd (AgroPRO.loop D s k)) ->
      let means := window_means (AgroPRO.win s) (AgroPRO.samples_taken_this_hour s) in
      match d with
      | AgroPRO.NoWiFi => AgroPRO.wifi_at_report k = false
      | AgroPRO.EncodingFailed a =>
          AgroPRO.wifi_at_report k = true /\
          (AgroPRO.written_chars k < 0 \/ 256 <= AgroPRO.written_chars k) /\
          a = means
      | AgroPRO.ConnectFailed a =>
          AgroPRO.wifi_at_report k = true /\
          0 <= AgroPRO.written_chars k < 256 /\
          AgroPRO.begin_ok k = false /\ a = means
      | AgroPRO.Post a code =>
          AgroPRO.wifi_at_report k = true /\
          0 <= AgroPRO.written_chars k < 256 /\
          AgroPRO.begin_ok k = true /\
          code = AgroPRO.http_response_code k /\ a = means
      end).
Proof.
  split.
  - intros s k body code Hring Hin. cbv zeta.
    apply agro_posted_in_loop in Hin.
    rewrite agro_postSheet_means in Hin by exact Hring.
    injection Hin as -> ->. split; [reflexivity|].
    destruct (Z.ltb_spec (Agro.written_chars k) 0) as [H1|H1]; [exact H1|].
    destruct (Z.ltb_spec (Agro.written_chars k) 256) as [H2|H2];
      (split; [lia|reflexivity]).
  - intros s k d Hring Hin. cbv zeta.
    apply agropro_report_in_loop in Hin. subst d.
    unfold AgroPRO.reportDataToGoogleSheet.
    rewrite agropro_report_means by exact Hring.
    destruct (AgroPRO.wifi_at_report k); cbn [negb]; [|reflexivity].
    destruct (Z.ltb_spec (AgroPRO.written_chars k) 0) as [H1|H1]; cbn [orb].
    { split; [reflexivity|]. split; [left; exact H1|reflexivity]. }
    destruct (Z.leb_spec 256 (AgroPRO.written_chars k)) as [H2|H2].
    { split; [reflexivity|]. split; [right; exact H2|reflexivity]. }
    destruct (AgroPRO.begin_ok k); repeat split; auto; lia.
Qed.

(** One sample at 08:00:00, the report at 08:00:05 with a text of 323
    characters: the body is cut. *)
Lemma report_carries_window_means_witness :
  let D := of_int (-127) in
  let v := of_int 21 in
  let s := fst (Agro.loop D (Agro.boot (cloud_of v)) (AgroClock.poll 946684800 0 v)) in
  let k := {| Agro.millis_check := 5000; Agro.millis_stamp := 5000;
              Agro.fast_pass := all_read v;
              Agro.now := 946684805;
              Agro.t := civil_time Agro.GMT_OFFSET 946684805;
              Agro.boundary_pass := all_read v; Agro.written_chars := 323;
              Agro.http_code := 200 |} in
  256 <= Agro.written_chars k /\
  [v; v; v; v; v; v] = window_means (Agro.win s) (Agro.validSamples s).
Proof.
  intros D v s k.
  assert (Hring : Agro.ring_ok s)
    by (apply (agro_ring_step D (Agro.boot (cloud_of v))), agro_boot_ring_ok).
  exact (proj2 (proj1 (report_carries_window_means D) s k
                  (Agro.Cut [v; v; v; v; v; v]) 200 Hring
                  ltac:(vm_compute; right; left; reflexivity))).
Defined.

(** ** The window as a ring over the samples *)

Lemma slot_insert_ne (row : list float) (i p : nat) (v : float) :
  p <> i -> slot (<[i := v]> row) p = slot row p.
Proof.
  intros H. unfold slot. rewrite !nth_lookup.
  rewrite list_lookup_insert_ne by congruence. reflexivity.
Qed.

Lemma slot_insert_cases (row : list float) (i p : nat) (v : float) :
  (i < length row)%nat ->
  slot (<[i := v]> row) p = if Nat.eqb p i then v else slot row p.
Proof.
  intros Hi. destruct (Nat.eqb_spec p i) as [->|Hne].
  - apply slot_insert, Hi.
  - apply slot_insert_ne, Hne.
Qed.

(** A sample writes the slot [i] of each channel and nothing else. *)
Lemma sampled_channel_slot (w : Window) (i : nat) (f : nat -> float) (tt hh : float)
    (ch p : nat) :
  window_shape 4 6 w -> (i < 6)%nat -> (ch < 6)%nat ->
  channel_slot (sampled_window w i f tt hh) ch p
  = if Nat.eqb p i then nth ch [f 0%nat; f 1%nat; f 2%nat; f 3%nat; tt; hh] NAN
    else channel_slot w ch p.
Proof.
  intros Hs Hi Hch.
  destruct (window_rows _ _ Hs) as (r0 & r1 & r2 & r3 & Hr & L0 & L1 & L2 & L3).
  destruct Hs as (_ & _ & Ltemp & Lhumi).
  unfold channel_slot, channels, sampled_window. cbn [ds_rows dht_temp_row dht_humi_row].
  rewrite Hr. cbn [imap app].
  do 6 (destruct ch as [|ch]; [cbn; apply slot_insert_cases; lia|]). lia.
Qed.

Lemma blank_channel_slot (ch p : nat) :
  isnan (channel_slot (blank_window 4 6) ch p) = true.
Proof.
  unfold channel_slot, channels, blank_window, slot. cbn.
  do 6 (destruct ch as [|ch];
        [do 6 (destruct p as [|p]; [reflexivity|]); destruct p; reflexivity|]).
  destruct ch; destruct p; reflexivity.
Qed.

Lemma holds_last_blank : holds_last (blank_window 4 6) 0 0 [].
Proof.
  split; [reflexivity|]. split; [reflexivity|]. intros j ch Hj. lia.
Qed.

Lemma holds_last_sample (w : Window) (idx count : Z) (log : list (list float))
    (f : nat -> float) (tt hh : float) :
  window_shape 4 6 w -> 0 <= idx < 6 ->
  holds_last w idx count log ->
  holds_last (sampled_window w (Z.to_nat idx) f tt hh) ((idx + 1) mod 6)
             (Z.min (count + 1) 6)
             (log ++ [[f 0%nat; f 1%nat; f 2%nat; f 3%nat; tt; hh]]).
Proof.
  intros Hs Hidx (Hc & Hi & Hslots).
  assert (Hlen : Z.of_nat (length (log ++ [[f 0%nat; f 1%nat; f 2%nat; f 3%nat; tt; hh]]))
                 = Z.of_nat (length log) + 1)
    by (rewrite length_app; cbn [length]; lia).
  split; [rewrite Hlen; lia|].
  split; [rewrite Hlen, Hi, Zplus_mod_idemp_l; reflexivity|].
  intros j ch Hj Hch.
  rewrite sampled_channel_slot by (try exact Hs; try exact Hch; lia).
  rewrite rev_app_distr. cbn [rev app].
  assert (Hidx' : 0 <= (idx + 1) mod 6 < 6) by (apply Z.mod_pos_bound; lia).
  destruct (Z.eq_dec j 0) as [->|Hj0].
  - assert (Hp : ((idx + 1) mod 6 - 1 - 0) mod 6 = idx).
    { rewrite Z.sub_0_r, Zminus_mod_idemp_l.
      replace (idx + 1 - 1) with idx by lia. apply Z.mod_small, Hidx. }
    rewrite Hp, Nat.eqb_refl. cbn [Z.to_nat nth]. split; [|reflexivity].
    assert (idx <= Z.of_nat (length log)) by (rewrite Hi; apply Z.mod_le; lia).
    destruct (Z.lt_ge_cases (Z.of_nat (length log)) 6) as [Hsmall|Hbig].
    + rewrite Z.mod_small in Hi by lia. lia.
    + lia.
  - assert (Hj' : 0 <= j - 1 < count) by lia.
    destruct (Hslots (j - 1) ch Hj' Hch) as [Hlt Heq].
    assert (Hp : ((idx + 1) mod 6 - 1 - j) mod 6 = (idx - 1 - (j - 1)) mod 6).
    { replace ((idx + 1) mod 6 - 1 - j) with ((idx + 1) mod 6 - (1 + j)) by lia.
      rewrite Zminus_mod_idemp_l. f_equal. lia. }
    rewrite Hp.
    assert (Hne : Z.to_nat ((idx - 1 - (j - 1)) mod 6) <> Z.to_nat idx).
    { assert (0 <= (idx - 1 - (j - 1)) mod 6 < 6) by (apply Z.mod_pos_bound; lia).
      intros Heq'. apply Z2Nat.inj in Heq'; try lia.
      assert (Hz : (idx - 1 - (j - 1)) mod 6 = idx - j + 6 * (if idx - j <? 0 then 1 else 0)).
      { destruct (Z.ltb_spec (idx - j) 0).
        - symmetry. apply Z.mod_unique with (q := -1); lia.
        - symmetry. apply Z.mod_unique with (q := 0); lia. }
      rewrite Hz in Heq'. destruct (idx - j <? 0); lia. }
    apply Nat.eqb_neq in Hne. rewrite Hne.
    split; [lia|]. rewrite Heq.
    replace (Z.to_nat j) with (S (Z.to_nat (j - 1))) by lia. reflexivity.
Qed.

Lemma agro_window_step (D : float) (s : Agro.State) (k : Agro.Tick) :
  Agro.ring_ok s ->
  let s' := fst (Agro.loop D s k) in
  let acts := snd (Agro.loop D s k) in
  (tally Agro.is_post acts = 0%nat /\ tally Agro.is_sample acts = 0%nat /\
   Agro.win s' = Agro.win s /\ Agro.bufIdx s' = Agro.bufIdx s /\
   Agro.validSamples s' = Agro.validSamples s) \/
  (tally Agro.is_post acts = 0%nat /\ tally Agro.is_sample acts = 1%nat /\
   Agro.win s'
   = sampled_window (Agro.win s) (Z.to_nat (Agro.bufIdx s))
       (fun j => Agro.probe_value D (getTempC (Agro.boundary_pass k) j))
       (if isnan (readTemperature (Agro.boundary_pass k)) then NAN
        else readTemperature (Agro.boundary_pass k))
       (if isnan (readHumidity (Agro.boundary_pass k)) then NAN
        else readHumidity (Agro.boundary_pass k)) /\
   Agro.bufIdx s' = (Agro.bufIdx s + 1) mod 6 /\
   Agro.validSamples s' = Z.min (Agro.validSamples s + 1) 6) \/
  (tally Agro.is_post acts = 1%nat /\ tally Agro.is_sample acts = 0%nat /\
   Agro.win s' = blank_window 4 6 /\ Agro.bufIdx s' = 0 /\ Agro.validSamples s' = 0).
Proof.
  intros Hring. cbv zeta.
  destruct (agro_ring_step D s k Hring) as (_ & Hsam & _ & Hpost & _ & Hidle).
  cbv zeta in *.
  destruct (agro_fast_step_keeps D s k) as (Hw & Hi & _).
  destruct Hring as (Hshape & _).
  destruct (agro_loop_cases D s k)
    as [(_ & _ & Hs & Hp)
       |[(_ & _ & _ & Hout & Hs & Hp)
        |[(_ & _ & _ & Hout & Hs & Hp)|(_ & _ & _ & _ & Hs & Hp)]]].
  - left. split; [exact Hp|]. split; [exact Hs|]. apply Hidle; assumption.
  - right; left. split; [exact Hp|]. split; [exact Hs|].
    split; [|exact (Hsam Hs)].
    rewrite Hout, agro_take_sample_win by (rewrite Hw; exact Hshape).
    rewrite Hw, Hi. reflexivity.
  - right; right. split; [exact Hp|]. split; [exact Hs|].
    split; [|split; apply (Hpost Hp)].
    rewrite Hout. unfold Agro.close_window. cbn [Agro.win].
    rewrite Hw. apply agro_clearBuffers_blank, Hshape.
  - left. split; [exact Hp|]. split; [exact Hs|]. apply Hidle; assumption.
Qed.

Lemma agropro_window_step (D : float) (s : AgroPRO.State) (k : AgroPRO.Tick) :
  AgroPRO.ring_ok s ->
  let s' := fst (AgroPRO.loop D s k) in
  let acts := snd (AgroPRO.loop D s k) in
  (tally AgroPRO.is_report acts = 0%nat /\ tally AgroPRO.is_sample acts = 0%nat /\
   AgroPRO.win s' = AgroPRO.win s /\
   AgroPRO.current_sample_index s' = AgroPRO.current_sample_index s /\
   AgroPRO.samples_taken_this_hour s' = AgroPRO.samples_taken_this_hour s) \/
  (tally AgroPRO.is_report acts = 0%nat /\ tally AgroPRO.is_sample acts = 1%nat /\
   AgroPRO.win s'
   = sampled_window (AgroPRO.win s) (Z.to_nat (AgroPRO.current_sample_index s))
       (fun j => if AgroPRO.probe_invalid D (getTempC (AgroPRO.sensors k) j) then NAN
                 else getTempC (AgroPRO.sensors k) j)
       (if negb (isnan (readTemperature (AgroPRO.sensors k)))
        then readTemperature (AgroPRO.sensors k) else NAN)
       (if negb (isnan (readHumidity (AgroPRO.sensors k)))
        then readHumidity (AgroPRO.sensors k) else NAN) /\
   AgroPRO.current_sample_index s' = (AgroPRO.current_sample_index s + 1) mod 6 /\
   AgroPRO.samples_taken_this_hour s'
   = Z.min (AgroPRO.samples_taken_this_hour s + 1) 6) \/
  (tally AgroPRO.is_report acts = 1%nat /\ tally AgroPRO.is_sample acts = 0%nat /\
   AgroPRO.win s' = blank_window 4 6 /\ AgroPRO.current_sample_index s' = 0 /\
   AgroPRO.samples_taken_this_hour s' = 0).
Proof.
  intros Hring. cbv zeta.
  destruct (agropro_ring_step D s k Hring) as (_ & Hsam & _ & Hpost & _ & Hidle).
  cbv zeta in *.
  destruct (agropro_resync_step_keeps s k) as (Hw & Hi & _).
  destruct Hring as (Hshape & _).
  destruct (agropro_loop_cases D s k)
    as [(_ & _ & Hs & Hp)
       |[(_ & _ & _ & Hout & Hs & Hp)
        |[(_ & _ & _ & Hout & Hs & Hp)|(_ & _ & _ & _ & Hs & Hp)]]].
  - left. split; [exact Hp|]. split; [exact Hs|]. apply Hidle; assumption.
  - right; left. split; [exact Hp|]. split; [exact Hs|].
    split; [|exact (Hsam Hs)].
    rewrite Hout. unfold AgroPRO.sample_body. cbn [AgroPRO.win].
    rewrite agropro_takeSample_win by (rewrite Hw; exact Hshape).
    rewrite Hw, Hi. reflexivity.
  - right; right. split; [exact Hp|]. split; [exact Hs|].
    split; [|split; apply (Hpost Hp)].
    rewrite Hout. unfold AgroPRO.close_window. cbn [AgroPRO.win].
    rewrite Hw. apply agropro_clearSampleArrays_blank, Hshape.
  - left. split; [exact Hp|]. split; [exact Hs|]. apply Hidle; assumption.
Qed.

(** X6.  In either sketch a run of [loop()] that sends no report
    changes at most one slot of each channel of a well-formed window:
    when it takes a sample, the slot at the write index receives what
    the sample stores for the channel; every other slot, and every
    slot when no sample is taken, is as it was. *)
Theorem sample_writes_one_slot (D : float) :
  (forall (s : Agro.State) (k : Agro.Tick) (ch p : nat),
      Agro.ring_ok s -> (ch < 6)%nat ->
      let s' := fst (Agro.loop D s k) in
      let acts := snd (Agro.loop D s k) in
      tally Agro.is_post acts = 0%nat ->
      channel_slot (Agro.win s') ch p
      = if Nat.eqb (tally Agro.is_sample acts) 1 && Nat.eqb p (Z.to_nat (Agro.bufIdx s))
        then nth ch (Agro.stored D (Agro.boundary_pass k)) NAN
        else channel_slot (Agro.win s) ch p) /\
  (forall (s : AgroPRO.State) (k : AgroPRO.Tick) (ch p : nat),
      AgroPRO.ring_ok s -> (ch < 6)%nat ->
      let s' := fst (AgroPRO.loop D s k) in
      let acts := snd (AgroPRO.loop D s k) in
      tally AgroPRO.is_report acts = 0%nat ->
      channel_slot (AgroPRO.win s') ch p
      = if Nat.eqb (tally AgroPRO.is_sample acts) 1
           && Nat.eqb p (Z.to_nat (AgroPRO.current_sample_index s))
        then nth ch (AgroPRO.stored D (AgroPRO.sensors k)) NAN
        else channel_slot (AgroPRO.win s) ch p).
Proof.
  split; intros s k ch p Hring Hch; cbv zeta; intros Hnone.
  - pose proof Hring as (Hshape & Hidx & _). unfold Agro.SAMPLES_HR in Hidx.
    destruct (agro_window_step D s k Hring)
      as [(_ & Hs & Hw & _)|[(_ & Hs & Hw & _)|(Hp & _)]]; cbv zeta in *.
    + rewrite Hs, Hw. reflexivity.
    + rewrite Hs, Hw. rewrite sampled_channel_slot by (try exact Hshape; try exact Hch; lia).
      reflexivity.
    + rewrite Hp in Hnone. discriminate.
  - pose proof Hring as (Hshape & Hidx & _). unfold AgroPRO.SAMPLES_PER_HOUR in Hidx.
    destruct (agropro_window_step D s k Hring)
      as [(_ & Hs & Hw & _)|[(_ & Hs & Hw & _)|(Hp & _)]]; cbv zeta in *.
    + rewrite Hs, Hw. reflexivity.
    + rewrite Hs, Hw. rewrite sampled_channel_slot by (try exact Hshape; try exact Hch; lia).
      reflexivity.
    + rewrite Hp in Hnone. discriminate.
Qed.

(** The first sample after [setup()], at 08:00:00, seen from the slot
    1 of the humidity: it is left alone. *)
Lemma sample_writes_one_slot_witness :
  let D := of_int (-127) in
  let v := of_int 21 in
  let s := Agro.boot (cloud_of v) in
  let k := AgroClock.poll 946684800 0 v in
  channel_slot (Agro.win (fst (Agro.loop D s k))) 5 1 = channel_slot (Agro.win s) 5 1.
Proof.
  intros D v s k.
  rewrite (proj1 (sample_writes_one_slot D) s k 5%nat 1%nat
             (agro_boot_ring_ok _) ltac:(lia) ltac:(vm_compute; reflexivity)).
  vm_compute. reflexivity.
Defined.

Section RingRuns.

Context {St Tk Act : Type}.
Variable step : St -> Tk -> St * list Act.
Variables is_sample is_report : Act -> bool.
Variable reading : Tk -> list float.
Variable ok : St -> Prop.
Variable win_of : St -> Window.
Variables idx_of count_of : St -> Z.

Hypothesis ok_step : forall s k, ok s -> ok (fst (step s k)).
Hypothesis ok_shape :
  forall s, ok s -> window_shape 4 6 (win_of s) /\ 0 <= idx_of s < 6.
Hypothesis step_cases :
  forall s k, ok s ->
    let s' := fst (step s k) in
    let acts := snd (step s k) in
    (tally is_report acts = 0%nat /\ tally is_sample acts = 0%nat /\
     win_of s' = win_of s /\ idx_of s' = idx_of s /\ count_of s' = count_of s) \/
    (tally is_report acts = 0%nat /\ tally is_sample acts = 1%nat /\
     (exists f tt hh,
         reading k = [f 0%nat; f 1%nat; f 2%nat; f 3%nat; tt; hh] /\
         win_of s' = sampled_window (win_of s) (Z.to_nat (idx_of s)) f tt hh) /\
     idx_of s' = (idx_of s + 1) mod 6 /\
     count_of s' = Z.min (count_of s + 1) 6) \/
    (tally is_report acts = 1%nat /\ tally is_sample acts = 0%nat /\
     win_of s' = blank_window 4 6 /\ idx_of s' = 0 /\ count_of s' = 0).

Lemma holds_last_step (s : St) (k : Tk) (log : list (list float)) :
  ok s -> holds_last (win_of s) (idx_of s) (count_of s) log ->
  holds_last (win_of (fst (step s k))) (idx_of (fst (step s k)))
             (count_of (fst (step s k)))
             (log_after step is_sample is_report reading s k log).
Proof.
  intros Hok Hlast. unfold log_after.
  destruct (ok_shape s Hok) as [Hshape Hidx].
  destruct (step_cases s k Hok)
    as [(Hp & Hs & Hw & Hi & Hc)
       |[(Hp & Hs & (f & tt & hh & Hr & Hw) & Hi & Hc)|(Hp & Hs & Hw & Hi & Hc)]];
    cbv zeta in *; rewrite Hp, ?Hs, Hw, Hi, Hc; cbn [Nat.ltb Nat.leb].
  - exact Hlast.
  - rewrite Hr. apply holds_last_sample; assumption.
  - apply holds_last_blank.
Qed.

Lemma holds_last_run (ks : list Tk) :
  forall (s : St) (log : list (list float)),
    ok s -> holds_last (win_of s) (idx_of s) (count_of s) log ->
    ok (final step s ks) /\
    holds_last (win_of (final step s ks)) (idx_of (final step s ks))
               (count_of (final step s ks))
               (log_of_run step is_sample is_report reading s ks log).
Proof.
  induction ks as [|k ks IH]; intros s log Hok Hlast.
  - split; assumption.
  - cbn [final fold_left log_of_run]. apply IH.
    + apply ok_step, Hok.
    + apply holds_last_step; assumption.
Qed.

End RingRuns.

Lemma agro_holds_last_run (D : float) (c : Cloud) (ks : list Agro.Tick) :
  let s := final (Agro.loop D) (Agro.boot c) ks in
  Agro.ring_ok s /\
  holds_last (Agro.win s) (Agro.bufIdx s) (Agro.validSamples s)
    (log_of_run (Agro.loop D) Agro.is_sample Agro.is_post
       (fun k => Agro.stored D (Agro.boundary_pass k)) (Agro.boot c) ks []).
Proof.
  apply (holds_last_run (Agro.loop D) Agro.is_sample Agro.is_post
           (fun k => Agro.stored D (Agro.boundary_pass k))
           Agro.ring_ok Agro.win Agro.bufIdx Agro.validSamples).
  - intros s k Hok. apply (agro_ring_step D s k Hok).
  - intros s (Hshape & Hidx & _). split; [exact Hshape|exact Hidx].
  - intros s k Hok.
    destruct (agro_window_step D s k Hok) as [H|[(Hp & Hs & Hw & Hic)|H]].
    + left. exact H.
    + right; left. split; [exact Hp|]. split; [exact Hs|]. split; [|exact Hic].
      eexists _, _, _. split; [|exact Hw]. reflexivity.
    + right; right. exact H.
  - apply agro_boot_ring_ok.
  - apply holds_last_blank.
Qed.

Lemma agropro_holds_last_run (D : float) (c : Cloud) (ks : list AgroPRO.Tick) :
  let s := final (AgroPRO.loop D) (AgroPRO.boot c) ks in
  AgroPRO.ring_ok s /\
  holds_last (AgroPRO.win s) (AgroPRO.current_sample_index s)
    (AgroPRO.samples_taken_this_hour s)
    (log_of_run (AgroPRO.loop D) AgroPRO.is_sample AgroPRO.is_report
       (fun k => AgroPRO.stored D (AgroPRO.sensors k)) (AgroPRO.boot c) ks []).
Proof.
  apply (holds_last_run (AgroPRO.loop D) AgroPRO.is_sample AgroPRO.is_report
           (fun k => AgroPRO.stored D (AgroPRO.sensors k))
           AgroPRO.ring_ok AgroPRO.win AgroPRO.current_sample_index
           AgroPRO.samples_taken_this_hour).
  - intros s k Hok. apply (agropro_ring_step D s k Hok).
  - intros s (Hshape & Hidx & _). split; [exact Hshape|exact Hidx].
  - intros s k Hok.
    destruct (agropro_window_step D s k Hok) as [H|[(Hp & Hs & Hw & Hic)|H]].
    + left. exact H.
    + right; left. split; [exact Hp|]. split; [exact Hs|]. split; [|exact Hic].
      eexists (fun j => if AgroPRO.probe_invalid D (getTempC (AgroPRO.sensors k) j)
                        then NAN else getTempC (AgroPRO.sensors k) j), _, _.
      split; [|exact Hw]. reflexivity.
    + right; right. exact H.
  - apply agropro_boot_ring_ok.
  - apply holds_last_blank.
Qed.

(** X7.  Along every run of either sketch from [setup()], the window is
    a ring over the samples taken since the last report: the count is
    the number of those samples, capped at six; the write index is
    that number modulo six; and for every [j] below the count, the
    [j]-th most recent sample is found, channel by channel, in the slot
    [j + 1] places behind the write index, which is one of the first
    [count] slots, the ones the report averages.  Once more than six
    samples have been taken the oldest ones are overwritten. *)
Theorem window_is_a_ring_over_samples (D : float) (c : Cloud) :
  (forall ks : list Agro.Tick,
      let s := final (Agro.loop D) (Agro.boot c) ks in
      holds_last (Agro.win s) (Agro.bufIdx s) (Agro.validSamples s)
        (log_of_run (Agro.loop D) Agro.is_sample Agro.is_post
           (fun k => Agro.stored D (Agro.boundary_pass k)) (Agro.boot c) ks [])) /\
  (forall ks : list AgroPRO.Tick,
      let s := final (AgroPRO.loop D) (AgroPRO.boot c) ks in
      holds_last (AgroPRO.win s) (AgroPRO.current_sample_index s)
        (AgroPRO.samples_taken_this_hour s)
        (log_of_run (AgroPRO.loop D) AgroPRO.is_sample AgroPRO.is_report
           (fun k => AgroPRO.stored D (AgroPRO.sensors k)) (AgroPRO.boot c) ks [])).
Proof.
  split; intros ks.
  - apply agro_holds_last_run.
  - apply agropro_holds_last_run.
Qed.

(** With at most six samples in the log, the first [count] slots of a
    channel are its readings in the order they were taken. *)
Lemma holds_last_chronological (w : Window) (idx count : Z) (log : list (list float))
    (ch : nat) :
  window_shape 4 6 w -> holds_last w idx count log ->
  (length log <= 6)%nat -> (ch < 6)%nat ->
  count = Z.of_nat (length log) /\
  take (length log) (nth ch (channels w) []) = channel_log log ch.
Proof.
  intros Hshape (Hc & Hi & Hslots) Hlen Hch.
  assert (Hcount : count = Z.of_nat (length log)) by lia.
  split; [exact Hcount|].
  assert (Hrow : length (nth ch (channels w) []) = 6%nat).
  { destruct (window_rows _ _ Hshape) as (r0 & r1 & r2 & r3 & Hr & L0 & L1 & L2 & L3).
    destruct Hshape as (_ & _ & Ltemp & Lhumi).
    unfold channels. rewrite Hr. cbn [app].
    do 6 (destruct ch as [|ch]; [cbn; assumption|]). lia. }
  apply nth_ext with (d := NAN) (d' := NAN).
  - unfold channel_log. rewrite length_take, Hrow, List.length_map. lia.
  - intros i Hi'. rewrite length_take, Hrow in Hi'.
    assert (Hil : (i < length log)%nat) by lia.
    set (j := Z.of_nat (length log) - 1 - Z.of_nat i).
    assert (Hj : 0 <= j < count) by (unfold j; lia).
    destruct (Hslots j ch Hj Hch) as [_ Heq].
    assert (Hp : (idx - 1 - j) mod 6 = Z.of_nat i).
    { rewrite Hi. unfold j.
      replace (Z.of_nat (length log) mod 6 - 1 - (Z.of_nat (length log) - 1 - Z.of_nat i))
        with (Z.of_nat (length log) mod 6 - (Z.of_nat (length log) - Z.of_nat i)) by lia.
      rewrite Zminus_mod_idemp_l.
      replace (Z.of_nat (length log) - (Z.of_nat (length log) - Z.of_nat i))
        with (Z.of_nat i) by lia.
      apply Z.mod_small. lia. }
    rewrite Hp, Nat2Z.id in Heq. unfold channel_slot, slot in Heq.
    assert (Htake : nth i (take (length log) (nth ch (channels w) [])) NAN
                    = nth i (nth ch (channels w) []) NAN).
    { rewrite !nth_lookup, lookup_take_lt by lia. reflexivity. }
    rewrite Htake, Heq.
    assert (Hrev : nth (Z.to_nat j) (rev log) [] = nth i log []).
    { rewrite rev_nth by (unfold j; lia). f_equal. unfold j. lia. }
    rewrite Hrev. unfold channel_log.
    rewrite (nth_indep (map (fun reading => nth ch reading NAN) log) NAN (nth ch [] NAN))
      by (rewrite List.length_map; exact Hil).
    rewrite (map_nth (fun reading => nth ch reading NAN)). reflexivity.
Qed.

Lemma window_means_of_log (w : Window) (idx count : Z) (log : list (list float)) :
  window_shape 4 6 w -> holds_last w idx count log -> (length log <= 6)%nat ->
  window_means w count
  = map (fun ch => mean_of_valid (channel_log log ch) (length log)) (seq 0 6).
Proof.
  intros Hshape Hlast Hlen. unfold window_means.
  apply map_ext_in. intros ch Hch. apply in_seq in Hch.
  destruct (holds_last_chronological w idx count log ch Hshape Hlast Hlen ltac:(lia))
    as [Hc Htake].
  unfold mean_of_valid, valid_entries.
  rewrite Hc, Nat2Z.id, Htake.
  rewrite (take_ge (channel_log log ch))
    by (unfold channel_log; rewrite List.length_map; lia).
  reflexivity.
Qed.

(** X8.  In a run of either sketch from [setup()], the text of a report
    that is sent when at most six samples have been taken since the
    last report is formatted from, for each of the six channels, the
    mean of the valid readings among exactly those samples, summed in
    the order in which they were taken.  In [Agro.cpp] this holds of
    the text whether the body posted is the whole of it or, being
    longer than 255 characters, only its beginning; in [AgroPRO.cpp]
    it holds for the means of every delivery that computes them. *)
Theorem report_averages_samples_since_last_report (D : float) (c : Cloud) :
  (forall (ks : list Agro.Tick) (k : Agro.Tick) (body : Agro.Body) (code : Z),
      let s := final (Agro.loop D) (Agro.boot c) ks in
      let log := log_of_run (Agro.loop D) Agro.is_sample Agro.is_post
                   (fun k => Agro.stored D (Agro.boundary_pass k)) (Agro.boot c) ks [] in
      (length log <= 6)%nat ->
      In (Agro.Posted body code) (snd (Agro.loop D s k)) ->
      let means :=
        map (fun ch => mean_of_valid (channel_log log ch) (length log)) (seq 0 6) in
      match body with
      | Agro.Whole a => a = means
      | Agro.Cut a => a = means
      | Agro.Unformatted => True
      end) /\
  (forall (ks : list AgroPRO.Tick) (k : AgroPRO.Tick) (d : AgroPRO.Delivery),
      let s := final (AgroPRO.loop D) (AgroPRO.boot c) ks in
      let log := log_of_run (AgroPRO.loop D) AgroPRO.is_sample AgroPRO.is_report
                   (fun k => AgroPRO.stored D (AgroPRO.sensors k)) (AgroPRO.boot c) ks [] in
      (length log <= 6)%nat ->
      In (AgroPRO.Report d) (snd (AgroPRO.loop D s k)) ->
      let means :=
        map (fun ch => mean_of_valid (channel_log log ch) (length log)) (seq 0 6) in
      match d with
      | AgroPRO.NoWiFi => True
      | AgroPRO.EncodingFailed a => a = means
      | AgroPRO.ConnectFailed a => a = means
      | AgroPRO.Post a _ => a = means
      end).
Proof.
  split.
  - intros ks k body code. cbv zeta. intros Hlen Hin.
    destruct (agro_holds_last_run D c ks) as [Hring Hlast]. cbv zeta in Hring, Hlast.
    apply agro_posted_in_loop in Hin.
    rewrite agro_postSheet_means in Hin by exact Hring.
    rewrite (window_means_of_log _ _ _ _ (proj1 Hring) Hlast Hlen) in Hin.
    injection Hin as -> _.
    destruct (Agro.written_chars k <? 0); [exact I|].
    destruct (Agro.written_chars k <? 256); reflexivity.
  - intros ks k d. cbv zeta. intros Hlen Hin.
    destruct (agropro_holds_last_run D c ks) as [Hring Hlast]. cbv zeta in Hring, Hlast.
    apply agropro_report_in_loop in Hin. subst d.
    unfold AgroPRO.reportDataToGoogleSheet.
    rewrite agropro_report_means by exact Hring.
    rewrite (window_means_of_log _ _ _ _ (proj1 Hring) Hlast Hlen).
    destruct (negb (AgroPRO.wifi_at_report k)); [exact I|].
    destruct ((AgroPRO.written_chars k <? 0) || (256 <=? AgroPRO.written_chars k));
      [reflexivity|].
    destruct (AgroPRO.begin_ok k); reflexivity.
Qed.

(** One sample at 08:00:00, the report at 08:00:05. *)
Lemma report_averages_samples_since_last_report_witness :
  let D := of_int (-127) in
  let v := of_int 21 in
  let ks := [AgroClock.poll 946684800 0 v] in
  let log := log_of_run (Agro.loop D) Agro.is_sample Agro.is_post
               (fun k => Agro.stored D (Agro.boundary_pass k))
               (Agro.boot (cloud_of v)) ks [] in
  [v; v; v; v; v; v]
  = map (fun ch => mean_of_valid (channel_log log ch) (length log)) (seq 0 6).
Proof.
  intros D v ks log.
  apply (proj1 (report_averages_samples_since_last_report D (cloud_of v))
           ks (AgroClock.poll 946684805 5000 v) (Agro.Whole [v; v; v; v; v; v]) 200).
  - vm_compute. lia.
  - vm_compute. right. left. reflexivity.
Defined.

(** ** The two averaging functions *)

(** X9.  [avg] of [Agro.cpp], with its [uint8_t] index and counter, and
    [calculateAverage] of [AgroPRO.cpp], with its [int] ones and its
    early return, compute the same float on every array and every
    number of slots up to 255 that lies within the array. *)
Theorem averaging_functions_agree (a : list float) (n : Z) :
  0 <= n <= 255 -> (Z.to_nat n <= length a)%nat ->
  Agro.avg a n = AgroPRO.calculateAverage a n.
Proof.
  intros Hn Hlen.
  rewrite avg_mean_of_valid by assumption.
  rewrite calculateAverage_mean_of_valid by (try assumption; lia).
  reflexivity.
Qed.

(** Three slots, the middle one invalid. *)
Lemma averaging_functions_agree_witness :
  Agro.avg [of_int 20; NAN; of_int 22] 3
  = AgroPRO.calculateAverage [of_int 20; NAN; of_int 22] 3.
Proof.
  apply averaging_functions_agree.
  - lia.
  - cbn. lia.
Defined.

(** ** Who writes the cloud variables *)

Lemma agropro_resync_step_cloud (s : AgroPRO.State) (k : AgroPRO.Tick) :
  AgroPRO.cloud (fst (AgroPRO.resync_step s k)) = AgroPRO.cloud s.
Proof.
  unfold AgroPRO.resync_step.
  destruct ((AgroPRO.NTP_RESYNC_INTERVAL_MS
             <? u32 (AgroPRO.current_millis k - AgroPRO.lastNtpSyncMillis s))
            || (AgroPRO.lastNtpSyncMillis s =? 0)); reflexivity.
Qed.

(** X10.  The six cloud variables are written by the fast read alone in
    [Agro.cpp] and by the sample alone in [AgroPRO.cpp]: a run of
    [loop()] of [Agro.cpp] leaves them as the fast read leaves them
    when it is due and as they were when it is not, whatever the clock,
    the sample and the report do; a run of [loop()] of [AgroPRO.cpp]
    that takes no sample leaves them as they were, also when it sends
    the report and clears the window. *)
Theorem cloud_variables_have_one_writer (D : float) :
  (forall (s : Agro.State) (k : Agro.Tick),
      Agro.cloud (fst (Agro.loop D s k))
      = if Agro.FAST_READ_MS <=? u32 (Agro.millis_check k - Agro.lastFastRead s)
        then Agro.cloud (Agro.readSensorsFast D s (Agro.fast_pass k))
        else Agro.cloud s) /\
  (forall (s : AgroPRO.State) (k : AgroPRO.Tick),
      tally AgroPRO.is_sample (snd (AgroPRO.loop D s k)) = 0%nat ->
      AgroPRO.cloud (fst (AgroPRO.loop D s k)) = AgroPRO.cloud s).
Proof.
  split; intros s k.
  - rewrite agro_cloud_after_loop. unfold Agro.fast_step.
    destruct (Agro.FAST_READ_MS <=? u32 (Agro.millis_check k - Agro.lastFastRead s));
      reflexivity.
  - intros Hnone.
    pose proof (agropro_resync_step_cloud s k) as Hc.
    destruct (agropro_loop_cases D s k)
      as [(_ & Hout & _)
         |[(_ & _ & _ & _ & Hs & _)
          |[(_ & _ & _ & Hout & _)|(_ & _ & _ & Hout & _)]]]; cbv zeta in *.
    + rewrite Hout. exact Hc.
    + rewrite Hs in Hnone. discriminate.
    + rewrite Hout. exact Hc.
    + rewrite Hout. unfold AgroPRO.rearm_step.
      destruct (negb (Z.rem (tm_min (AgroPRO.time_info k)) AgroPRO.SAMPLING_INTERVAL_MIN =? 0));
        exact Hc.
Qed.

(** The report at 08:00:05 after the sample at 08:00:00: the window is
    cleared, the cloud variables stay. *)
Lemma cloud_variables_have_one_writer_witness :
  let D := of_int (-127) in
  let v := of_int 21 in
  let s := fst (AgroPRO.loop D (AgroPRO.boot (cloud_of NAN))
                             (AgroPROClock.poll 946684800 0 v)) in
  AgroPRO.cloud (fst (AgroPRO.loop D s (AgroPROClock.poll 946684805 5000 v)))
  = cloud_of v.
Proof.
  intros D v s.
  rewrite (proj2 (cloud_variables_have_one_writer D) s
             (AgroPROClock.poll 946684805 5000 v) ltac:(vm_compute; reflexivity)).
  vm_compute. reflexivity.
Defined.

(** ** Reports and samples along a run *)

Lemma agro_reports_bounded (D : float) (ks : list Agro.Tick) :
  forall s : Agro.State,
    Agro.ring_ok s ->
    (length (fired_epochs (Agro.loop D) Agro.now Agro.is_post s ks)
     <= length (fired_epochs (Agro.loop D) Agro.now Agro.is_sample s ks)
        + (if (Agro.validSamples s =? 0)%Z then 0 else 1))%nat.
Proof.
  induction ks as [|k ks IH]; intros s Hring; cbn [fired_epochs].
  - cbn. lia.
  - rewrite !length_app.
    pose proof (agro_no_report_when_empty D s k) as Hempty.
    specialize (IH (fst (Agro.loop D s k)) (proj1 (agro_ring_step D s k Hring))).
    pose proof Hring as (_ & _ & Hcnt). unfold Agro.SAMPLES_HR in Hcnt.
    destruct (agro_window_step D s k Hring)
      as [(Hp & Hs & _ & _ & Hc)|[(Hp & Hs & _ & _ & Hc)|(Hp & Hs & _ & _ & Hc)]];
      cbv zeta in *; rewrite Hp, Hs, Hc in *; cbn [Nat.ltb Nat.leb length] in *.
    + lia.
    + destruct (Z.min (Agro.validSamples s + 1) 6 =? 0); lia.
    + destruct (Z.eqb_spec (Agro.validSamples s) 0) as [Hz|Hz].
      * specialize (Hempty Hz). discriminate.
      * cbn [Z.eqb] in IH. lia.
Qed.

Lemma agropro_reports_bounded (D : float) (ks : list AgroPRO.Tick) :
  forall s : AgroPRO.State,
    AgroPRO.ring_ok s ->
    (length (fired_epochs (AgroPRO.loop D) AgroPRO.now_epoch AgroPRO.is_report s ks)
     <= length (fired_epochs (AgroPRO.loop D) AgroPRO.now_epoch AgroPRO.is_sample s ks)
        + (if (AgroPRO.samples_taken_this_hour s =? 0)%Z then 0 else 1))%nat.
Proof.
  induction ks as [|k ks IH]; intros s Hring; cbn [fired_epochs].
  - cbn. lia.
  - rewrite !length_app.
    pose proof (agropro_no_report_when_empty D s k) as Hempty.
    specialize (IH (fst (AgroPRO.loop D s k)) (proj1 (agropro_ring_step D s k Hring))).
    pose proof Hring as (_ & _ & Hcnt). unfold AgroPRO.SAMPLES_PER_HOUR in Hcnt.
    destruct (agropro_window_step D s k Hring)
      as [(Hp & Hs & _ & _ & Hc)|[(Hp & Hs & _ & _ & Hc)|(Hp & Hs & _ & _ & Hc)]];
      cbv zeta in *; rewrite Hp, Hs, Hc in *; cbn [Nat.ltb Nat.leb length] in *.
    + lia.
    + destruct (Z.min (AgroPRO.samples_taken_this_hour s + 1) 6 =? 0); lia.
    + destruct (Z.eqb_spec (AgroPRO.samples_taken_this_hour s) 0) as [Hz|Hz].
      * specialize (Hempty Hz). discriminate.
      * cbn [Z.eqb] in IH. lia.
Qed.

(** X11.  Along every run of either sketch from [setup()], whatever the
    clock and the polling do, the reports sent so far are never more
    than the samples taken so far: every report is preceded by a
    sample of its own. *)
Theorem never_more_reports_than_samples (D : float) (c : Cloud) :
  (forall ks : list Agro.Tick,
      (length (fired_epochs (Agro.loop D) Agro.now Agro.is_post (Agro.boot c) ks)
       <= length (fired_epochs (Agro.loop D) Agro.now Agro.is_sample (Agro.boot c) ks))%nat) /\
  (forall ks : list AgroPRO.Tick,
      (length (fired_epochs (AgroPRO.loop D) AgroPRO.now_epoch AgroPRO.is_report
                 (AgroPRO.boot c) ks)
       <= length (fired_epochs (AgroPRO.loop D) AgroPRO.now_epoch AgroPRO.is_sample
                    (AgroPRO.boot c) ks))%nat).
Proof.
  split; intros ks.
  - pose proof (agro_reports_bounded D ks (Agro.boot c) (agro_boot_ring_ok c)) as H.
    cbn in H. lia.
  - pose proof (agropro_reports_bounded D ks (AgroPRO.boot c) (agropro_boot_ring_ok c)) as H.
    cbn in H. lia.
Qed.

(** ** The logging does not depend on the live path *)

(** X12.  In either sketch the sampling and the reporting of a run of
    [loop()] depend on nothing that the live path owns.  Two runs of
    [Agro.cpp] that start with the same window, write index, count and
    debounce variables and see the same clock, boundary sensors and
    status of the POST end with the same of each and, when the text of
    the report has the same length in both, perform the same samples
    and posts, whatever [millis()], [lastFastRead], the sensors of the
    fast read and the cloud variables are.  The same holds in
    [AgroPRO.cpp], whatever [millis()], [lastNtpSyncMillis], the WiFi
    at the resynchronisation and the cloud variables are. *)
Theorem logging_ignores_live_path (D : float) :
  (forall (s s' : Agro.State) (k k' : Agro.Tick),
      agro_logging s = agro_logging s' ->
      Agro.now k = Agro.now k' -> Agro.t k = Agro.t k' ->
      Agro.boundary_pass k = Agro.boundary_pass k' ->
      Agro.http_code k = Agro.http_code k' ->
      agro_logging (fst (Agro.loop D s k)) = agro_logging (fst (Agro.loop D s' k')) /\
      (Agro.written_chars k = Agro.written_chars k' ->
       agro_logged (snd (Agro.loop D s k)) = agro_logged (snd (Agro.loop D s' k')))) /\
  (forall (s s' : AgroPRO.State) (k k' : AgroPRO.Tick),
      agropro_logging s = agropro_logging s' ->
      AgroPRO.now_epoch k = AgroPRO.now_epoch k' ->
      AgroPRO.time_info k = AgroPRO.time_info k' ->
      AgroPRO.sensors k = AgroPRO.sensors k' ->
      AgroPRO.wifi_at_report k = AgroPRO.wifi_at_report k' ->
      AgroPRO.written_chars k = AgroPRO.written_chars k' ->
      AgroPRO.begin_ok k = AgroPRO.begin_ok k' ->
      AgroPRO.http_response_code k = AgroPRO.http_response_code k' ->
      agropro_logging (fst (AgroPRO.loop D s k))
      = agropro_logging (fst (AgroPRO.loop D s' k')) /\
      agropro_logged (snd (AgroPRO.loop D s k))
      = agropro_logged (snd (AgroPRO.loop D s' k'))).
Proof.
  split.
  - intros [w i c lm lh lf cl] [w' i' c' lm' lh' lf' cl']
           [mc ms fp e tm0 bp wc code] [mc' ms' fp' e' tm0' bp' wc' code'].
    unfold agro_logging at 1 2. cbn [Agro.win Agro.bufIdx Agro.validSamples
      Agro.lastSampleMin Agro.lastReportHr Agro.now Agro.t Agro.boundary_pass
      Agro.http_code].
    intros Hv <- <- <- <-. injection Hv as <- <- <- <- <-.
    unfold Agro.loop, Agro.fast_step.
    cbn [Agro.millis_check Agro.lastFastRead Agro.now].
    destruct (Agro.FAST_READ_MS <=? u32 (mc - lf));
      destruct (Agro.FAST_READ_MS <=? u32 (mc' - lf'));
      destruct (e <? Agro.MIN_EPOCH);
      try (split; [reflexivity|intros _; reflexivity]);
      unfold Agro.sample_step, Agro.sample_due, Agro.readSensorsFast;
      cbn [Agro.t Agro.lastSampleMin];
      destruct ((Z.rem (tm_min tm0) Agro.SAMPLE_STEP =? 0) && (tm_sec tm0 =? 0)
                && negb (lm =? tm_min tm0));
      unfold Agro.rearm_step; cbn [Agro.t];
      destruct (negb (Z.rem (tm_min tm0) Agro.SAMPLE_STEP =? 0));
      unfold Agro.report_step, Agro.report_due, Agro.take_sample;
      cbn [Agro.t Agro.lastReportHr Agro.validSamples];
      match goal with |- context [if ?b then (Agro.close_window _ _, _) else _] =>
        destruct b end;
      (split; [reflexivity|cbn [Agro.written_chars]; intros <-; reflexivity]).
  - intros [w i c lm lh lf cl] [w' i' c' lm' lh' lf' cl']
           [cm ws e tm0 sn wr wc bo code] [cm' ws' e' tm0' sn' wr' wc' bo' code'].
    unfold agropro_logging at 1 2. cbn [AgroPRO.win AgroPRO.current_sample_index
      AgroPRO.samples_taken_this_hour AgroPRO.last_sample_minute_taken
      AgroPRO.last_report_hour_sent AgroPRO.now_epoch AgroPRO.time_info AgroPRO.sensors
      AgroPRO.wifi_at_report AgroPRO.written_chars AgroPRO.begin_ok
      AgroPRO.http_response_code].
    intros Hv <- <- <- <- <- <- <-. injection Hv as <- <- <- <- <-.
    unfold AgroPRO.loop, AgroPRO.resync_step.
    cbn [AgroPRO.current_millis AgroPRO.lastNtpSyncMillis AgroPRO.now_epoch
         AgroPRO.wifi_at_sync].
    destruct ((AgroPRO.NTP_RESYNC_INTERVAL_MS <? u32 (cm - lf)) || (lf =? 0));
      destruct ((AgroPRO.NTP_RESYNC_INTERVAL_MS <? u32 (cm' - lf')) || (lf' =? 0));
      destruct ws; destruct ws';
      destruct (e <? AgroPRO.MIN_EPOCH_TIME_SEC);
      try (split; reflexivity);
      unfold AgroPRO.sample_step, AgroPRO.sample_due;
      cbn [AgroPRO.time_info AgroPRO.last_sample_minute_taken];
      destruct ((Z.rem (tm_min tm0) AgroPRO.SAMPLING_INTERVAL_MIN =? 0)
                && (tm_sec tm0 =? 0) && negb (lm =? tm_min tm0));
      unfold AgroPRO.rearm_step; cbn [AgroPRO.time_info];
      destruct (negb (Z.rem (tm_min tm0) AgroPRO.SAMPLING_INTERVAL_MIN =? 0));
      unfold AgroPRO.report_step, AgroPRO.report_due, AgroPRO.sample_body,
        AgroPRO.takeSample;
      cbn [AgroPRO.time_info AgroPRO.last_report_hour_sent
           AgroPRO.samples_taken_this_hour AgroPRO.current_sample_index];
      match goal with |- context [if ?b then (AgroPRO.close_window _ _, _) else _] =>
        destruct b end;
      split; reflexivity.
Qed.

(** The sample at 08:00:00 from two states that differ in the stamp of
    the fast read and in the cloud variables, at different readings of
    [millis()]. *)
Lemma logging_ignores_live_path_witness :
  let D := of_int (-127) in
  let v := of_int 21 in
  let s := Agro.boot (cloud_of v) in
  let s' := {| Agro.win := blank_window 4 6; Agro.bufIdx := 0; Agro.validSamples := 0;
               Agro.lastSampleMin := -1; Agro.lastReportHr := -1;
               Agro.lastFastRead := 4000; Agro.cloud := cloud_of NAN |} in
  agro_logged (snd (Agro.loop D s (AgroClock.poll 946684800 0 v)))
  = agro_logged (snd (Agro.loop D s' (AgroClock.poll 946684800 9500 v))).
Proof.
  intros D v s s'.
  apply (proj1 (logging_ignores_live_path D) s s'
           (AgroClock.poll 946684800 0 v) (AgroClock.poll 946684800 9500 v));
    reflexivity.
Defined.

(** ** The two sketches log alike *)

Lemma sketches_step_alike (D : float) (s : Agro.State) (s' : AgroPRO.State)
    (k : Agro.Tick) (k' : AgroPRO.Tick) :
  Agro.ring_ok s -> agro_logging s = agropro_logging s' -> same_inputs k k' ->
  agro_logging (fst (Agro.loop D s k)) = agropro_logging (fst (AgroPRO.loop D s' k')) /\
  tally Agro.is_sample (snd (Agro.loop D s k))
  = tally AgroPRO.is_sample (snd (AgroPRO.loop D s' k')) /\
  tally Agro.is_post (snd (Agro.loop D s k))
  = tally AgroPRO.is_report (snd (AgroPRO.loop D s' k')).
Proof.
  intros Hring Hlog (Hnow & Ht & Hsens).
  unfold agro_logging, agropro_logging in Hlog.
  injection Hlog as Hw Hi Hc Hm Hh.
  assert (Hring' : AgroPRO.ring_ok s').
  { unfold AgroPRO.ring_ok. rewrite <- Hw, <- Hi, <- Hc. exact Hring. }
  assert (Hpop : Agro.populated s = AgroPRO.populated s').
  { unfold Agro.populated, AgroPRO.populated. rewrite <- Hc.
    destruct Hring as (_ & _ & Hcnt).
    destruct (Z.eqb_spec (Agro.validSamples s) 0), (Z.ltb_spec 0 (Agro.validSamples s));
      cbn; lia || reflexivity. }
  assert (Hmin : Agro.lastSampleMin (fst (Agro.loop D s k))
                 = AgroPRO.last_sample_minute_taken (fst (AgroPRO.loop D s' k')) /\
                 Agro.lastReportHr (fst (Agro.loop D s k))
                 = AgroPRO.last_report_hour_sent (fst (AgroPRO.loop D s' k')) /\
                 tally Agro.is_sample (snd (Agro.loop D s k))
                 = tally AgroPRO.is_sample (snd (AgroPRO.loop D s' k')) /\
                 tally Agro.is_post (snd (Agro.loop D s k))
                 = tally AgroPRO.is_report (snd (AgroPRO.loop D s' k'))).
  { destruct (Z.lt_ge_cases (Agro.now k) Agro.MIN_EPOCH) as [Hlt|Hge].
    - assert (Hlt' : AgroPRO.now_epoch k' < AgroPRO.MIN_EPOCH_TIME_SEC)
        by (rewrite <- Hnow; exact Hlt).
      rewrite agro_loop_invalid by exact Hlt.
      rewrite agropro_loop_invalid by exact Hlt'.
      destruct (agro_fast_step_keeps D s k) as (_ & _ & _ & Hm1 & Hh1).
      destruct (agropro_resync_step_keeps s' k') as (_ & _ & _ & Hm2 & Hh2).
      destruct (agro_fast_step_actions D s k) as [Hs1 Hp1].
      destruct (agropro_resync_step_actions s' k') as [Hs2 Hp2].
      cbv zeta in *. rewrite Hm1, Hh1, Hm2, Hh2, Hs1, Hp1, Hs2, Hp2. auto.
    - assert (Hge' : AgroPRO.MIN_EPOCH_TIME_SEC <= AgroPRO.now_epoch k')
        by (rewrite <- Hnow; exact Hge).
      rewrite agro_law_last_min, agro_law_hour, agro_law_sample, agro_law_report
        by exact Hge.
      rewrite agropro_law_last_min, agropro_law_hour, agropro_law_sample,
        agropro_law_report by exact Hge'.
      rewrite <- Hm, <- Hh, <- Ht, <- Hpop. auto. }
  destruct Hmin as (Hm' & Hh' & Hs' & Hp').
  split; [|split; assumption].
  unfold agro_logging, agropro_logging. rewrite Hm', Hh'.
  destruct (agro_window_step D s k Hring)
    as [(Hp1 & Hs1 & Hw1 & Hi1 & Hc1)|[(Hp1 & Hs1 & Hw1 & Hi1 & Hc1)
                                       |(Hp1 & Hs1 & Hw1 & Hi1 & Hc1)]];
    destruct (agropro_window_step D s' k' Hring')
      as [(Hp2 & Hs2 & Hw2 & Hi2 & Hc2)|[(Hp2 & Hs2 & Hw2 & Hi2 & Hc2)
                                         |(Hp2 & Hs2 & Hw2 & Hi2 & Hc2)]];
    cbv zeta in *; try congruence;
    rewrite Hw1, Hi1, Hc1, Hw2, Hi2, Hc2, <- ?Hw, <- ?Hi, <- ?Hc; try reflexivity.
  rewrite <- Hsens.
  destruct (isnan (readTemperature (Agro.boundary_pass k)));
    destruct (isnan (readHumidity (Agro.boundary_pass k))); reflexivity.
Qed.

(** X13.  [AgroPRO.cpp] logs exactly as [Agro.cpp] does: two runs from
    [setup()], one of each sketch, that read the same clock and the
    same sensors at the samples, end with the same window, write index,
    count and debounce variables, and sample and report at the same
    epochs, whatever [millis()], the fast read and the WiFi do and in
    spite of the [uint8_t] counters of the one and the [int] counters
    of the other. *)
Theorem sketches_log_alike (D : float) (c c' : Cloud)
    (ks : list Agro.Tick) (ks' : list AgroPRO.Tick) :
  Forall2 same_inputs ks ks' ->
  agro_logging (final (Agro.loop D) (Agro.boot c) ks)
  = agropro_logging (final (AgroPRO.loop D) (AgroPRO.boot c') ks') /\
  fired_epochs (Agro.loop D) Agro.now Agro.is_sample (Agro.boot c) ks
  = fired_epochs (AgroPRO.loop D) AgroPRO.now_epoch AgroPRO.is_sample (AgroPRO.boot c') ks' /\
  fired_epochs (Agro.loop D) Agro.now Agro.is_post (Agro.boot c) ks
  = fired_epochs (AgroPRO.loop D) AgroPRO.now_epoch AgroPRO.is_report (AgroPRO.boot c') ks'.
Proof.
  intros Hks.
  assert (Hgen : forall (s : Agro.State) (s' : AgroPRO.State),
             Agro.ring_ok s -> agro_logging s = agropro_logging s' ->
             agro_logging (final (Agro.loop D) s ks)
             = agropro_logging (final (AgroPRO.loop D) s' ks') /\
             fired_epochs (Agro.loop D) Agro.now Agro.is_sample s ks
             = fired_epochs (AgroPRO.loop D) AgroPRO.now_epoch AgroPRO.is_sample s' ks' /\
             fired_epochs (Agro.loop D) Agro.now Agro.is_post s ks
             = fired_epochs (AgroPRO.loop D) AgroPRO.now_epoch AgroPRO.is_report s' ks').
  { induction Hks as [|k k' ks ks' Hk _ IH]; intros s s' Hring Hlog.
    - cbn. auto.
    - destruct (sketches_step_alike D s s' k k' Hring Hlog Hk) as (Hlog' & Hs & Hp).
      destruct (IH _ _ (proj1 (agro_ring_step D s k Hring)) Hlog') as (H1 & H2 & H3).
      cbn [final fold_left fired_epochs].
      split; [exact H1|].
      rewrite Hs, Hp, H2, H3. destruct Hk as (-> & _). auto. }
  apply Hgen; [apply agro_boot_ring_ok|reflexivity].
Qed.

(** The first sample after [setup()], at 08:00:00, in both sketches. *)
Lemma sketches_log_alike_witness :
  let D := of_int (-127) in
  let v := of_int 21 in
  agro_logging (final (Agro.loop D) (Agro.boot (cloud_of v))
                      [AgroClock.poll 946684800 0 v])
  = agropro_logging (final (AgroPRO.loop D) (AgroPRO.boot (cloud_of v))
                           [AgroPROClock.poll 946684800 0 v]).
Proof.
  intros D v.
  apply (sketches_log_alike D (cloud_of v) (cloud_of v)
           [AgroClock.poll 946684800 0 v] [AgroPROClock.poll 946684800 0 v]).
  constructor; [|constructor].
  repeat split; reflexivity.
Defined.
